(** * carex_app.py: the collection harvester and the stock checker

    A shallow embedding of [carex_app.py].  Python objects are values of
    [pyval]; dictionaries are finite maps from strings; every function that
    can raise returns an [outcome]; the functions that talk to the web
    server, the browser, the file system and the Streamlit page thread a
    [world] through an error-and-state monad. *)

From Stdlib Require Import ZArith Ascii String Znumtheory.
From Stdlib Require Import Floats.SpecFloat.
From stdpp Require Import gmap strings list pretty.

Set Warnings "-register-all".
Local Open Scope Z_scope.
Local Open Scope string_scope.
Local Open Scope list_scope.

(** ** Python values *)

(** A binary64 number is kept symbolic: the model records where it came
    from, not its bits. *)
Inductive pyfloat :=
| FNaN
| FLiteral (lexeme : string)
| FOfInt (n : Z)
| FTrueDiv (a b : pyfloat).

Inductive pyval :=
| PNone
| PBool (b : bool)
| PInt (n : Z)
| PFloat (x : pyfloat)
| PStr (s : string)
| PList (l : list pyval)
| PDict (d : gmap string pyval).

Abbreviation dict := (gmap string pyval).
Abbreviation NaN := (PFloat FNaN).

(** ** Exceptions *)

(** What selenium raises; each of them is a [WebDriverException]. *)
Inductive webdriver_error :=
| WebDriverException
| TimeoutException
| NoSuchElementException
| StaleElementReferenceException
| InvalidArgumentException.

Inductive exn :=
| JSONDecodeError
| KeyError (key : string)
| AttributeError
| TypeError
| ValueError
| IndexError
| FileNotFoundError
| ConnectionError
| WebDriver (e : webdriver_error)
| ScriptControlException.

(** [isinstance(e, Exception)].  Streamlit's stop and rerun requests derive
    from [BaseException] only. *)
Definition is_Exception (e : exn) : bool :=
  match e with
  | ScriptControlException => false
  | _ => true
  end.

Inductive outcome (A : Type) :=
| Return (a : A)
| Raise (e : exn)
| OutOfFuel.
Arguments Return {A} a.
Arguments Raise {A} e.
Arguments OutOfFuel {A}.

#[global] Instance outcome_ret : MRet outcome := λ A a, Return a.
#[global] Instance outcome_bind : MBind outcome := λ A B f m,
  match m with
  | Return a => f a
  | Raise e => Raise e
  | OutOfFuel => OutOfFuel
  end.

#[global] Instance outcome_fmap : FMap outcome := λ A B f m,
  match m with
  | Return a => Return (f a)
  | Raise e => Raise e
  | OutOfFuel => OutOfFuel
  end.

(** [for x in xs: acc = body(acc, x)] with a body that can raise. *)
Fixpoint for_each {A B : Type} (body : B → A → outcome B) (xs : list A) (acc : B)
  : outcome B :=
  match xs with
  | [] => Return acc
  | x :: xs' => acc' ← body acc x; for_each body xs' acc'
  end.

(** ** Builtins *)

(** [urllib.parse.quote(s)] with its default [safe='/'], on the UTF-8
    bytes of [s]: letters, digits and [_.-~/] stay, any other byte becomes
    [%XX]. *)
Definition always_safe (c : ascii) : bool :=
  let n := nat_of_ascii c in
  ((65 <=? n) && (n <=? 90) || (97 <=? n) && (n <=? 122)
   || (48 <=? n) && (n <=? 57)
   || (n =? 95) || (n =? 46) || (n =? 45) || (n =? 126) || (n =? 47))%nat.

Definition hex_digit (n : nat) : ascii :=
  nth n (list_ascii_of_string "0123456789ABCDEF") "0"%char.

Fixpoint quote (s : string) : string :=
  match s with
  | EmptyString => EmptyString
  | String c s' =>
      if always_safe c then String c (quote s')
      else String "%"%char
             (String (hex_digit (nat_of_ascii c / 16))
                (String (hex_digit (nat_of_ascii c mod 16)) (quote s')))
  end.

(** A float is not a zero, read off its symbolic form.  The literal
    [m * 10 ^ e] of a page is converted to the nearest double, which is a
    zero when the literal is [2 ^ -1075] at most, half the smallest double;
    [Infinity] is no zero.  An integer is a zero when it is 0, and the
    quotient of a number by an integer as its numerator is. *)
Fixpoint literal_mantissa (s : string) (in_fraction : bool) (m f : Z)
  : Z * Z * string :=
  match s with
  | EmptyString => (m, f, s)
  | String c rest =>
      let n := nat_of_ascii c in
      if (48 <=? n)%nat && (n <=? 57)%nat
      then literal_mantissa rest in_fraction (10 * m + Z.of_nat (n - 48))
             (if in_fraction then f + 1 else f)
      else if Ascii.eqb c "." then literal_mantissa rest true m f
      else if Ascii.eqb c "-" then literal_mantissa rest in_fraction m f
      else (m, f, rest)
  end.

Fixpoint literal_exponent (s : string) (negative : bool) (e : Z) : Z :=
  match s with
  | EmptyString => if negative then - e else e
  | String c rest =>
      if Ascii.eqb c "-" then literal_exponent rest true e
      else if Ascii.eqb c "+" then literal_exponent rest negative e
      else literal_exponent rest negative (10 * e + Z.of_nat (nat_of_ascii c - 48))
  end.

Definition literal_nonzero (lexeme : string) : bool :=
  if String.prefix "I" lexeme || String.prefix "-I" lexeme then true
  else
    let '(m, f, rest) := literal_mantissa lexeme false 0 0 in
    let e := literal_exponent rest false 0 - f in
    Z.ltb 0 m && (Z.leb 0 e || Z.ltb (10 ^ (- e)) (m * 2 ^ 1075)).

Fixpoint float_nonzero (x : pyfloat) : bool :=
  match x with
  | FNaN => true
  | FLiteral lexeme => literal_nonzero lexeme
  | FOfInt n => negb (Z.eqb n 0)
  | FTrueDiv a _ => float_nonzero a
  end.

(** The binary64 number a float stands for.  An integer is converted as
    numpy converts an [int64] cell, a quotient is the IEEE 754 division of
    the library, rounded to nearest, ties to even.  The conversion of the
    decimal literal of a page is left out: no price of the script is one. *)
Definition binary64_of_Z (n : Z) : spec_float := binary_normalize 53 1024 n 0 false.

Fixpoint binary64 (x : pyfloat) : option spec_float :=
  match x with
  | FNaN => Some S754_nan
  | FLiteral _ => None
  | FOfInt n => Some (binary64_of_Z n)
  | FTrueDiv a b =>
      match binary64 a, binary64 b with
      | Some a', Some b' => Some (SFdiv 53 1024 a' b')
      | _, _ => None
      end
  end.

(** Truth value of an object, as [if x] and [not x] test it. *)
Definition truthy (v : pyval) : bool :=
  match v with
  | PNone => false
  | PBool b => b
  | PInt n => negb (Z.eqb n 0)
  | PFloat x => float_nonzero x
  | PStr s => negb (String.eqb s "")
  | PList l => match l with [] => false | _ => true end
  | PDict d => negb (bool_decide (d = ∅))
  end.

(** [d.get(key, default)]. *)
Definition py_get (v : pyval) (key : string) (dflt : pyval) : outcome pyval :=
  match v with
  | PDict d => Return (default dflt (d !! key))
  | _ => Raise AttributeError
  end.

(** [d.items()]. *)
Definition py_items (v : pyval) : outcome dict :=
  match v with
  | PDict d => Return d
  | _ => Raise AttributeError
  end.

Fixpoint chars (s : string) : list pyval :=
  match s with
  | EmptyString => []
  | String c s' => PStr (String c EmptyString) :: chars s'
  end.

(** The sequence a [for] statement walks over. *)
Definition py_iter (v : pyval) : outcome (list pyval) :=
  match v with
  | PList l => Return l
  | PStr s => Return (chars s)
  | PDict d => Return (PStr <$> (map_to_list d).*1)
  | _ => Raise TypeError
  end.

(** [xs[i]] for [i >= 0]. *)
Definition py_index {A : Type} (xs : list A) (i : nat) : outcome A :=
  match xs !! i with
  | Some x => Return x
  | None => Raise IndexError
  end.

(** [sub in s] on strings. *)
Fixpoint contains (sub s : string) : bool :=
  String.prefix sub s ||
  match s with
  | EmptyString => false
  | String _ s' => contains sub s'
  end.

Definition of_opt_str (o : option string) : pyval :=
  match o with
  | Some s => PStr s
  | None => PNone
  end.

(** ** Strings and the two patterns *)

Definition dquote : string := String "034"%char EmptyString.

Fixpoint drop_string (n : nat) (s : string) : string :=
  match n, s with
  | S n', String _ s' => drop_string n' s'
  | _, _ => s
  end.

(** The text that follows the first occurrence of [needle]. *)
Fixpoint after_first (needle s : string) : option string :=
  if String.prefix needle s then Some (drop_string (String.length needle) s)
  else match s with
       | EmptyString => None
       | String _ s' => after_first needle s'
       end.

(** [\s*] of a [str] pattern, on the UTF-8 bytes of the text: the ASCII
    white space, the separators U+001C to U+001F, and U+0085, U+00A0,
    U+1680, U+2000 to U+200A, U+2028, U+2029, U+202F, U+205F, U+3000. *)
Definition ascii_space (c : ascii) : bool :=
  let n := nat_of_ascii c in
  ((9 <=? n) && (n <=? 13) || (28 <=? n) && (n <=? 32))%nat.

Fixpoint skip_space (s : string) : string :=
  match s with
  | String c1 s1 =>
      if ascii_space c1 then skip_space s1
      else
        match s1 with
        | String c2 s2 =>
            let n1 := nat_of_ascii c1 in
            let n2 := nat_of_ascii c2 in
            if ((n1 =? 194) && ((n2 =? 133) || (n2 =? 160)))%nat then skip_space s2
            else
              match s2 with
              | String c3 s3 =>
                  let n3 := nat_of_ascii c3 in
                  if ((n1 =? 225) && (n2 =? 154) && (n3 =? 128)
                      || (n1 =? 226) && (n2 =? 128)
                         && ((128 <=? n3) && (n3 <=? 138) || (n3 =? 168)
                             || (n3 =? 169) || (n3 =? 175))
                      || (n1 =? 226) && (n2 =? 129) && (n3 =? 159)
                      || (n1 =? 227) && (n2 =? 128) && (n3 =? 128))%nat
                  then skip_space s3
                  else s
              | EmptyString => s
              end
        | EmptyString => s
        end
  | EmptyString => s
  end.

(** [});\s*for \(var attr in meta\)] matches at the head of [s]; the brace
    is the last character of the group. *)
Definition closes_meta (s : string) : bool :=
  String.prefix "};" s
  && String.prefix "for (var attr in meta)" (skip_space (drop_string 2 s)).

(** The text [.*?] takes (with DOTALL): the shortest one after which the
    rest of the pattern matches. *)
Fixpoint lazy_body (s : string) : option string :=
  if closes_meta s then Some EmptyString
  else match s with
       | EmptyString => None
       | String c s' => String c <$> lazy_body s'
       end.

(** [re.search(r'var meta = ({.*?});\s*for \(var attr in meta\)', html,
    re.DOTALL)], giving [match.group(1)].  The leftmost match starts at the
    first [var meta = {]: when nothing closes that one, nothing closes a
    later one. *)
Definition search_meta (html : string) : option string :=
  rest ← after_first "var meta = {" html;
  body ← lazy_body rest;
  Some ("{" +:+ body +:+ "}").

Fixpoint until_quote (s : string) : option (string * string) :=
  match s with
  | EmptyString => None
  | String c s' =>
      if Ascii.eqb c "034"%char then Some (EmptyString, s')
      else '(href, rest) ← until_quote s'; Some (String c href, rest)
  end.

Fixpoint no_slash (s : string) : bool :=
  match s with
  | EmptyString => true
  | String c s' => negb (Ascii.eqb c "/"%char) && no_slash s'
  end.

(** [/products/] and then one character or more, none of them a slash:
    the end of the pattern of the group, on a text without quotes. *)
Definition products_segment (s : string) : bool :=
  String.prefix "/products/" s
  && negb (String.eqb (drop_string 10 s) EmptyString)
  && no_slash (drop_string 10 s).

Fixpoint has_products_segment (s : string) : bool :=
  products_segment s ||
  match s with
  | EmptyString => false
  | String _ s' => has_products_segment s'
  end.

(** The pattern of the group matches a whole text without quotes: one
    character or more, then [/products/], then a last segment. *)
Definition href_matches (href : string) : bool :=
  match href with
  | EmptyString => false
  | String _ href' => has_products_segment href'
  end.

(** The pattern of the prefetch links matches at the head of [s]: the
    group and the text after the match. *)
Definition match_prefetch (s : string) : option (string * string) :=
  let opening := "<link rel=" +:+ dquote +:+ "prefetch" +:+ dquote +:+ " href=" +:+ dquote in
  if String.prefix opening s then
    '(href, rest) ← until_quote (drop_string (String.length opening) s);
    if href_matches href then Some (href, rest) else None
  else None.

(** [re.findall]: matches from left to right, without overlap. *)
Fixpoint findall_prefetch (fuel : nat) (s : string) : list string :=
  match fuel with
  | O => []
  | S fuel' =>
      match match_prefetch s with
      | Some (href, rest) => href :: findall_prefetch fuel' rest
      | None =>
          match s with
          | EmptyString => []
          | String _ s' => findall_prefetch fuel' s'
          end
      end
  end.

Definition extract_product_urls_from_collection_page (html : string) : list string :=
  findall_prefetch (S (String.length html)) html.

Definition enumerate {A : Type} (xs : list A) : list (nat * A) :=
  zip (seq 0 (length xs)) xs.

(** ** Frames *)

(** A [pandas.DataFrame]: the column labels and one record per row, each
    with a cell under every label.  The cells keep the Python objects they
    were built from. *)
Record DataFrame := { columns : list string; records : list dict }.

Definition cell (row : dict) (label : string) : pyval := default NaN (row !! label).

(** [pd.DataFrame(rows)] for a list of dictionaries: the labels are the
    keys of the rows, and a key a row lacks gives a [NaN] cell.  The order
    of the labels is not the one pandas gives; [scrape_variants] selects
    its four columns by name before the frame is used. *)
Definition DataFrame_of_records (rows : list dict) : DataFrame :=
  let labels := elements (⋃ (dom <$> rows) : gset string) in
  {| columns := labels;
     records := (λ row, list_to_map ((λ c, (c, cell row c)) <$> labels)) <$> rows |}.

(** [df[label]] as the list of its cells. *)
Definition column (df : DataFrame) (label : string) : list pyval :=
  (λ row, cell row label) <$> records df.

(** [df[label] = values]. *)
Definition set_column (df : DataFrame) (label : string) (values : list pyval)
  : DataFrame :=
  {| columns := if bool_decide (label ∈ columns df) then columns df
                else columns df ++ [label];
     records := zip_with (λ row v, <[label := v]> row) (records df) values |}.

(** [df[labels]] with a list of labels: a [KeyError] when one of them is
    not a column (it names the missing labels; the model keeps the first). *)
Definition select_columns (df : DataFrame) (labels : list string)
  : outcome DataFrame :=
  match filter (λ c, c ∉ columns df) labels with
  | [] => Return {| columns := labels;
                    records := (λ row, list_to_map ((λ c, (c, cell row c)) <$> labels))
                                 <$> records df |}
  | missing :: _ => Raise (KeyError missing)
  end.

Definition head (n : nat) (df : DataFrame) : DataFrame :=
  {| columns := columns df; records := take n (records df) |}.

(** [pd.notna(x)] on a scalar. *)
Definition notna (v : pyval) : bool :=
  match v with
  | PNone | PFloat FNaN => false
  | _ => true
  end.

(** [row[label]] on a row of a frame. *)
Definition row_get (row : dict) (label : string) : outcome pyval :=
  match row !! label with
  | Some v => Return v
  | None => Raise (KeyError label)
  end.

(** ** The world outside the script *)

Record response := { status_code : Z; text : string }.

Inductive notice :=
| StartingVariantScrape
| FailedToLoadPage (page : Z)
| NoMoreProducts
| DoneScrapingVariants (file : string)
| MustRunScrapeVariantsFirst
| CheckingStockStatus
| StockStatusChecked (file : string).

(** The argument of a progress bar: an integer, or
    [int((num / den) * 100)], a binary64 computation that is kept symbolic. *)
Inductive progress_value :=
| Percent (p : Z)
| PercentOfRatio (num den : nat).

(** What the page shows, one entry per Streamlit command. *)
Inductive ui_event :=
| StProgress (value : progress_value)
| StWrite (msg : notice)
| StError (msg : notice)
| StSuccess (msg : notice)
| StDataframe (df : DataFrame)
| StDownloadButton (file_name : string).

(** What one pass through the [try] block of [extract_first_product_info]
    finds in the browser. *)
Inductive page_view :=
| NavigationRaises (e : webdriver_error)
| WaitRaises (e : webdriver_error)
| FindRaises (e : webdriver_error)
| ProductElement (class_attribute : option string)
                 (view_link : option (option string)).

(** The parts of the world the script reads: the web server by URL, the
    launch of Chrome, the browser by navigation number and URL, and whether
    the [n]-th Streamlit command of the run is cut short by a stop or rerun
    request. *)
Record environment := {
  serve : string → outcome response;
  launch : outcome unit;
  browse : nat → pyval → page_view;
  interrupted : nat → bool
}.

(** The parts the script changes. *)
Record world := {
  files : gmap string DataFrame;
  requested : list string;
  slept : nat;
  shown : list ui_event;
  started : nat;
  quitted : nat;
  visited : list pyval
}.

Definition M (A : Type) : Type := world → outcome A * world.

#[global] Instance M_ret : MRet M := λ A a w, (Return a, w).
#[global] Instance M_bind : MBind M := λ A B f m w,
  match m w with
  | (Return a, w') => f a w'
  | (Raise e, w') => (Raise e, w')
  | (OutOfFuel, w') => (OutOfFuel, w')
  end.

#[global] Instance M_fmap : FMap M := λ A B f m w,
  let '(o, w') := m w in (f <$> o, w').

Definition lift {A : Type} (o : outcome A) : M A := λ w, (o, w).

(** [try: body except Exception: handler]. *)
Definition try_except_Exception {A : Type} (body : M A) (handler : M A) : M A :=
  λ w, match body w with
       | (Raise e, w') => if is_Exception e then handler w' else (Raise e, w')
       | r => r
       end.

(** [try: body except: handler]. *)
Definition try_except {A : Type} (body : outcome A) (handler : A) : outcome A :=
  match body with
  | Raise _ => Return handler
  | r => r
  end.

Definition time_sleep (seconds : nat) : M unit := λ w,
  (Return (),
   {| files := files w; requested := requested w; slept := slept w + seconds;
      shown := shown w; started := started w; quitted := quitted w;
      visited := visited w |}).

(** [df.to_excel(excel_writer, index=False)].  [excel_writer] has no
    default: the call without it is a [TypeError].  The store keeps the
    frame as it is: what a spreadsheet does to a cell on the way (an empty
    text and [None] are read back as [NaN]) is not modelled, and no
    property below reads back a file that the script wrote. *)
Definition to_excel (excel_writer : option string) (df : DataFrame) : M unit := λ w,
  match excel_writer with
  | Some path =>
      (Return (),
       {| files := <[path := df]> (files w); requested := requested w;
          slept := slept w; shown := shown w; started := started w;
          quitted := quitted w; visited := visited w |})
  | None => (Raise TypeError, w)
  end.

Definition os_path_exists (path : string) : M bool := λ w,
  (Return (bool_decide (is_Some (files w !! path))), w).

Definition pd_read_excel (path : string) : M DataFrame := λ w,
  match files w !! path with
  | Some df => (Return df, w)
  | None => (Raise FileNotFoundError, w)
  end.

Definition driver_quit : M unit := λ w,
  (Return (),
   {| files := files w; requested := requested w; slept := slept w;
      shown := shown w; started := started w; quitted := S (quitted w);
      visited := visited w |}).

Section Python.

(** Library functions the script calls and the model does not open:
    [repr] of floats and containers, [json.loads], the column division of
    pandas, and what pandas does when [apply] runs over a frame without
    rows and the result is assigned to a column. *)
Variable py_repr : pyval → string.
Variable json_loads : string → outcome pyval.
Variable series_truediv : list pyval → Z → outcome (list pyval).
Variable assign_apply_empty : outcome unit.

(** [str(x)], also what an f-string field without a format does. *)
Definition py_str (v : pyval) : string :=
  match v with
  | PNone => "None"
  | PBool true => "True"
  | PBool false => "False"
  | PInt n => pretty n
  | PStr s => s
  | _ => py_repr v
  end.

(** *** [flatten_product_variant] *)

Definition flatten_dicts (product variant : dict) (product_url : option string)
  : dict :=
  let flat_data := ∅ in
  let flat_data :=
    map_fold (λ k v flat_data,
                if bool_decide (k ≠ "variants")
                then <["product_" +:+ k := v]> flat_data
                else flat_data) flat_data product in
  let flat_data :=
    map_fold (λ k v flat_data, <["variant_" +:+ k := v]> flat_data)
             flat_data variant in
  let flat_data := <["product_url" := of_opt_str product_url]> flat_data in
  let flat_data :=
    <["variant_url" :=
        if truthy (of_opt_str product_url)
        then PStr (py_str (of_opt_str product_url) +:+ "?variant="
                   +:+ py_str (default PNone (variant !! "id")))
        else PNone]> flat_data in
  flat_data.

Definition flatten_product_variant (product variant : pyval)
    (product_url : option string) : outcome dict :=
  p ← py_items product;
  v ← py_items variant;
  Return (flatten_dicts p v product_url).

(** *** [extract_variants_from_script] *)

Definition extract_variants_from_script (html : string) : outcome pyval :=
  match search_meta html with
  | None => Return (PList [])
  | Some meta_json =>
      meta_data ← json_loads meta_json;
      py_get meta_data "products" (PList [])
  end.

(** *** Streamlit, requests, selenium *)

Variable env : environment.

(** A Streamlit command: it shows [ev], unless a stop or rerun request
    is delivered in it. *)
Definition st (ev : ui_event) : M unit := λ w,
  if interrupted env (length (shown w)) then (Raise ScriptControlException, w)
  else
    (Return (),
     {| files := files w; requested := requested w; slept := slept w;
        shown := shown w ++ [ev]; started := started w; quitted := quitted w;
        visited := visited w |}).

Definition requests_get (url : string) : M response := λ w,
  (serve env url,
   {| files := files w; requested := requested w ++ [url]; slept := slept w;
      shown := shown w; started := started w; quitted := quitted w;
      visited := visited w |}).

(** [init_driver]: both branches of the test on [/usr/bin/google-chrome]
    end in [webdriver.Chrome(...)], which starts a session or raises. *)
Definition init_driver : M unit := λ w,
  match launch env with
  | Return _ =>
      (Return (),
       {| files := files w; requested := requested w; slept := slept w;
          shown := shown w; started := S (started w); quitted := quitted w;
          visited := visited w |})
  | Raise e => (Raise e, w)
  | OutOfFuel => (OutOfFuel, w)
  end.

(** [driver.get(url)] and what the browser then holds. *)
Definition driver_get (url : pyval) : M page_view := λ w,
  let view := browse env (length (visited w)) url in
  let w' :=
    {| files := files w; requested := requested w; slept := slept w;
       shown := shown w; started := started w; quitted := quitted w;
       visited := visited w ++ [url] |} in
  match view with
  | NavigationRaises e => (Raise (WebDriver e), w')
  | _ => (Return view, w')
  end.

(** *** [scrape_variants] *)

(** The inner loop of a page: one row per variant of [product]. *)
Definition product_rows (product : pyval) (product_url : option string)
    (all_rows : list dict) : outcome (list dict) :=
  variants ← py_get product "variants" (PList []);
  variants ← py_iter variants;
  for_each (λ all_rows variant,
              row ← flatten_product_variant product variant product_url;
              Return (all_rows ++ [row]))
           variants all_rows.

Definition pair_product_url (product_urls : list string) (i : nat)
  : outcome (option string) :=
  if bool_decide (i < length product_urls)%nat
  then Some <$> py_index product_urls i
  else Return None.

(** The body of [for i, product in enumerate(products)]. *)
Definition pair_and_flatten (product_urls : list string) (all_rows : list dict)
    (indexed : nat * pyval) : outcome (list dict) :=
  let '(i, product) := indexed in
  product_url ← pair_product_url product_urls i;
  product_rows product product_url all_rows.

Definition page_rows (products : pyval) (product_urls : list string)
    (all_rows : list dict) : outcome (list dict) :=
  products ← py_iter products;
  for_each (pair_and_flatten product_urls) (enumerate products) all_rows.

Definition collection_url (page : Z) : string :=
  "https://carex.com/collections/all?page=" +:+ pretty page.

(** [while True: ...], one unit of fuel per page. *)
Fixpoint harvest (fuel : nat) (page : Z) (all_rows : list dict) : M (list dict) :=
  match fuel with
  | O => lift OutOfFuel
  | S fuel' =>
      let url := collection_url page in
      res ← requests_get url;
      if bool_decide (status_code res ≠ 200) then
        _ ← st (StError (FailedToLoadPage page));
        mret all_rows
      else
        products ← lift (extract_variants_from_script (text res));
        if negb (truthy products) then
          _ ← st (StSuccess NoMoreProducts);
          mret all_rows
        else
          let product_urls := extract_product_urls_from_collection_page (text res) in
          all_rows ← lift (page_rows products product_urls all_rows);
          _ ← st (StProgress (Percent (Z.min (page * 10) 100)));
          _ ← time_sleep 1;
          harvest fuel' (page + 1) all_rows
  end.

Definition keep_columns : list string :=
  ["variant_name"; "variant_sku"; "variant_price_usd"; "variant_public_title"].

(** From [df = pd.DataFrame(all_rows)] to the end of [scrape_variants]. *)
Definition save_variants (all_rows : list dict) : M DataFrame :=
  let df := DataFrame_of_records all_rows in
  df ← (if bool_decide ("variant_price" ∈ columns df) then
          usd ← lift (series_truediv (column df "variant_price") 100);
          mret (set_column df "variant_price_usd" usd)
        else mret df);
  df ← lift (select_columns df keep_columns);
  let output_file := "carex_variants_raw.xlsx" in
  _ ← to_excel (Some output_file) df;
  _ ← st (StSuccess (DoneScrapingVariants output_file));
  _ ← st (StDataframe (head 10 df));
  _ ← to_excel None df;
  _ ← st (StDownloadButton "carex_variants_raw.xlsx");
  mret df.

(** The loop entered at [page] with [all_rows] collected, and the rest
    of the function. *)
Definition scrape_variants_from (fuel : nat) (page : Z) (all_rows : list dict)
  : M DataFrame :=
  all_rows ← harvest fuel page all_rows;
  save_variants all_rows.

Definition scrape_variants (fuel : nat) : M DataFrame :=
  let all_rows := [] in
  let page := 1 in
  _ ← st (StProgress (Percent 0));
  _ ← st (StWrite StartingVariantScrape);
  scrape_variants_from fuel page all_rows.

(** *** [extract_first_product_info] *)

Definition stock_status_of (classes : string) : string :=
  if contains "snize-product-in-stock" classes then "In Stock"
  else if contains "snize-product-out-of-stock" classes then "Out of Stock"
  else "Unknown".

(** The [href] of the view link made absolute. *)
Definition product_url_of (href : option string) : pyval :=
  let base_url := "https://carex.com" in
  match href with
  | Some h =>
      if truthy (PStr h) && String.prefix "/products/" h
      then PStr (base_url +:+ h)
      else PStr h
  | None => PNone
  end.

(** The [try] block of one attempt. *)
Definition attempt (search_url : pyval) (wait_time : nat) : M (pyval * string) :=
  view ← driver_get search_url;
  lift
    match view with
    | NavigationRaises e | WaitRaises e | FindRaises e => Raise (WebDriver e)
    | ProductElement classes view_link =>
        stock_status ← match classes with
                       | Some classes => Return (stock_status_of classes)
                       | None => Raise TypeError
                       end;
        product_url ← try_except
                        match view_link with
                        | Some href => Return (product_url_of href)
                        | None => Raise (WebDriver NoSuchElementException)
                        end
                        PNone;
        Return (product_url, stock_status)
    end.

(** [for attempt in range(retries): ...]: an attempt returns from the
    function, or sleeps and leaves the next one to run. *)
Fixpoint extract_first_product_info (search_url : pyval) (retries wait_time : nat)
  : M (pyval * string) :=
  match retries with
  | O => mret (PNone, "Retry Failed")
  | S retries' =>
      returned ← try_except_Exception
                   (Some <$> attempt search_url wait_time)
                   (_ ← time_sleep 1; mret None);
      match returned with
      | Some result => mret result
      | None => extract_first_product_info search_url retries' wait_time
      end
  end.

(** *** [scrape_search_results] *)

Definition base_search_url : string := "https://carex.com/pages/search-results-page?q=".

Definition make_search_url (row : dict) : outcome pyval :=
  sku ← row_get row "variant_sku";
  query ← (if notna sku then Return sku else row_get row "variant_name");
  Return (if notna query then PStr (base_search_url +:+ quote (py_str query))
          else PNone).

(** [df_input["search_url"] = df_input.apply(make_search_url, axis=1)]. *)
Definition add_search_urls (df_input : DataFrame) : outcome DataFrame :=
  match records df_input with
  | [] => _ ← assign_apply_empty; Return df_input
  | rows =>
      search_urls ← for_each (λ urls row, url ← make_search_url row; Return (urls ++ [url]))
                             rows [];
      Return (set_column df_input "search_url" search_urls)
  end.

(** The body of [for idx, row in df_input.iterrows()]. *)
Definition check_row (n : nat) (results : list dict) (idx : nat) (row : dict)
  : M (list dict) :=
  search_url ← lift (row_get row "search_url");
  '(product_url, stock_status) ← extract_first_product_info search_url 5 10;
  let row_data := row in
  let row_data := <["product_page_url" := product_url]> row_data in
  let row_data := <["stock_status" := PStr stock_status]> row_data in
  let results := results ++ [row_data] in
  _ ← st (StProgress (PercentOfRatio (idx + 1) n));
  mret results.

Fixpoint check_rows (n : nat) (rows : list (nat * dict)) (results : list dict)
  : M (list dict) :=
  match rows with
  | [] => mret results
  | (idx, row) :: rows' =>
      results ← check_row n results idx row;
      check_rows n rows' results
  end.

Definition scrape_search_results : M (option DataFrame) :=
  let input_file := "carex_variants_raw.xlsx" in
  found ← os_path_exists input_file;
  if negb found then
    _ ← st (StError MustRunScrapeVariantsFirst);
    mret None
  else
    df_input ← pd_read_excel input_file;
    df_input ← lift (add_search_urls df_input);
    _ ← init_driver;
    _ ← st (StWrite CheckingStockStatus);
    let results := [] in
    _ ← st (StProgress (Percent 0));
    results ← check_rows (length (records df_input)) (enumerate (records df_input)) results;
    _ ← driver_quit;
    let df_out := DataFrame_of_records results in
    let output_file := "carex_variants_checked.xlsx" in
    _ ← to_excel (Some output_file) df_out;
    _ ← st (StSuccess (StockStatusChecked output_file));
    _ ← st (StDataframe (head 10 df_out));
    _ ← to_excel None df_out;
    _ ← st (StDownloadButton "carex_variants_checked.xlsx");
    mret (Some df_out).

End Python.

(** *** Worlds after a step *)

(** The world after a navigation to [url]. *)
Definition after_visit (url : pyval) (w : world) : world :=
  {| files := files w; requested := requested w; slept := slept w;
     shown := shown w; started := started w; quitted := quitted w;
     visited := visited w ++ [url] |}.

(** The world after [n] failed attempts on [url]: [n] navigations and
    [n] seconds of sleep. *)
Definition after_retries (url : pyval) (n : nat) (w : world) : world :=
  {| files := files w; requested := requested w; slept := slept w + n;
     shown := shown w; started := started w; quitted := quitted w;
     visited := visited w ++ replicate n url |}.

(** The world after [ev] was shown. *)
Definition after_shown (ev : ui_event) (w : world) : world :=
  {| files := files w; requested := requested w; slept := slept w;
     shown := shown w ++ [ev]; started := started w; quitted := quitted w;
     visited := visited w |}.

(** The world after the fetch of [page] failed and the failure was
    reported. *)
Definition after_failed_fetch (page : Z) (w : world) : world :=
  {| files := files w; requested := requested w ++ [collection_url page];
     slept := slept w; shown := shown w ++ [StError (FailedToLoadPage page)];
     started := started w; quitted := quitted w; visited := visited w |}.

(** The world after [page] was fetched and found without products. *)
Definition after_empty_page (page : Z) (w : world) : world :=
  {| files := files w; requested := requested w ++ [collection_url page];
     slept := slept w; shown := shown w ++ [StSuccess NoMoreProducts];
     started := started w; quitted := quitted w; visited := visited w |}.

(** ** A model of the library functions, for running the script on
    concrete pages *)

(** *** [json.loads] *)

Definition json_space (c : ascii) : bool :=
  let n := nat_of_ascii c in
  ((n =? 32) || (n =? 9) || (n =? 10) || (n =? 13))%nat.

Fixpoint skip_json_space (s : string) : string :=
  match s with
  | String c s' => if json_space c then skip_json_space s' else s
  | EmptyString => s
  end.

Definition is_digit (c : ascii) : bool :=
  let n := nat_of_ascii c in ((48 <=? n) && (n <=? 57))%nat.

(** The digits at the head of [s], and the rest. *)
Fixpoint span_digits (s : string) : string * string :=
  match s with
  | String c s' =>
      if is_digit c then let '(ds, rest) := span_digits s' in (String c ds, rest)
      else (EmptyString, s)
  | EmptyString => (EmptyString, s)
  end.

Fixpoint digits_value (acc : Z) (ds : string) : Z :=
  match ds with
  | String c ds' => digits_value (10 * acc + Z.of_nat (nat_of_ascii c - 48)) ds'
  | EmptyString => acc
  end.

(** A number at the head of [s]: an optional minus, [0] or digits that do
    not start with [0], an optional fraction, an optional exponent.  It is
    an [int] without fraction and exponent, else a [float]. *)
Definition scan_number (s : string) : option (pyval * string) :=
  let '(sign, s1) := match s with
                     | String "-" s' => ("-", s')
                     | _ => (EmptyString, s)
                     end in
  let '(int_part, s2) :=
    match s1 with
    | String "0" s' => ("0", s')
    | _ => span_digits s1
    end in
  if String.eqb int_part EmptyString then None
  else
    let '(frac, s3) :=
      match s2 with
      | String "." s' =>
          let '(ds, rest) := span_digits s' in
          if String.eqb ds EmptyString then (EmptyString, s2) else ("." +:+ ds, rest)
      | _ => (EmptyString, s2)
      end in
    let '(expo, s4) :=
      match s3 with
      | String e s' =>
          if Ascii.eqb e "e" || Ascii.eqb e "E" then
            let '(esign, s'') := match s' with
                                 | String "+" r => ("+", r)
                                 | String "-" r => ("-", r)
                                 | _ => (EmptyString, s')
                                 end in
            let '(ds, rest) := span_digits s'' in
            if String.eqb ds EmptyString then (EmptyString, s3)
            else (String e (esign +:+ ds), rest)
          else (EmptyString, s3)
      | EmptyString => (EmptyString, s3)
      end in
    if String.eqb frac EmptyString && String.eqb expo EmptyString then
      let n := digits_value 0 int_part in
      Some (PInt (if String.eqb sign "-" then - n else n), s4)
    else Some (PFloat (FLiteral (sign +:+ int_part +:+ frac +:+ expo)), s4).

Definition hex_value (c : ascii) : option N :=
  let n := N_of_ascii c in
  if ((48 <=? n) && (n <=? 57))%N then Some (n - 48)%N
  else if ((65 <=? n) && (n <=? 70))%N then Some (n - 55)%N
  else if ((97 <=? n) && (n <=? 102))%N then Some (n - 87)%N
  else None.

Definition hex4 (a b c d : ascii) : option N :=
  x ← hex_value a; y ← hex_value b; z ← hex_value c; t ← hex_value d;
  Some (((x * 16 + y) * 16 + z) * 16 + t)%N.

(** The UTF-8 bytes of a code point. *)
Definition utf8 (cp : N) : string :=
  let byte n := String (ascii_of_N n) EmptyString in
  if (cp <? 128)%N then byte cp
  else if (cp <? 2048)%N then byte (192 + cp / 64)%N +:+ byte (128 + cp mod 64)%N
  else if (cp <? 65536)%N then
    byte (224 + cp / 4096)%N +:+ byte (128 + (cp / 64) mod 64)%N
    +:+ byte (128 + cp mod 64)%N
  else
    byte (240 + cp / 262144)%N +:+ byte (128 + (cp / 4096) mod 64)%N
    +:+ byte (128 + (cp / 64) mod 64)%N +:+ byte (128 + cp mod 64)%N.

(** The text of a string after its opening quote, and what follows the
    closing quote.  A control character is refused, as [strict] has it. *)
Fixpoint scan_string (s : string) : option (string * string) :=
  match s with
  | EmptyString => None
  | String c s1 =>
      if Ascii.eqb c "034" then Some (EmptyString, s1)
      else if (nat_of_ascii c <? 32)%nat then None
      else if Ascii.eqb c "\" then
        match s1 with
        | String "u" (String a (String b (String c' (String d s2)))) =>
            hi ← hex4 a b c' d;
            let single := '(t, rest) ← scan_string s2; Some (utf8 hi +:+ t, rest) in
            if ((55296 <=? hi) && (hi <=? 56319))%N then
              match s2 with
              | String "\" (String "u" (String a' (String b' (String c'' (String d' s3))))) =>
                  match hex4 a' b' c'' d' with
                  | Some lo =>
                      if ((56320 <=? lo) && (lo <=? 57343))%N then
                        '(t, rest) ← scan_string s3;
                        Some (utf8 (65536 + (hi - 55296) * 1024 + (lo - 56320))%N +:+ t, rest)
                      else single
                  | None => single
                  end
              | _ => single
              end
            else single
        | String e s2 =>
            ch ← (if Ascii.eqb e "034" then Some "034"%char
                  else if Ascii.eqb e "\" then Some "\"%char
                  else if Ascii.eqb e "/" then Some "/"%char
                  else if Ascii.eqb e "b" then Some "008"%char
                  else if Ascii.eqb e "f" then Some "012"%char
                  else if Ascii.eqb e "n" then Some "010"%char
                  else if Ascii.eqb e "r" then Some "013"%char
                  else if Ascii.eqb e "t" then Some "009"%char
                  else None);
            '(t, rest) ← scan_string s2;
            Some (String ch t, rest)
        | EmptyString => None
        end
      else '(t, rest) ← scan_string s1; Some (String c t, rest)
  end.

(** A value at the head of [s], the rest of an array after its bracket or
    a comma, the rest of an object after its brace or a comma.  A key met
    again replaces the earlier one. *)
Fixpoint scan_value (fuel : nat) (s : string) : option (pyval * string) :=
  match fuel with
  | O => None
  | S fuel' =>
      match s with
      | String c s1 =>
          if Ascii.eqb c "034" then '(t, rest) ← scan_string s1; Some (PStr t, rest)
          else if Ascii.eqb c "{" then
            match skip_json_space s1 with
            | String "}" rest => Some (PDict ∅, rest)
            | s2 => '(d, rest) ← scan_members fuel' s2 ∅; Some (PDict d, rest)
            end
          else if Ascii.eqb c "[" then
            match skip_json_space s1 with
            | String "]" rest => Some (PList [], rest)
            | s2 => '(l, rest) ← scan_elements fuel' s2 []; Some (PList l, rest)
            end
          else if String.prefix "null" s then Some (PNone, drop_string 4 s)
          else if String.prefix "true" s then Some (PBool true, drop_string 4 s)
          else if String.prefix "false" s then Some (PBool false, drop_string 5 s)
          else
            match scan_number s with
            | Some r => Some r
            | None =>
                if String.prefix "NaN" s then Some (NaN, drop_string 3 s)
                else if String.prefix "Infinity" s
                then Some (PFloat (FLiteral "Infinity"), drop_string 8 s)
                else if String.prefix "-Infinity" s
                then Some (PFloat (FLiteral "-Infinity"), drop_string 9 s)
                else None
            end
      | EmptyString => None
      end
  end
with scan_elements (fuel : nat) (s : string) (acc : list pyval)
  : option (list pyval * string) :=
  match fuel with
  | O => None
  | S fuel' =>
      '(v, rest) ← scan_value fuel' s;
      match skip_json_space rest with
      | String "," rest' => scan_elements fuel' (skip_json_space rest') (acc ++ [v])
      | String "]" rest' => Some (acc ++ [v], rest')
      | _ => None
      end
  end
with scan_members (fuel : nat) (s : string) (acc : dict) : option (dict * string) :=
  match fuel with
  | O => None
  | S fuel' =>
      match s with
      | String c s1 =>
          if Ascii.eqb c "034" then
            '(key, rest) ← scan_string s1;
            match skip_json_space rest with
            | String ":" rest1 =>
                '(v, rest2) ← scan_value fuel' (skip_json_space rest1);
                match skip_json_space rest2 with
                | String "," rest3 =>
                    scan_members fuel' (skip_json_space rest3) (<[key := v]> acc)
                | String "}" rest3 => Some (<[key := v]> acc, rest3)
                | _ => None
                end
            | _ => None
            end
          else None
      | EmptyString => None
      end
  end.

(** [json.loads(s)]: one value between white space, or a
    [JSONDecodeError].  The fuel covers every call the scan of [s] makes;
    the limit Python puts on the depth of the nesting is not modelled. *)
Definition json_decode (s : string) : outcome pyval :=
  match scan_value (2 * String.length s + 2) (skip_json_space s) with
  | Some (v, rest) =>
      match skip_json_space rest with
      | EmptyString => Return v
      | _ => Raise JSONDecodeError
      end
  | None => Raise JSONDecodeError
  end.

(** *** The column division *)

(** [x / d] on one Python object: the quotient of an integer, a Boolean
    or a float; any other object raises. *)
Definition truediv_cell (d : Z) (v : pyval) : outcome pyval :=
  match v with
  | PInt n => Return (PFloat (FTrueDiv (FOfInt n) (FOfInt d)))
  | PBool b => Return (PFloat (FTrueDiv (FOfInt (Z.b2z b)) (FOfInt d)))
  | PFloat FNaN => Return NaN
  | PFloat x => Return (PFloat (FTrueDiv x (FOfInt d)))
  | _ => Raise TypeError
  end.

Definition is_number (v : pyval) : bool :=
  match v with
  | PInt _ | PFloat _ => true
  | _ => false
  end.

Definition is_None (v : pyval) : bool :=
  match v with
  | PNone => true
  | _ => false
  end.

(** The column pandas makes of the cells is numeric when each of them is
    an integer, a float or [None] and one at least is a number: [None] is
    a missing cell there. *)
Definition numeric_column (values : list pyval) : bool :=
  forallb (λ v, is_number v || is_None v) values && existsb is_number values.

(** [column / d]: cell by cell, with [None] as [NaN] in a numeric column;
    in a column of objects the division of a cell that is no number
    raises. *)
Definition truediv_column (values : list pyval) (d : Z) : outcome (list pyval) :=
  if numeric_column values
  then for_each (λ acc v, q ← truediv_cell d (if is_None v then NaN else v);
                          Return (acc ++ [q])) values []
  else for_each (λ acc v, q ← truediv_cell d v; Return (acc ++ [q])) values [].

(** [repr], for the runs below: none of them prints a float or a
    container, so its value is never looked at. *)
Definition repr_unused (v : pyval) : string := EmptyString.

(** *** Concrete pages and worlds *)

Definition quoted (s : string) : string := dquote +:+ s +:+ dquote.

Definition prefetch_link (href : string) : string :=
  "<link rel=" +:+ quoted "prefetch" +:+ " href=" +:+ quoted href +:+ ">".

Definition meta_script (payload : string) : string :=
  "<script>var meta = " +:+ payload +:+ "; for (var attr in meta) {}</script>".

(** A catalogue page with one product that has one variant. *)
Definition widget_payload : string :=
  "{" +:+ quoted "products" +:+ ":[{" +:+ quoted "id" +:+ ":1,"
  +:+ quoted "variants" +:+ ":[{" +:+ quoted "id" +:+ ":11,"
  +:+ quoted "name" +:+ ":" +:+ quoted "Widget A" +:+ ","
  +:+ quoted "sku" +:+ ":" +:+ quoted "ABC-1" +:+ ","
  +:+ quoted "price" +:+ ":1999,"
  +:+ quoted "public_title" +:+ ":" +:+ quoted "A" +:+ "}]}]}".

Definition widget_page : string :=
  prefetch_link "https://carex.com/products/widget-a" +:+ meta_script widget_payload.

(** The page past the end of the catalogue. *)
Definition empty_page : string :=
  meta_script ("{" +:+ quoted "products" +:+ ":[]}").

Definition world0 : world :=
  {| files := ∅; requested := []; slept := 0; shown := []; started := 0;
     quitted := 0; visited := [] |}.

Definition no_browser : nat → pyval → page_view :=
  λ _ _, NavigationRaises WebDriverException.

(** Page 1 is served, page 2 answers with status 500. *)
Definition env_page2_fails : environment :=
  {| serve := λ url,
       if String.eqb url "https://carex.com/collections/all?page=1"
       then Return {| status_code := 200; text := widget_page |}
       else Return {| status_code := 500; text := EmptyString |};
     launch := Return ();
     browse := no_browser;
     interrupted := λ _, false |}.

(** A product without a prefetch link of its own. *)
Definition second_product_fields : dict :=
  {["id" := PInt 2; "variants" := PList [PDict {["id" := PInt 21]}]]}.

(** The first page is past the end of the catalogue. *)
Definition env_empty_catalogue : environment :=
  {| serve := λ _, Return {| status_code := 200; text := empty_page |};
     launch := Return ();
     browse := no_browser;
     interrupted := λ _, false |}.

(** The [try] block of an attempt raises on this view: the navigation, the
    wait or the lookup raises, or the element has no class attribute. *)
Definition attempt_raises (view : page_view) : bool :=
  match view with
  | ProductElement (Some _) _ => false
  | _ => true
  end.

(** A harvested sheet with one row, and one whose row has neither SKU nor
    name. *)
Definition widget_row : dict :=
  {["variant_name" := PStr "Widget A"; "variant_sku" := PStr "ABC-1";
    "variant_price_usd" := PFloat (FTrueDiv (FOfInt 1999) (FOfInt 100));
    "variant_public_title" := PStr "A"]}.

Definition blank_row : dict :=
  {["variant_name" := NaN; "variant_sku" := NaN;
    "variant_price_usd" := PFloat (FTrueDiv (FOfInt 1999) (FOfInt 100));
    "variant_public_title" := PStr "A"]}.

Definition world_with (row : dict) : world :=
  {| files := {["carex_variants_raw.xlsx" :=
                  {| columns := ["variant_name"; "variant_sku"; "variant_price_usd";
                                 "variant_public_title"];
                     records := [row] |}]};
     requested := []; slept := 0; shown := []; started := 0; quitted := 0;
     visited := [] |}.

(** A browser that refuses a URL that is not a string, as chromedriver
    does, and finds a product in stock on any other search. *)
Definition shop_browser : nat → pyval → page_view :=
  λ _ url,
    match url with
    | PStr _ => ProductElement (Some "snize-product snize-product-in-stock")
                               (Some (Some "/products/widget-a"))
    | _ => NavigationRaises InvalidArgumentException
    end.

Definition env_shop : environment :=
  {| serve := λ _, Return {| status_code := 500; text := EmptyString |};
     launch := Return ();
     browse := shop_browser;
     interrupted := λ _, false |}.

(** The same shop, with a rerun requested while the first row is reported:
    the third Streamlit command of [scrape_search_results]. *)
Definition env_shop_rerun : environment :=
  {| serve := λ _, Return {| status_code := 500; text := EmptyString |};
     launch := Return ();
     browse := shop_browser;
     interrupted := λ n, (n =? 2)%nat |}.

(** The row of the widget page, as the harvest loop collects it. *)
Definition harvested_widget_row : dict :=
  {["product_id" := PInt 1; "variant_id" := PInt 11;
    "variant_name" := PStr "Widget A"; "variant_sku" := PStr "ABC-1";
    "variant_price" := PInt 1999; "variant_public_title" := PStr "A";
    "product_url" := PStr "https://carex.com/products/widget-a";
    "variant_url" := PStr "https://carex.com/products/widget-a?variant=11"]}.

(** The two fields a row without detail URL holds as [None]. *)
Definition without_urls (row : dict) : Prop :=
  row !! "product_url" = Some PNone ∧ row !! "variant_url" = Some PNone.

(** The product and the variant of the widget page. *)
Definition widget_variant_fields : dict :=
  {["id" := PInt 11; "name" := PStr "Widget A"; "sku" := PStr "ABC-1";
    "price" := PInt 1999; "public_title" := PStr "A"]}.

Definition widget_product_fields : dict :=
  {["id" := PInt 1; "variants" := PList [PDict widget_variant_fields]]}.

(** A catalogue of three variants on one page: a product with two variants
    and a product with one, each with its prefetch link; page 2 is empty. *)
Definition catalogue_payload : string :=
  "{" +:+ quoted "products" +:+ ":[{" +:+ quoted "id" +:+ ":1,"
  +:+ quoted "variants" +:+ ":[{" +:+ quoted "id" +:+ ":11,"
  +:+ quoted "name" +:+ ":" +:+ quoted "Widget A" +:+ ","
  +:+ quoted "sku" +:+ ":" +:+ quoted "ABC-1" +:+ ","
  +:+ quoted "price" +:+ ":1999,"
  +:+ quoted "public_title" +:+ ":" +:+ quoted "A" +:+ "},{" +:+ quoted "id" +:+ ":12,"
  +:+ quoted "name" +:+ ":" +:+ quoted "Widget B" +:+ ","
  +:+ quoted "sku" +:+ ":" +:+ quoted "ABC-2" +:+ ","
  +:+ quoted "price" +:+ ":2500,"
  +:+ quoted "public_title" +:+ ":" +:+ quoted "B" +:+ "}]},{" +:+ quoted "id" +:+ ":2,"
  +:+ quoted "variants" +:+ ":[{" +:+ quoted "id" +:+ ":21,"
  +:+ quoted "name" +:+ ":" +:+ quoted "Gadget" +:+ ","
  +:+ quoted "sku" +:+ ":null,"
  +:+ quoted "price" +:+ ":500,"
  +:+ quoted "public_title" +:+ ":null}]}]}".

Definition catalogue_page : string :=
  prefetch_link "https://carex.com/products/widget" +:+ prefetch_link "/collections/all"
  +:+ prefetch_link "https://carex.com/products/gadget" +:+ meta_script catalogue_payload.

Definition env_two_pages : environment :=
  {| serve := λ url,
       if String.eqb url "https://carex.com/collections/all?page=1"
       then Return {| status_code := 200; text := catalogue_page |}
       else Return {| status_code := 200; text := empty_page |};
     launch := Return ();
     browse := no_browser;
     interrupted := λ _, false |}.

(** A page whose script does not hold JSON. *)
Definition env_broken_script : environment :=
  {| serve := λ _, Return {| status_code := 200;
                             text := meta_script "{products: oops}" |};
     launch := Return ();
     browse := no_browser;
     interrupted := λ _, false |}.

(** *** Predicates on texts *)

Fixpoint all_chars (P : ascii → bool) (s : string) : bool :=
  match s with
  | EmptyString => true
  | String c s' => P c && all_chars P s'
  end.

Definition not_quote (c : ascii) : bool := negb (Ascii.eqb c "034"%char).

(** A character [quote] leaves in its result: a safe one, or the percent
    sign of an escape. *)
Definition url_char (c : ascii) : bool := always_safe c || Ascii.eqb c "%"%char.

(** A browser whose first two searches time out and whose third finds a
    product out of stock, without a view link. *)
Definition flaky_browser : nat → pyval → page_view :=
  λ n _,
    if (n <? 2)%nat then WaitRaises TimeoutException
    else ProductElement (Some "snize-product snize-product-out-of-stock") None.

Definition env_flaky : environment :=
  {| serve := λ _, Return {| status_code := 500; text := EmptyString |};
     launch := Return ();
     browse := flaky_browser;
     interrupted := λ _, false |}.

(** The URLs of [n] pages of the collection from [page] on. *)
Definition page_urls (page : Z) (n : nat) : list string :=
  (λ i, collection_url (page + Z.of_nat i)) <$> seq 0 n.

(** The rows of the products [ps], each given with its variants, the
    product at index [i] flattened with the URL at index [n + i]. *)
Fixpoint rows_of_products (py_repr : pyval → string) (product_urls : list string)
    (n : nat) (ps : list (dict * list dict)) : list dict :=
  match ps with
  | [] => []
  | (product, variants) :: ps' =>
      ((λ variant, flatten_dicts py_repr product variant (product_urls !! n)) <$> variants)
      ++ rows_of_products py_repr product_urls (S n) ps'
  end.

(** The products of [catalogue_page], each with its variants. *)
Definition catalogue_products : list (dict * list dict) :=
  [({["id" := PInt 1;
      "variants" := PList [PDict widget_variant_fields;
                           PDict {["id" := PInt 12; "name" := PStr "Widget B";
                                   "sku" := PStr "ABC-2"; "price" := PInt 2500;
                                   "public_title" := PStr "B"]}]]},
    [widget_variant_fields;
     {["id" := PInt 12; "name" := PStr "Widget B"; "sku" := PStr "ABC-2";
       "price" := PInt 2500; "public_title" := PStr "B"]}]);
   ({["id" := PInt 2;
      "variants" := PList [PDict {["id" := PInt 21; "name" := PStr "Gadget";
                                   "sku" := PNone; "price" := PInt 500;
                                   "public_title" := PNone]}]]},
    [{["id" := PInt 21; "name" := PStr "Gadget"; "sku" := PNone; "price" := PInt 500;
       "public_title" := PNone]}])].

(** The world after [page] was fetched. *)
Definition after_fetch (page : Z) (w : world) : world :=
  {| files := files w; requested := requested w ++ [collection_url page];
     slept := slept w; shown := shown w; started := started w;
     quitted := quitted w; visited := visited w |}.

(** The two URL fields of a harvested row go together: both are [None],
    or [product_url] is one of [urls] and [variant_url] is this URL with the
    [variant_id] of the row as its query. *)
Definition urls_paired (py_repr : pyval → string) (urls : list string) (row : dict)
  : Prop :=
  (row !! "product_url" = Some PNone ∧ row !! "variant_url" = Some PNone)
  ∨ ∃ url,
      url ∈ urls
      ∧ row !! "product_url" = Some (PStr url)
      ∧ row !! "variant_url"
        = Some (PStr (url +:+ "?variant="
                      +:+ py_str py_repr (default PNone (row !! "variant_id")))).

(** The steps of the progress bar for [n] pages of the collection from
    [page] on. *)
Definition progress_steps (page : Z) (n : nat) : list ui_event :=
  (λ i, StProgress (Percent (Z.min ((page + Z.of_nat i) * 10) 100))) <$> seq 0 n.

(** A row of a catalogue whose variants have no [public_title]. *)
Definition untitled_row : dict :=
  {["variant_name" := PStr "Widget A"; "variant_sku" := PStr "ABC-1";
    "variant_price" := PInt 1999]}.

(** A page with a product whose [variants] is [null]. *)
Definition null_variants_page : string :=
  meta_script ("{" +:+ quoted "products" +:+ ":[{" +:+ quoted "id" +:+ ":1,"
               +:+ quoted "variants" +:+ ":null}]}").

(** Page 1 is the widget page, every later page has the broken product. *)
Definition env_null_variants : environment :=
  {| serve := λ url,
       if String.eqb url "https://carex.com/collections/all?page=1"
       then Return {| status_code := 200; text := widget_page |}
       else Return {| status_code := 200; text := null_variants_page |};
     launch := Return ();
     browse := no_browser;
     interrupted := λ _, false |}.

(** * Properties *)

(** ** The model on the scenarios of the specification *)

Example quote_space : quote "Widget A" = "Widget%20A".
Proof. reflexivity. Qed.

Example quote_keeps_safe : quote "ABC-1_x.y~z/w" = "ABC-1_x.y~z/w".
Proof. reflexivity. Qed.

Example quote_utf8 : quote (utf8 233) = "%C3%A9".
Proof. reflexivity. Qed.

Example classify_in_stock :
  stock_status_of "snize-product snize-product-in-stock" = "In Stock".
Proof. reflexivity. Qed.

Example classify_out_of_stock :
  stock_status_of "snize-product-out-of-stock" = "Out of Stock".
Proof. reflexivity. Qed.

Example classify_unknown : stock_status_of "snize-product" = "Unknown".
Proof. reflexivity. Qed.

Example view_link_made_absolute :
  product_url_of (Some "/products/widget-a") = PStr "https://carex.com/products/widget-a"
  ∧ product_url_of (Some "https://other.example/x") = PStr "https://other.example/x"
  ∧ product_url_of None = PNone.
Proof. repeat split. Qed.

Example prefetch_links_of_catalogue_page :
  extract_product_urls_from_collection_page catalogue_page
  = ["https://carex.com/products/widget"; "https://carex.com/products/gadget"].
Proof. vm_compute. reflexivity. Qed.

Example script_of_widget_page :
  search_meta widget_page = Some widget_payload
  ∧ extract_variants_from_script json_decode widget_page
    = Return (PList [PDict widget_product_fields]).
Proof. vm_compute. repeat split. Qed.

(** Two pages, the first with a product of two variants and a product of
    one, the second without products: two fetches, one second of sleep, and
    a sheet of three rows in the order of the page. *)
Example two_pages_three_rows :
  let run := scrape_variants repr_unused json_decode truediv_column env_two_pages 5 world0 in
  requested run.2 = ["https://carex.com/collections/all?page=1";
                     "https://carex.com/collections/all?page=2"]
  ∧ slept run.2 = 1%nat
  ∧ (λ df, column df "variant_name") <$> files run.2 !! "carex_variants_raw.xlsx"
    = Some [PStr "Widget A"; PStr "Widget B"; PStr "Gadget"]
  ∧ (λ df, column df "variant_sku") <$> files run.2 !! "carex_variants_raw.xlsx"
    = Some [PStr "ABC-1"; PStr "ABC-2"; PNone]
  ∧ (λ df, column df "variant_price_usd") <$> files run.2 !! "carex_variants_raw.xlsx"
    = Some [PFloat (FTrueDiv (FOfInt 1999) (FOfInt 100));
            PFloat (FTrueDiv (FOfInt 2500) (FOfInt 100));
            PFloat (FTrueDiv (FOfInt 500) (FOfInt 100))].
Proof. vm_compute. repeat split. Qed.

(** A script that is not JSON ends the run in the error of [json.loads];
    nothing is written. *)
Example broken_script_raises :
  scrape_variants repr_unused json_decode truediv_column env_broken_script 5 world0
  = (Raise JSONDecodeError,
     {| files := ∅; requested := ["https://carex.com/collections/all?page=1"];
        slept := 0;
        shown := [StProgress (Percent 0); StWrite StartingVariantScrape];
        started := 0; quitted := 0; visited := [] |}).
Proof. vm_compute. reflexivity. Qed.

(** The row of the shop is found in stock at the first attempt. *)
Example widget_row_in_stock :
  (extract_first_product_info env_shop
     (PStr "https://carex.com/pages/search-results-page?q=ABC-1") 5 10 world0).1
  = Return (PStr "https://carex.com/products/widget-a", "In Stock").
Proof. reflexivity. Qed.

(** ** Flattening *)

Section Flatten.

Variable py_repr : pyval → string.

(** A loop that stores every kept field under its prefixed key: the keys
    with the prefix hold the kept fields, the other keys are untouched. *)
Lemma fold_prefixed_lookup (pre : string) (keep : string → bool)
    (f : string → pyval → dict → dict) (init m : dict) :
  (∀ k v acc, f k v acc = if keep k then <[pre +:+ k := v]> acc else acc) →
  (∀ k, map_fold f init m !! (pre +:+ k)
        = if keep k then from_option Some (init !! (pre +:+ k)) (m !! k)
          else init !! (pre +:+ k))
  ∧ (∀ key, (∀ k, key ≠ pre +:+ k) → map_fold f init m !! key = init !! key).
Proof.
  intros Hf.
  apply (map_fold_weak_ind
           (λ r m, (∀ k, r !! (pre +:+ k)
                         = if keep k then from_option Some (init !! (pre +:+ k)) (m !! k)
                           else init !! (pre +:+ k))
                   ∧ (∀ key, (∀ k, key ≠ pre +:+ k) → r !! key = init !! key))).
  - split.
    + intros k. rewrite lookup_empty. simpl. by destruct (keep k).
    + done.
  - intros i x m' r Hi [IH1 IH2]. rewrite Hf. split.
    + intros k. destruct (decide (k = i)) as [->|Hne].
      * destruct (keep i) eqn:Hk.
        -- by rewrite !lookup_insert_eq.
        -- rewrite IH1, Hk. done.
      * rewrite (lookup_insert_ne m') by done.
        destruct (keep i) eqn:Hk.
        -- rewrite lookup_insert_ne; [apply IH1|].
           intros Heq. apply Hne. by apply (inj (String.app pre)) in Heq.
        -- apply IH1.
    + intros key Hkey. destruct (keep i).
      * rewrite lookup_insert_ne; [by apply IH2|]. intros Heq. by apply (Hkey i).
      * by apply IH2.
Qed.

Lemma prefixes_differ (k1 k2 : string) : "product_" +:+ k1 ≠ "variant_" +:+ k2.
Proof. simpl. discriminate. Qed.

Lemma product_url_key : "product_url" = "product_" +:+ "url".
Proof. reflexivity. Qed.

Lemma variant_url_key : "variant_url" = "variant_" +:+ "url".
Proof. reflexivity. Qed.

Lemma prefixed_ne (pre k1 k2 : string) : k1 ≠ k2 → pre +:+ k1 ≠ pre +:+ k2.
Proof. intros Hne Heq. apply Hne. by apply (inj (String.app pre)) in Heq. Qed.

(** The rows of [flatten_product_variant], key by key. *)
Lemma flatten_dicts_lookup (product variant : dict) (product_url : option string) :
  let row := flatten_dicts py_repr product variant product_url in
  (∀ k, k ≠ "url" →
        row !! ("product_" +:+ k) = if bool_decide (k ≠ "variants") then product !! k else None)
  ∧ (∀ k, k ≠ "url" → row !! ("variant_" +:+ k) = variant !! k)
  ∧ row !! "product_url" = Some (of_opt_str product_url)
  ∧ row !! "variant_url"
    = Some (if truthy (of_opt_str product_url)
            then PStr (py_str py_repr (of_opt_str product_url) +:+ "?variant="
                       +:+ py_str py_repr (default PNone (variant !! "id")))
            else PNone).
Proof.
  unfold flatten_dicts. cbv zeta.
  set (fp := λ (k : string) (v : pyval) (flat_data : dict),
         if bool_decide (k ≠ "variants") then <["product_" +:+ k := v]> flat_data else flat_data).
  set (fv := λ (k : string) (v : pyval) (flat_data : dict), <["variant_" +:+ k := v]> flat_data).
  destruct (fold_prefixed_lookup "product_" (λ k, bool_decide (k ≠ "variants")) fp ∅ product)
    as [P1 P2]; [done|].
  destruct (fold_prefixed_lookup "variant_" (λ _, true) fv (map_fold fp ∅ product) variant)
    as [V1 V2]; [done|].
  repeat split.
  - intros k Hk.
    rewrite lookup_insert_ne by (intros H; by apply (prefixes_differ k "url")).
    rewrite lookup_insert_ne by (rewrite product_url_key; by apply prefixed_ne).
    rewrite V2 by (intros k'; apply prefixes_differ).
    rewrite P1. rewrite lookup_empty. by destruct (product !! k), (bool_decide _).
  - intros k Hk.
    rewrite lookup_insert_ne by (rewrite variant_url_key; by apply prefixed_ne).
    rewrite lookup_insert_ne
      by (intros H; by apply (prefixes_differ "url" k)).
    rewrite V1. destruct (variant !! k) eqn:Hv; [done|]. simpl.
    rewrite P2 by (intros k'; apply not_eq_sym, prefixes_differ). apply lookup_empty.
  - rewrite lookup_insert_ne by done. apply lookup_insert_eq.
  - apply lookup_insert_eq.
Qed.

End Flatten.

(** C2, as amended: for every product record, variant record and detail
    URL, [flatten_product_variant] returns a row in which no key of a
    product field is the key of a variant field, every product field other
    than [variants] and [url] is kept under [product_] and its name, every
    variant field other than [url] is kept under [variant_] and its name,
    and [product_url] and [variant_url] hold the derived values: a field
    named [url] has the key of a derived value and is overwritten by it. *)
Theorem flatten_keys_collide_only_on_url (py_repr : pyval → string)
    (product variant : dict) (product_url : option string) :
  ∃ row,
    flatten_product_variant py_repr (PDict product) (PDict variant) product_url = Return row
    ∧ (∀ k1 k2, "product_" +:+ k1 ≠ "variant_" +:+ k2)
    ∧ (∀ k, k ≠ "variants" → k ≠ "url" → row !! ("product_" +:+ k) = product !! k)
    ∧ (∀ k, k ≠ "url" → row !! ("variant_" +:+ k) = variant !! k)
    ∧ row !! "product_url" = Some (of_opt_str product_url)
    ∧ row !! "variant_url"
      = Some (if truthy (of_opt_str product_url)
              then PStr (py_str py_repr (of_opt_str product_url) +:+ "?variant="
                         +:+ py_str py_repr (default PNone (variant !! "id")))
              else PNone).
Proof.
  exists (flatten_dicts py_repr product variant product_url).
  destruct (flatten_dicts_lookup py_repr product variant product_url) as (HP & HV & HU & HW).
  split; [reflexivity|]. split; [apply prefixes_differ|].
  split; [|by repeat split].
  intros k Hvariants Hurl. rewrite HP by done. by rewrite bool_decide_true.
Qed.

(** C2, as stated, fails: a product field and a variant field named [url]
    get the keys of the derived values, and their own values are lost. *)
Lemma flatten_url_field_collides :
  let product : dict := {["url" := PStr "/p"]} in
  let variant : dict := {["url" := PStr "/v"]} in
  let row := flatten_dicts repr_unused product variant
               (Some "https://carex.com/products/widget-a") in
  "product_" +:+ "url" = "product_url"
  ∧ row !! ("product_" +:+ "url") = Some (PStr "https://carex.com/products/widget-a")
  ∧ "variant_" +:+ "url" = "variant_url"
  ∧ row !! ("variant_" +:+ "url")
    = Some (PStr "https://carex.com/products/widget-a?variant=None")
  ∧ size row = 2%nat.
Proof. vm_compute. repeat split. Qed.

(** ** Pairing products with detail URLs *)

Lemma for_each_raise {A B : Type} (body : B → A → outcome B) (xs : list A) (acc : B) e :
  for_each body xs acc = Raise e → ∃ acc' x, x ∈ xs ∧ body acc' x = Raise e.
Proof.
  revert acc. induction xs as [|x xs IH]; intros acc; simpl; [discriminate|].
  destruct (body acc x) as [acc'| e' |] eqn:Hb; simpl.
  - intros H. destruct (IH _ H) as (a & y & Hy & Hr).
    exists a, y. split; [by right | done].
  - intros [= ->]. exists acc, x. split; [by left | done].
  - discriminate.
Qed.

(** A loop whose body appends one element with property [P]. *)
Lemma for_each_appends {A B : Type} (P : B → Prop) (body : list B → A → outcome (list B))
    (xs : list A) (acc rows : list B) :
  (∀ acc x acc', body acc x = Return acc' → ∃ r, acc' = acc ++ [r] ∧ P r) →
  for_each body xs acc = Return rows →
  ∃ new_rows, rows = acc ++ new_rows ∧ Forall P new_rows.
Proof.
  intros Hbody. revert acc. induction xs as [|x xs IH]; intros acc; simpl.
  - intros [= <-]. exists []. by rewrite app_nil_r.
  - destruct (body acc x) as [acc'| |] eqn:Hb; simpl; try discriminate.
    intros H. destruct (Hbody _ _ _ Hb) as (r & -> & Hr).
    destruct (IH _ H) as (new & -> & Hnew).
    exists (r :: new). split; [by rewrite <- app_assoc | by constructor].
Qed.

Lemma pair_product_url_lookup (product_urls : list string) (i : nat) :
  pair_product_url product_urls i = Return (product_urls !! i).
Proof.
  unfold pair_product_url, py_index. case_bool_decide as Hi.
  - destruct (lookup_lt_is_Some_2 product_urls i Hi) as [u Hu]. by rewrite Hu.
  - rewrite lookup_ge_None_2 by lia. done.
Qed.

Lemma product_rows_without_url (py_repr : pyval → string) (product : pyval)
    (all_rows rows : list dict) :
  product_rows py_repr product None all_rows = Return rows →
  ∃ new_rows, rows = all_rows ++ new_rows
    ∧ Forall without_urls new_rows.
Proof.
  unfold product_rows.
  destruct (py_get product "variants" (PList [])) as [variants| |]; simpl; try discriminate.
  destruct (py_iter variants) as [vs| |]; simpl; try discriminate.
  apply for_each_appends. intros acc variant acc'.
  unfold flatten_product_variant.
  destruct (py_items product) as [p| |]; simpl; try discriminate.
  destruct (py_items variant) as [v| |]; simpl; try discriminate.
  intros [= <-]. eexists. split; [reflexivity|].
  destruct (flatten_dicts_lookup py_repr p v None) as (_ & _ & HU & HW).
  by split.
Qed.

Lemma product_rows_no_IndexError (py_repr : pyval → string) (product : pyval)
    (product_url : option string) (all_rows : list dict) :
  product_rows py_repr product product_url all_rows ≠ Raise IndexError.
Proof.
  unfold product_rows.
  destruct product; simpl; try discriminate.
  destruct (default (PList []) (d !! "variants")); simpl; try discriminate.
  all: intros H; apply for_each_raise in H as (acc & variant & _ & H);
    unfold flatten_product_variant in H; simpl in H;
    destruct variant; simpl in H; discriminate.
Qed.

Lemma page_rows_no_IndexError (py_repr : pyval → string) (products : pyval)
    (product_urls : list string) (all_rows : list dict) :
  page_rows py_repr products product_urls all_rows ≠ Raise IndexError.
Proof.
  unfold page_rows.
  destruct (py_iter products) as [ps| e |] eqn:Hiter; simpl; try discriminate.
  - intros H. apply for_each_raise in H as (acc & [i product] & _ & H).
    unfold pair_and_flatten in H. rewrite pair_product_url_lookup in H. simpl in H.
    by apply product_rows_no_IndexError in H.
  - destruct products; simpl in Hiter; congruence.
Qed.

(** The rows of a product do not depend on the rows collected before it. *)
Lemma for_each_append_acc {A B : Type} (f : A → outcome B) (xs : list A) (acc : list B) :
  for_each (λ acc x, r ← f x; Return (acc ++ [r])) xs acc
  = (g ← for_each (λ acc x, r ← f x; Return (acc ++ [r])) xs []; Return (acc ++ g)).
Proof.
  revert acc. induction xs as [|x xs IH]; intros acc; simpl.
  - by rewrite app_nil_r.
  - destruct (f x) as [r| |]; simpl; try done.
    rewrite (IH (acc ++ [r])), (IH [r]).
    destruct (for_each _ xs []) as [g| |]; simpl; try done.
    by rewrite <- app_assoc.
Qed.

Lemma product_rows_acc (py_repr : pyval → string) (product : pyval)
    (product_url : option string) (all_rows : list dict) :
  product_rows py_repr product product_url all_rows
  = (g ← product_rows py_repr product product_url []; Return (all_rows ++ g)).
Proof.
  unfold product_rows.
  destruct (py_get product "variants" (PList [])) as [variants| |]; simpl; try done.
  destruct (py_iter variants) as [vs| |]; simpl; try done.
  apply (for_each_append_acc
           (λ variant, flatten_product_variant py_repr product variant product_url)).
Qed.

(** The rows of a page, product by product. *)
Lemma page_rows_groups (py_repr : pyval → string) (product_urls : list string)
    (products : list pyval) (n : nat) (all_rows rows : list dict) :
  for_each (pair_and_flatten py_repr product_urls)
           (zip (seq n (length products)) products) all_rows = Return rows →
  ∃ groups,
    rows = all_rows ++ concat groups
    ∧ length groups = length products
    ∧ ∀ i product g,
        products !! i = Some product → groups !! i = Some g →
        product_rows py_repr product (product_urls !! (n + i)%nat) [] = Return g.
Proof.
  revert n all_rows. induction products as [|p ps IH]; intros n all_rows; simpl.
  - intros [= <-]. exists []. rewrite app_nil_r. repeat split. intros i ? ? H. done.
  - rewrite pair_product_url_lookup. simpl. rewrite product_rows_acc.
    destruct (product_rows py_repr p (product_urls !! n) []) as [g| |] eqn:Hg;
      simpl; try discriminate.
    intros H. destruct (IH _ _ H) as (groups & -> & Hlen & Hgroups).
    exists (g :: groups). split; [by rewrite <- app_assoc|]. split; [simpl; lia|].
    intros [|i] product g'; simpl.
    + intros [= <-] [= <-]. by rewrite Nat.add_0_r.
    + intros Hp Hg'. replace (n + S i)%nat with (S n + i)%nat by lia. by apply Hgroups.
Qed.

(** C9: on every page whose list of detail URLs is shorter than its list
    of products, the rows of the page are the rows of its products in
    order, each product flattened with the URL at its index; a product at
    an index at or beyond the length of the URL list is paired with [None],
    and every row of it, one per variant, has [product_url = None] and
    [variant_url = None]; the pairing never raises an [IndexError]. *)
Theorem pairing_beyond_url_list (py_repr : pyval → string) (products : list pyval)
    (product_urls : list string) (all_rows rows : list dict) :
  page_rows py_repr (PList products) product_urls all_rows = Return rows →
  (∃ groups,
     rows = all_rows ++ concat groups
     ∧ length groups = length products
     ∧ ∀ i product g,
         products !! i = Some product → groups !! i = Some g →
         product_rows py_repr product (product_urls !! i) [] = Return g
         ∧ ((length product_urls ≤ i)%nat →
            pair_product_url product_urls i = Return None
            ∧ product_rows py_repr product None [] = Return g
            ∧ Forall without_urls g))
  ∧ (∀ ps urls acc, page_rows py_repr ps urls acc ≠ Raise IndexError).
Proof.
  unfold page_rows, enumerate. simpl. intros H. split.
  - destruct (page_rows_groups py_repr product_urls products 0 all_rows rows H)
      as (groups & -> & Hlen & Hgroups).
    exists groups. split; [done|]. split; [done|].
    intros i product g Hp Hg. pose proof (Hgroups i product g Hp Hg) as Hrows.
    simpl in Hrows. split; [done|]. intros Hi.
    rewrite pair_product_url_lookup. rewrite lookup_ge_None_2 in * by done.
    split; [done|]. split; [done|].
    destruct (product_rows_without_url py_repr product [] g Hrows) as (new & -> & Hnew).
    done.
  - intros. apply page_rows_no_IndexError.
Qed.

Lemma pairing_beyond_url_list_witness :
  page_rows repr_unused (PList [PDict widget_product_fields; PDict second_product_fields])
            ["https://carex.com/products/widget-a"] []
  = Return [flatten_dicts repr_unused widget_product_fields widget_variant_fields
              (Some "https://carex.com/products/widget-a");
            flatten_dicts repr_unused second_product_fields {["id" := PInt 21]} None]
  ∧ ∃ groups,
      [flatten_dicts repr_unused widget_product_fields widget_variant_fields
         (Some "https://carex.com/products/widget-a");
       flatten_dicts repr_unused second_product_fields {["id" := PInt 21]} None]
      = [] ++ concat groups
      ∧ length groups = 2%nat
      ∧ ∀ i product g,
          [PDict widget_product_fields; PDict second_product_fields] !! i = Some product →
          groups !! i = Some g →
          product_rows repr_unused product
            (["https://carex.com/products/widget-a"] !! i) [] = Return g
          ∧ ((length ["https://carex.com/products/widget-a"] ≤ i)%nat →
             pair_product_url ["https://carex.com/products/widget-a"] i = Return None
             ∧ product_rows repr_unused product None [] = Return g
             ∧ Forall without_urls g).
Proof.
  assert (page_rows repr_unused
            (PList [PDict widget_product_fields; PDict second_product_fields])
            ["https://carex.com/products/widget-a"] []
          = Return [flatten_dicts repr_unused widget_product_fields widget_variant_fields
                      (Some "https://carex.com/products/widget-a");
                    flatten_dicts repr_unused second_product_fields {["id" := PInt 21]} None])
    as Hrun by (vm_compute; reflexivity).
  split; [exact Hrun|].
  apply (pairing_beyond_url_list repr_unused _ _ _ _ Hrun).
Defined.

(** ** The embedded payload *)

Lemma extract_variants_no_match (json_loads : string → outcome pyval) (html : string) :
  search_meta html = None →
  extract_variants_from_script json_loads html = Return (PList []).
Proof. unfold extract_variants_from_script. by intros ->. Qed.

Lemma extract_variants_raise (json_loads : string → outcome pyval) (html meta_json : string) e :
  search_meta html = Some meta_json →
  json_loads meta_json = Raise e →
  extract_variants_from_script json_loads html = Raise e.
Proof. unfold extract_variants_from_script. by intros -> ->. Qed.

(** An exception of [extract_variants_from_script] leaves the loop and the
    function: nothing catches it. *)
Lemma harvest_extract_raises (py_repr : pyval → string) (json_loads : string → outcome pyval)
    (env : environment) (fuel : nat) (page : Z) (all_rows : list dict) (w : world)
    (res : response) e :
  serve env (collection_url page) = Return res →
  status_code res = 200 →
  extract_variants_from_script json_loads (text res) = Raise e →
  (harvest py_repr json_loads env (S fuel) page all_rows w).1 = Raise e.
Proof.
  intros Hserve Hstatus Hraise. simpl.
  unfold mbind, M_bind, requests_get. rewrite Hserve.
  rewrite bool_decide_false by (intros H; by apply H).
  unfold lift. by rewrite Hraise.
Qed.

(** C10, as amended: [extract_variants_from_script] returns the empty list
    when the pattern of the inline script is absent from the HTML; when the
    pattern matches and the captured text is not valid JSON it raises, and
    the error leaves the harvest loop uncaught; and it returns an empty list
    only when the pattern is absent, or the parsed object lacks the key
    [products], or the value under [products] is itself an empty list. *)
Theorem extract_variants_cases (py_repr : pyval → string)
    (json_loads : string → outcome pyval) (html : string) :
  (search_meta html = None →
   extract_variants_from_script json_loads html = Return (PList []))
  ∧ (∀ meta_json e,
       search_meta html = Some meta_json → json_loads meta_json = Raise e →
       extract_variants_from_script json_loads html = Raise e
       ∧ ∀ env fuel page all_rows w status,
           serve env (collection_url page) = Return {| status_code := status; text := html |} →
           status = 200 →
           (harvest py_repr json_loads env (S fuel) page all_rows w).1 = Raise e)
  ∧ (extract_variants_from_script json_loads html = Return (PList []) →
     search_meta html = None
     ∨ ∃ meta_json d,
         search_meta html = Some meta_json
         ∧ json_loads meta_json = Return (PDict d)
         ∧ (d !! "products" = None ∨ d !! "products" = Some (PList []))).
Proof.
  split; [apply extract_variants_no_match|]. split.
  - intros meta_json e Hm He. split; [by apply (extract_variants_raise _ _ meta_json)|].
    intros env fuel page all_rows w status Hserve ->.
    apply (harvest_extract_raises _ _ _ _ _ _ _ _ e Hserve); [done|].
    by apply (extract_variants_raise _ _ meta_json).
  - unfold extract_variants_from_script.
    destruct (search_meta html) as [meta_json|]; [|by left].
    intros H. right. exists meta_json.
    destruct (json_loads meta_json) as [meta_data| |]; simpl in H; try discriminate.
    destruct meta_data; simpl in H; try discriminate.
    exists d. split; [done|]. split; [done|].
    destruct (d !! "products") as [v|]; [right|by left].
    simpl in H. congruence.
Qed.

(** C10, as stated, fails: on the page past the end of the catalogue the
    pattern matches and the parsed object has the key [products], and the
    function returns the empty list. *)
Lemma extract_variants_empty_products :
  search_meta empty_page = Some ("{" +:+ quoted "products" +:+ ":[]}")
  ∧ json_decode ("{" +:+ quoted "products" +:+ ":[]}")
    = Return (PDict {["products" := PList []]})
  ∧ extract_variants_from_script json_decode empty_page = Return (PList []).
Proof. vm_compute. repeat split. Qed.

(** ** The search URL *)

(** C6: for every input row, the search query is the SKU whenever the SKU
    cell is present (a blank cell of the spreadsheet is loaded as a missing
    value, so a present SKU is not empty), and the name otherwise; the query
    is URL-encoded after the base of the search page; when the SKU and the
    name are both missing, no search URL is made.  SKU [ABC-1] gives
    [...search-results-page?q=ABC-1], and the name [Widget A] without a SKU
    gives [q=Widget%20A]. *)
Theorem make_search_url_prefers_sku (py_repr : pyval → string) (row : dict)
    (sku name : pyval) :
  row !! "variant_sku" = Some sku →
  row !! "variant_name" = Some name →
  (notna sku = true →
   make_search_url py_repr row
   = Return (PStr (base_search_url +:+ quote (py_str py_repr sku))))
  ∧ (notna sku = false → notna name = true →
     make_search_url py_repr row
     = Return (PStr (base_search_url +:+ quote (py_str py_repr name))))
  ∧ (notna sku = false → notna name = false →
     make_search_url py_repr row = Return PNone)
  ∧ make_search_url py_repr {["variant_sku" := PStr "ABC-1"; "variant_name" := name]}
    = Return (PStr "https://carex.com/pages/search-results-page?q=ABC-1")
  ∧ make_search_url py_repr {["variant_sku" := NaN; "variant_name" := PStr "Widget A"]}
    = Return (PStr "https://carex.com/pages/search-results-page?q=Widget%20A")
  ∧ make_search_url py_repr {["variant_sku" := NaN; "variant_name" := NaN]}
    = Return PNone.
Proof.
  intros Hsku Hname. unfold make_search_url, row_get. rewrite Hsku.
  repeat split.
  - intros Hs. simpl. rewrite Hs. simpl. by rewrite Hs.
  - intros Hs Hn. simpl. rewrite Hs, Hname. simpl. by rewrite Hn.
  - intros Hs Hn. simpl. rewrite Hs, Hname. simpl. by rewrite Hn.
Qed.

Lemma make_search_url_prefers_sku_witness :
  widget_row !! "variant_sku" = Some (PStr "ABC-1")
  ∧ widget_row !! "variant_name" = Some (PStr "Widget A")
  ∧ make_search_url repr_unused widget_row
    = Return (PStr "https://carex.com/pages/search-results-page?q=ABC-1").
Proof.
  split; [reflexivity|]. split; [reflexivity|].
  destruct (make_search_url_prefers_sku repr_unused widget_row (PStr "ABC-1")
              (PStr "Widget A")) as [H _]; [reflexivity..|].
  apply H. reflexivity.
Defined.

(** ** Attempts and retries *)

(** An attempt navigates once, and it returns or raises an [Exception]. *)
Lemma attempt_outcome (env : environment) (url : pyval) (wait_time : nat) (w : world) :
  (∃ result, attempt env url wait_time w = (Return result, after_visit url w)
             ∧ attempt_raises (browse env (length (visited w)) url) = false)
  ∨ (∃ e, attempt env url wait_time w = (Raise e, after_visit url w)
          ∧ is_Exception e = true
          ∧ attempt_raises (browse env (length (visited w)) url) = true).
Proof.
  unfold attempt, mbind, M_bind, driver_get, lift, after_visit.
  destruct (browse env (length (visited w)) url) as [e|e|e|[classes|] link]; simpl.
  - right. by exists (WebDriver e).
  - right. by exists (WebDriver e).
  - right. by exists (WebDriver e).
  - left. destruct link as [href|]; simpl; eauto.
  - right. by exists TypeError.
Qed.

Lemma one_retry (env : environment) (url : pyval) (retries wait_time : nat) (w : world) :
  attempt_raises (browse env (length (visited w)) url) = true →
  extract_first_product_info env url (S retries) wait_time w
  = extract_first_product_info env url retries wait_time (after_retries url 1 w).
Proof.
  intros Hraises. simpl.
  unfold mbind at 1. unfold M_bind, try_except_Exception, fmap, M_fmap.
  destruct (attempt_outcome env url wait_time w) as [(r & _ & H)|(e & -> & He & _)];
    [congruence|].
  simpl. rewrite He. reflexivity.
Qed.

Lemma after_retries_S (url : pyval) (n : nat) (w : world) :
  after_retries url n (after_retries url 1 w) = after_retries url (S n) w.
Proof.
  unfold after_retries. simpl. f_equal; [lia|].
  by rewrite <- app_assoc.
Qed.

(** When every attempt raises, the budget is used up: [retries] navigations,
    [retries] seconds of sleep, and the answer of the last line. *)
Lemma retries_exhausted (env : environment) (url : pyval) (retries wait_time : nat)
    (w : world) :
  (∀ k, (k < retries)%nat →
        attempt_raises (browse env (length (visited w) + k) url) = true) →
  extract_first_product_info env url retries wait_time w
  = (Return (PNone, "Retry Failed"), after_retries url retries w).
Proof.
  revert w. induction retries as [|n IH]; intros w Hall.
  - simpl. unfold mret, M_ret, after_retries. simpl. do 2 f_equal.
    destruct w; simpl. f_equal; [lia | by rewrite app_nil_r].
  - rewrite one_retry.
    + rewrite IH; [by rewrite after_retries_S|].
      intros k Hk. simpl. rewrite length_app. simpl.
      replace (length (visited w) + 1 + k)%nat with (length (visited w) + S k)%nat by lia.
      apply Hall. lia.
    + specialize (Hall 0%nat). rewrite Nat.add_0_r in Hall. apply Hall. lia.
Qed.

(** Whatever the browser does, [extract_first_product_info] returns; it
    navigates between once and [retries] times, always to the URL it was
    given, and it changes nothing else but the time slept. *)
Lemma extract_first_product_info_returns (env : environment) (url : pyval)
    (retries wait_time : nat) (w : world) :
  ∃ result k s,
    extract_first_product_info env url retries wait_time w
    = (Return result,
       {| files := files w; requested := requested w; slept := slept w + s;
          shown := shown w; started := started w; quitted := quitted w;
          visited := visited w ++ replicate k url |})
    ∧ (k ≤ retries)%nat ∧ ((1 ≤ retries)%nat → (1 ≤ k)%nat).
Proof.
  revert w. induction retries as [|n IH]; intros w.
  - exists (PNone, "Retry Failed"), 0%nat, 0%nat. simpl. unfold mret, M_ret.
    split; [|lia]. f_equal. destruct w; simpl. f_equal; [lia | by rewrite app_nil_r].
  - destruct (attempt_outcome env url wait_time w) as [(r & Hr & _)|(e & _ & _ & He)].
    + exists r, 1%nat, 0%nat. split; [|lia]. simpl.
      unfold mbind at 1. unfold M_bind, try_except_Exception, fmap, M_fmap.
      rewrite Hr. simpl. unfold mret, M_ret, after_visit. f_equal. f_equal. lia.
    + rewrite one_retry by done.
      destruct (IH (after_retries url 1 w)) as (r & k & s & -> & Hk & _).
      exists r, (S k), (S s). split; [|lia]. simpl. f_equal. f_equal; [lia|].
      by rewrite <- app_assoc.
Qed.

(** C7: when the search navigation of a row raises on every attempt (or the
    wait or the lookup after it does), [extract_first_product_info] makes
    exactly 5 attempts, one second apart, and returns the status
    [Retry Failed] with no product URL; nothing is raised to the caller, and
    the loop of the stock checker records the row and goes on. *)
Theorem retry_exhaustion (env : environment) (search_url : pyval) (w : world) :
  (∀ k, (k < 5)%nat →
        attempt_raises (browse env (length (visited w) + k) search_url) = true) →
  extract_first_product_info env search_url 5 10 w
  = (Return (PNone, "Retry Failed"),
     {| files := files w; requested := requested w; slept := slept w + 5;
        shown := shown w; started := started w; quitted := quitted w;
        visited := visited w ++ replicate 5 search_url |})
  ∧ ∀ n results idx row,
      row !! "search_url" = Some search_url →
      interrupted env (length (shown w)) = false →
      ∃ w', check_row env n results idx row w
            = (Return (results ++ [<["stock_status" := PStr "Retry Failed"]>
                                     (<["product_page_url" := PNone]> row)]), w').
Proof.
  intros Hall. pose proof (retries_exhausted env search_url 5 10 w Hall) as Hrun.
  split; [exact Hrun|].
  intros n results idx row Hrow Hui. unfold check_row, row_get. rewrite Hrow.
  unfold mbind at 1. unfold M_bind at 1. unfold lift.
  unfold mbind at 1. unfold M_bind at 1. rewrite Hrun.
  unfold mbind, M_bind, st. simpl. rewrite Hui. eauto.
Qed.

Lemma retry_exhaustion_witness :
  (∀ k, (k < 5)%nat →
        attempt_raises (browse env_shop (length (visited world0) + k) PNone) = true)
  ∧ extract_first_product_info env_shop PNone 5 10 world0
    = (Return (PNone, "Retry Failed"),
       {| files := ∅; requested := []; slept := 5; shown := []; started := 0;
          quitted := 0; visited := [PNone; PNone; PNone; PNone; PNone] |}).
Proof.
  split; [reflexivity|].
  apply (retry_exhaustion env_shop PNone world0). reflexivity.
Defined.

(** ** Rows without SKU and name *)

(** C3, as amended: for every input row in which the SKU and the name are
    both absent, no search URL is made (the [search_url] of the row is
    [None]); the row is not skipped: the loop calls
    [extract_first_product_info] with that [None], which navigates the
    browser with it, between once and 5 times; and when each of these
    navigations raises, the row ends as [Retry Failed] after 5 attempts. *)
Theorem absent_sku_and_name_still_navigates (py_repr : pyval → string)
    (env : environment) (row : dict) (sku name : pyval) (w : world) :
  row !! "variant_sku" = Some sku → notna sku = false →
  row !! "variant_name" = Some name → notna name = false →
  make_search_url py_repr row = Return PNone
  ∧ (∀ assign_apply_empty labels,
       add_search_urls py_repr assign_apply_empty {| columns := labels; records := [row] |}
       = Return (set_column {| columns := labels; records := [row] |} "search_url" [PNone]))
  ∧ (∀ n results idx,
       ∃ k, (1 ≤ k ≤ 5)%nat
            ∧ visited (check_row env n results idx (<["search_url" := PNone]> row) w).2
              = visited w ++ replicate k PNone)
  ∧ ((∀ k, (k < 5)%nat →
           attempt_raises (browse env (length (visited w) + k) PNone) = true) →
     (extract_first_product_info env PNone 5 10 w).1 = Return (PNone, "Retry Failed")
     ∧ visited (extract_first_product_info env PNone 5 10 w).2
       = visited w ++ replicate 5 PNone).
Proof.
  intros Hsku Hs Hname Hn.
  assert (make_search_url py_repr row = Return PNone) as Hurl.
  { unfold make_search_url, row_get. rewrite Hsku. simpl. rewrite Hs, Hname. simpl.
    by rewrite Hn. }
  split; [done|]. split; [|split].
  - intros assign_apply_empty labels. unfold add_search_urls. simpl. by rewrite Hurl.
  - intros n results idx. unfold check_row, row_get. rewrite lookup_insert_eq.
    unfold mbind at 1. unfold M_bind at 1. unfold lift.
    unfold mbind at 1. unfold M_bind at 1.
    destruct (extract_first_product_info_returns env PNone 5 10 w)
      as ([product_url stock_status] & k & s & -> & Hk & Hk1).
    exists k. split; [lia|].
    unfold mbind, M_bind, st. simpl.
    by destruct (interrupted env (length (shown w))).
  - intros Hall. by rewrite (retries_exhausted env PNone 5 10 w Hall).
Qed.

Lemma absent_sku_and_name_still_navigates_witness :
  blank_row !! "variant_sku" = Some NaN
  ∧ blank_row !! "variant_name" = Some NaN
  ∧ make_search_url repr_unused blank_row = Return PNone.
Proof.
  split; [reflexivity|]. split; [reflexivity|].
  apply (absent_sku_and_name_still_navigates repr_unused env_shop blank_row NaN NaN world0);
    reflexivity.
Defined.

(** C3, as stated, fails: the row without SKU and name is driven through
    the browser 5 times, with 5 seconds of sleep, and it is saved with the
    status [Retry Failed], not [Unknown]. *)
Lemma blank_row_is_retried :
  let run := scrape_search_results repr_unused (Raise ValueError) env_shop
               (world_with blank_row) in
  visited run.2 = [PNone; PNone; PNone; PNone; PNone]
  ∧ slept run.2 = 5%nat
  ∧ ∃ df row,
      files run.2 !! "carex_variants_checked.xlsx" = Some df
      ∧ records df = [row]
      ∧ row !! "search_url" = Some PNone
      ∧ row !! "stock_status" = Some (PStr "Retry Failed")
      ∧ row !! "stock_status" ≠ Some (PStr "Unknown").
Proof.
  cbv zeta. split; [vm_compute; reflexivity|]. split; [vm_compute; reflexivity|].
  eexists _, _. split; [vm_compute; reflexivity|]. split; [reflexivity|].
  split; [vm_compute; reflexivity|]. split; [vm_compute; reflexivity|].
  vm_compute. discriminate.
Qed.

(** ** The browser session *)

(** Every record of the frame the loop walks over has a [search_url]. *)
Lemma add_search_urls_key (py_repr : pyval → string) (assign_apply_empty : outcome unit)
    (df_input df : DataFrame) :
  add_search_urls py_repr assign_apply_empty df_input = Return df →
  Forall (λ row : dict, is_Some (row !! "search_url")) (records df).
Proof.
  unfold add_search_urls. destruct (records df_input) as [|row rows] eqn:Hrec.
  - destruct assign_apply_empty; simpl; try discriminate.
    intros [= <-]. rewrite Hrec. constructor.
  - match goal with |- context [for_each ?b ?l ?a] => destruct (for_each b l a) as [urls| |] end;
      simpl; try discriminate.
    intros [= <-]. simpl. apply Forall_forall. intros r Hr.
    apply elem_of_lookup_zip_with in Hr as (i & x & y & -> & _ & _).
    rewrite lookup_insert_eq. eauto.
Qed.

Lemma enumerate_snd {A : Type} (P : A → Prop) (xs : list A) :
  Forall P xs → Forall (λ ix : nat * A, P ix.2) (enumerate xs).
Proof.
  intros H. unfold enumerate. generalize 0%nat.
  induction H as [|x xs Hx _ IH]; intros n; simpl; constructor; auto.
Qed.

(** Without a stop or rerun request the loop over the rows returns, with
    the session as it was: no failure of a row leaves the loop. *)
Lemma check_rows_returns (env : environment) (n : nat) (rows : list (nat * dict))
    (results : list dict) (w : world) :
  (∀ k, interrupted env k = false) →
  Forall (λ ix : nat * dict, is_Some (ix.2 !! "search_url")) rows →
  ∃ results' w',
    check_rows env n rows results w = (Return results', w')
    ∧ files w' = files w ∧ started w' = started w ∧ quitted w' = quitted w.
Proof.
  intros Hui Hrows. revert results w.
  induction Hrows as [|[idx row] rows [url Hurl] _ IH]; intros results w.
  - simpl. unfold mret, M_ret. by exists results, w.
  - simpl in Hurl. simpl. unfold mbind at 1. unfold M_bind at 1.
    unfold check_row, row_get. rewrite Hurl.
    unfold mbind at 1. unfold M_bind at 1. unfold lift.
    unfold mbind at 1. unfold M_bind at 1.
    destruct (extract_first_product_info_returns env url 5 10 w)
      as ([product_url stock_status] & k & s & -> & _).
    unfold mbind at 1. unfold M_bind at 1. unfold st. rewrite Hui.
    unfold mret, M_ret.
    match goal with |- context [check_rows env n rows ?r ?w1] =>
      destruct (IH r w1) as (results' & w' & -> & Hf & Hs & Hq) end.
    exists results', w'. by simpl in *.
Qed.

(** C4, as amended: on every run of [scrape_search_results] in which no
    Streamlit command is cut short by a stop or rerun request, the session
    is quit as often as it is started, whatever the browser does for the
    rows: once each when the session is started, and not at all on the paths
    that end before it (no input file, an error while the search URLs are
    made, Chrome failing to launch).  No failure of a row keeps the loop
    from reaching [driver.quit()]. *)
Theorem session_quit_unless_interrupted (py_repr : pyval → string)
    (assign_apply_empty : outcome unit) (env : environment) (w : world) :
  (∀ k, interrupted env k = false) →
  (started (scrape_search_results py_repr assign_apply_empty env w).2 + quitted w
   = quitted (scrape_search_results py_repr assign_apply_empty env w).2 + started w)%nat
  ∧ (started w ≤ started (scrape_search_results py_repr assign_apply_empty env w).2
     ≤ S (started w))%nat.
Proof.
  intros Hui.
  destruct (scrape_search_results py_repr assign_apply_empty env w) as [o w'] eqn:Hrun.
  simpl. revert Hrun. unfold scrape_search_results.
  unfold mbind at 1. unfold M_bind at 1. unfold os_path_exists.
  destruct (files w !! "carex_variants_raw.xlsx") as [df_input|] eqn:Hfile.
  2: { rewrite bool_decide_false by (by intros [? ?]). simpl.
       unfold mbind, M_bind, st. rewrite Hui. simpl. intros [= <- <-]. simpl. lia. }
  rewrite bool_decide_true by eauto. simpl.
  unfold mbind at 1. unfold M_bind at 1. unfold pd_read_excel. rewrite Hfile.
  unfold mbind at 1. unfold M_bind at 1. unfold lift.
  destruct (add_search_urls py_repr assign_apply_empty df_input) as [df| |] eqn:Hadd;
    [|intros [= <- <-]; lia..].
  unfold mbind at 1. unfold M_bind at 1. unfold init_driver.
  destruct (launch env) as [[]| |]; [|intros [= <- <-]; lia..].
  unfold mbind at 1. unfold M_bind at 1. unfold st at 1. rewrite Hui.
  unfold mbind at 1. unfold M_bind at 1. unfold st at 1. rewrite Hui.
  unfold mbind at 1. unfold M_bind at 1.
  match goal with |- context [check_rows env ?n ?rows ?r ?w1] =>
    destruct (check_rows_returns env n rows r w1 Hui) as (results & w1' & -> & Hf & Hs & Hq)
  end.
  { apply (enumerate_snd (λ row : dict, is_Some (row !! "search_url"))).
    by apply (add_search_urls_key py_repr assign_apply_empty df_input). }
  simpl in Hs, Hq.
  unfold mbind, M_bind, driver_quit, to_excel, st. simpl. rewrite !Hui.
  intros [= <- <-]. simpl. rewrite Hs, Hq. lia.
Qed.

Lemma session_quit_unless_interrupted_witness :
  (∀ k, interrupted env_shop k = false)
  ∧ (started (scrape_search_results repr_unused (Raise ValueError) env_shop
                (world_with widget_row)).2 + quitted (world_with widget_row)
     = quitted (scrape_search_results repr_unused (Raise ValueError) env_shop
                  (world_with widget_row)).2 + started (world_with widget_row))%nat.
Proof.
  split; [reflexivity|].
  apply (session_quit_unless_interrupted repr_unused (Raise ValueError) env_shop
           (world_with widget_row)).
  reflexivity.
Defined.

(** C4, as stated, fails: a rerun requested while the first row is
    reported ends the run with the session started and never quit. *)
Lemma session_leaks_on_rerun :
  let run := scrape_search_results repr_unused (Raise ValueError) env_shop_rerun
               (world_with widget_row) in
  run.1 = Raise ScriptControlException
  ∧ visited run.2 = [PStr "https://carex.com/pages/search-results-page?q=ABC-1"]
  ∧ started run.2 = 1%nat
  ∧ quitted run.2 = 0%nat.
Proof. vm_compute. repeat split. Qed.

(** ** The end of the harvest *)

(** A fetch with a status other than 200 ends the loop with the rows
    collected so far. *)
Lemma harvest_fetch_failure (py_repr : pyval → string) (json_loads : string → outcome pyval)
    (env : environment) (fuel : nat) (page : Z) (all_rows : list dict) (w : world)
    (res : response) :
  serve env (collection_url page) = Return res →
  status_code res ≠ 200 →
  interrupted env (length (shown w)) = false →
  harvest py_repr json_loads env (S fuel) page all_rows w
  = (Return all_rows, after_failed_fetch page w).
Proof.
  intros Hserve Hstatus Hui. simpl.
  unfold mbind, M_bind, requests_get. rewrite Hserve.
  rewrite bool_decide_true by done.
  unfold st. simpl. by rewrite Hui.
Qed.

(** Once the frame has its four columns, the file is written, whatever
    happens to the Streamlit commands after it. *)
Lemma save_variants_writes (series_truediv : list pyval → Z → outcome (list pyval))
    (env : environment) (all_rows : list dict) (w : world) (usd : list pyval)
    (df : DataFrame) :
  "variant_price" ∈ columns (DataFrame_of_records all_rows) →
  series_truediv (column (DataFrame_of_records all_rows) "variant_price") 100 = Return usd →
  select_columns (set_column (DataFrame_of_records all_rows) "variant_price_usd" usd)
                 keep_columns = Return df →
  files (save_variants series_truediv env all_rows w).2
  = <["carex_variants_raw.xlsx" := df]> (files w).
Proof.
  intros Hcol Hdiv Hsel. unfold save_variants.
  rewrite bool_decide_true by done.
  unfold mbind at 1. unfold M_bind at 1.
  unfold mbind at 1. unfold M_bind at 1. unfold lift at 1. rewrite Hdiv.
  unfold mret at 1. unfold M_ret at 1.
  unfold mbind at 1. unfold M_bind at 1. unfold lift at 1. rewrite Hsel.
  unfold mbind, M_bind, to_excel, st. simpl.
  repeat (destruct (interrupted env _); simpl; try reflexivity).
Qed.

(** C1, as amended: when a page fetch returns a status other than 200, the
    loop stops at once: the failure is reported, no further page is
    requested, and the rows collected from the earlier pages are kept.
    They go to the same last step as after a normal end of the catalogue,
    which writes the spreadsheet from them when they carry the price and the
    four output columns. *)
Theorem fetch_failure_keeps_rows (py_repr : pyval → string)
    (json_loads : string → outcome pyval)
    (series_truediv : list pyval → Z → outcome (list pyval))
    (env : environment) (fuel : nat) (page : Z) (all_rows : list dict) (w : world)
    (res : response) :
  serve env (collection_url page) = Return res →
  status_code res ≠ 200 →
  interrupted env (length (shown w)) = false →
  harvest py_repr json_loads env (S fuel) page all_rows w
  = (Return all_rows, after_failed_fetch page w)
  ∧ scrape_variants_from py_repr json_loads series_truediv env (S fuel) page all_rows w
    = save_variants series_truediv env all_rows (after_failed_fetch page w)
  ∧ ∀ usd df,
      "variant_price" ∈ columns (DataFrame_of_records all_rows) →
      series_truediv (column (DataFrame_of_records all_rows) "variant_price") 100
      = Return usd →
      select_columns (set_column (DataFrame_of_records all_rows) "variant_price_usd" usd)
                     keep_columns = Return df →
      files (scrape_variants_from py_repr json_loads series_truediv env (S fuel)
               page all_rows w).2
      = <["carex_variants_raw.xlsx" := df]> (files w).
Proof.
  intros Hserve Hstatus Hui.
  pose proof (harvest_fetch_failure py_repr json_loads env fuel page all_rows w res
                Hserve Hstatus Hui) as Hloop.
  assert (scrape_variants_from py_repr json_loads series_truediv env (S fuel) page all_rows w
          = save_variants series_truediv env all_rows (after_failed_fetch page w)) as Hrest.
  { unfold scrape_variants_from. unfold mbind at 1. unfold M_bind at 1. by rewrite Hloop. }
  split; [done|]. split; [done|].
  intros usd df Hcol Hdiv Hsel. rewrite Hrest.
  by rewrite (save_variants_writes series_truediv env all_rows _ usd df).
Qed.

Lemma fetch_failure_keeps_rows_witness :
  serve env_page2_fails (collection_url 2) = Return {| status_code := 500; text := EmptyString |}
  ∧ 500 ≠ 200
  ∧ interrupted env_page2_fails (length (shown world0)) = false
  ∧ harvest repr_unused json_decode env_page2_fails 1 2 [harvested_widget_row] world0
    = (Return [harvested_widget_row], after_failed_fetch 2 world0).
Proof.
  split; [reflexivity|]. split; [discriminate|]. split; [reflexivity|].
  apply (fetch_failure_keeps_rows repr_unused json_decode truediv_column env_page2_fails
           0 2 [harvested_widget_row] world0 {| status_code := 500; text := EmptyString |});
    [reflexivity | discriminate | reflexivity].
Defined.

(** C1, as stated, fails: with page 1 served and page 2 answering with
    status 500, the run requests the two pages, reports the failure, and
    writes the spreadsheet with the row of page 1. *)
Lemma partial_rows_are_written :
  let run := scrape_variants repr_unused json_decode truediv_column env_page2_fails 5 world0 in
  requested run.2 = ["https://carex.com/collections/all?page=1";
                     "https://carex.com/collections/all?page=2"]
  ∧ StError (FailedToLoadPage 2) ∈ shown run.2
  ∧ ∃ df row,
      files run.2 !! "carex_variants_raw.xlsx" = Some df
      ∧ columns df = ["variant_name"; "variant_sku"; "variant_price_usd";
                      "variant_public_title"]
      ∧ records df = [row]
      ∧ row !! "variant_name" = Some (PStr "Widget A")
      ∧ row !! "variant_sku" = Some (PStr "ABC-1").
Proof.
  cbv zeta. split; [vm_compute; reflexivity|]. split.
  - vm_compute. do 3 right. left.
  - eexists _, _. split; [vm_compute; reflexivity|].
    repeat split; vm_compute; reflexivity.
Qed.

Lemma bind_run {A B : Type} (m : M A) (f : A → M B) (w w' : world) (a : A) :
  m w = (Return a, w') → (m ≫= f) w = f a w'.
Proof. unfold mbind, M_bind. by intros ->. Qed.

Lemma st_run (env : environment) (ev : ui_event) (w : world) :
  interrupted env (length (shown w)) = false →
  st env ev w = (Return (), after_shown ev w).
Proof. unfold st. by intros ->. Qed.

(** A page without products ends the loop with the rows collected so far. *)
Lemma harvest_empty_page (py_repr : pyval → string) (json_loads : string → outcome pyval)
    (env : environment) (fuel : nat) (page : Z) (all_rows : list dict) (w : world)
    (res : response) (products : pyval) :
  serve env (collection_url page) = Return res →
  status_code res = 200 →
  extract_variants_from_script json_loads (text res) = Return products →
  truthy products = false →
  interrupted env (length (shown w)) = false →
  harvest py_repr json_loads env (S fuel) page all_rows w
  = (Return all_rows, after_empty_page page w).
Proof.
  intros Hserve Hstatus Hextract Hempty Hui. simpl.
  unfold mbind, M_bind, requests_get. rewrite Hserve.
  rewrite bool_decide_false by (intros H; by apply H).
  unfold lift. rewrite Hextract, Hempty. simpl.
  unfold st. simpl. by rewrite Hui.
Qed.

(** The frame made from no row has no column, and the selection of the
    four columns raises. *)
Lemma save_variants_no_rows (series_truediv : list pyval → Z → outcome (list pyval))
    (env : environment) (w : world) :
  save_variants series_truediv env [] w = (Raise (KeyError "variant_name"), w).
Proof.
  unfold save_variants.
  replace (DataFrame_of_records []) with {| columns := []; records := [] |}
    by (vm_compute; reflexivity).
  rewrite bool_decide_false by (by intros ?%elem_of_nil).
  reflexivity.
Qed.

(** C5, checked on the code: when the first page yields no product, the
    loop ends as a normal end of the catalogue, and the last step raises
    [KeyError] at the selection of the four columns: the frame made from no
    row has no column.  No file is written. *)
Theorem empty_first_page_raises_KeyError (py_repr : pyval → string)
    (json_loads : string → outcome pyval)
    (series_truediv : list pyval → Z → outcome (list pyval))
    (env : environment) (fuel : nat) (w : world) (res : response) (products : pyval) :
  (∀ k, interrupted env k = false) →
  serve env (collection_url 1) = Return res →
  status_code res = 200 →
  extract_variants_from_script json_loads (text res) = Return products →
  truthy products = false →
  ∃ w',
    scrape_variants py_repr json_loads series_truediv env (S fuel) w
    = (Raise (KeyError "variant_name"), w')
    ∧ files w' = files w
    ∧ requested w' = requested w ++ [collection_url 1]
    ∧ shown w' = shown w ++ [StProgress (Percent 0); StWrite StartingVariantScrape;
                             StSuccess NoMoreProducts].
Proof.
  intros Hui Hserve Hstatus Hextract Hempty.
  unfold scrape_variants, scrape_variants_from. cbv zeta.
  rewrite (bind_run _ _ _ _ _ (st_run env _ w (Hui _))).
  rewrite (bind_run _ _ _ _ _ (st_run env _ _ (Hui _))).
  rewrite (bind_run _ _ _ _ _
             (harvest_empty_page py_repr json_loads env fuel 1 [] _ res products
                Hserve Hstatus Hextract Hempty (Hui _))).
  rewrite save_variants_no_rows.
  eexists. split; [reflexivity|]. simpl.
  split; [done|]. split; [done|]. by rewrite <- !app_assoc.
Qed.

Lemma empty_first_page_raises_KeyError_witness :
  (∀ k, interrupted env_empty_catalogue k = false)
  ∧ extract_variants_from_script json_decode empty_page = Return (PList [])
  ∧ ∃ w',
      scrape_variants repr_unused json_decode truediv_column env_empty_catalogue 5 world0
      = (Raise (KeyError "variant_name"), w')
      ∧ files w' = files world0
      ∧ requested w' = requested world0 ++ [collection_url 1]
      ∧ shown w' = shown world0 ++ [StProgress (Percent 0); StWrite StartingVariantScrape;
                                     StSuccess NoMoreProducts].
Proof.
  split; [reflexivity|]. split; [vm_compute; reflexivity|].
  apply (empty_first_page_raises_KeyError repr_unused json_decode truediv_column
           env_empty_catalogue 4 world0 {| status_code := 200; text := empty_page |}
           (PList []));
    [reflexivity | reflexivity | reflexivity | vm_compute; reflexivity | reflexivity].
Defined.

(** * Further properties of the script *)

(** ** The prefetch links *)

Lemma prefix_split (p s : string) :
  String.prefix p s = true → s = p +:+ drop_string (String.length p) s.
Proof.
  revert s. induction p as [|c p IH]; intros s; [done|].
  destruct s as [|c' s]; simpl; [done|].
  destruct (Ascii.ascii_dec c c') as [->|]; [|done].
  intros H.
  change (String c' s = String c' (p +:+ drop_string (String.length p) s)).
  f_equal. by apply IH.
Qed.

Lemma until_quote_split (s href rest : string) :
  until_quote s = Some (href, rest) →
  s = href +:+ dquote +:+ rest ∧ all_chars not_quote href = true.
Proof.
  revert href. induction s as [|c s IH]; intros href; simpl; [done|].
  destruct (Ascii.eqb c "034") eqn:Hc.
  - intros [= <- <-]. apply Ascii.eqb_eq in Hc as ->. done.
  - destruct (until_quote s) as [[h r]|]; simpl; [|done].
    intros [= <- <-]. destruct (IH h eq_refl) as [-> Hh].
    split; [done|]. simpl. unfold not_quote at 1. by rewrite Hc, Hh.
Qed.

Lemma has_products_segment_split (s : string) :
  has_products_segment s = true →
  ∃ a b, s = a +:+ "/products/" +:+ b ∧ b ≠ EmptyString ∧ no_slash b = true.
Proof.
  induction s as [|c s IH].
  - simpl. unfold products_segment. simpl. done.
  - cbn [has_products_segment]. intros [H|H]%orb_true_iff.
    + unfold products_segment in H.
      apply andb_true_iff in H as [[Hp Hne]%andb_true_iff Hs].
      exists EmptyString, (drop_string 10 (String c s)).
      split; [exact (prefix_split "/products/" _ Hp)|]. split; [|done].
      intros Heq. rewrite Heq in Hne. done.
    + destruct (IH H) as (a & b & -> & Hb & Hs).
      exists (String c a), b. done.
Qed.

Lemma match_prefetch_shape (s href rest : string) :
  match_prefetch s = Some (href, rest) →
  (∃ a b, href = a +:+ "/products/" +:+ b
          ∧ a ≠ EmptyString ∧ b ≠ EmptyString ∧ no_slash b = true)
  ∧ all_chars not_quote href = true.
Proof.
  unfold match_prefetch. cbv zeta.
  destruct (String.prefix _ s); [|done].
  destruct (until_quote _) as [[h r]|] eqn:Hq; simpl; [|done].
  destruct (href_matches h) eqn:Hm; [|done].
  intros [= <- <-]. apply until_quote_split in Hq as [_ Hh]. split; [|done].
  destruct h as [|c h]; [done|]. simpl in Hm.
  destruct (has_products_segment_split h Hm) as (a & b & -> & Hb & Hs).
  exists (String c a), b. done.
Qed.

(** X1: every URL [extract_product_urls_from_collection_page] returns is
    the address of a product page: some text, then [/products/], then a
    last segment that is not empty and has no slash; and it holds no double
    quote. *)
Theorem prefetch_urls_are_product_links (html : string) :
  Forall (λ url, (∃ a b, url = a +:+ "/products/" +:+ b
                         ∧ a ≠ EmptyString ∧ b ≠ EmptyString ∧ no_slash b = true)
                 ∧ all_chars not_quote url = true)
         (extract_product_urls_from_collection_page html).
Proof.
  unfold extract_product_urls_from_collection_page.
  generalize (S (String.length html)). intros fuel. revert html.
  induction fuel as [|fuel IH]; intros html; simpl; [constructor|].
  destruct (match_prefetch html) as [[href rest]|] eqn:Hm.
  - constructor; [by apply (match_prefetch_shape html href rest)|apply IH].
  - destruct html; [constructor|apply IH].
Qed.

(** ** One row per variant *)

Lemma product_rows_of_variants (py_repr : pyval → string) (product : dict)
    (variants : list dict) (product_url : option string) (all_rows : list dict) :
  product !! "variants" = Some (PList (PDict <$> variants)) →
  product_rows py_repr (PDict product) product_url all_rows
  = Return (all_rows ++ ((λ variant, flatten_dicts py_repr product variant product_url)
                           <$> variants)).
Proof.
  intros Hv. unfold product_rows. simpl. rewrite Hv. simpl. clear Hv.
  revert all_rows. induction variants as [|v vs IH]; intros all_rows; simpl.
  - by rewrite app_nil_r.
  - rewrite IH. by rewrite <- app_assoc.
Qed.

Lemma page_rows_of_products (py_repr : pyval → string) (product_urls : list string)
    (ps : list (dict * list dict)) (n : nat) (all_rows : list dict) :
  Forall (λ pv : dict * list dict, pv.1 !! "variants" = Some (PList (PDict <$> pv.2))) ps →
  for_each (pair_and_flatten py_repr product_urls)
           (zip (seq n (length ps)) ((λ pv, PDict pv.1) <$> ps)) all_rows
  = Return (all_rows ++ rows_of_products py_repr product_urls n ps).
Proof.
  intros Hps. revert n all_rows.
  induction Hps as [|[product variants] ps Hp _ IH]; intros n all_rows; simpl.
  - by rewrite app_nil_r.
  - rewrite pair_product_url_lookup. simpl.
    rewrite (product_rows_of_variants py_repr product variants) by done. simpl.
    rewrite IH. by rewrite <- app_assoc.
Qed.

Lemma length_rows_of_products (py_repr : pyval → string) (product_urls : list string)
    (n : nat) (ps : list (dict * list dict)) :
  length (rows_of_products py_repr product_urls n ps)
  = sum_list ((λ pv : dict * list dict, length pv.2) <$> ps).
Proof.
  revert n. induction ps as [|[product variants] ps IH]; intros n; simpl; [done|].
  by rewrite length_app, length_fmap, IH.
Qed.

(** X2: on a page whose products are objects, each with a list of variant
    objects under [variants], the loops of [scrape_variants] append exactly
    one row per variant, in the order of the page: the rows of the first
    product, variant by variant, then those of the second, and so on, each
    flattened with the detail URL at the index of its product.  The rows
    collected before are kept in front. *)
Theorem page_rows_one_row_per_variant (py_repr : pyval → string)
    (product_urls : list string) (ps : list (dict * list dict)) (all_rows : list dict) :
  Forall (λ pv : dict * list dict, pv.1 !! "variants" = Some (PList (PDict <$> pv.2))) ps →
  page_rows py_repr (PList ((λ pv, PDict pv.1) <$> ps)) product_urls all_rows
  = Return (all_rows ++ rows_of_products py_repr product_urls 0 ps)
  ∧ length (rows_of_products py_repr product_urls 0 ps)
    = sum_list ((λ pv : dict * list dict, length pv.2) <$> ps).
Proof.
  intros Hps. split; [|apply length_rows_of_products].
  unfold page_rows, enumerate. simpl. rewrite length_fmap.
  by apply page_rows_of_products.
Qed.

Lemma page_rows_one_row_per_variant_witness :
  Forall (λ pv : dict * list dict, pv.1 !! "variants" = Some (PList (PDict <$> pv.2)))
         [(widget_product_fields, [widget_variant_fields]);
          (second_product_fields, [{["id" := PInt 21]}])]
  ∧ page_rows repr_unused
      (PList [PDict widget_product_fields; PDict second_product_fields])
      ["https://carex.com/products/widget-a"] []
    = Return [flatten_dicts repr_unused widget_product_fields widget_variant_fields
                (Some "https://carex.com/products/widget-a");
              flatten_dicts repr_unused second_product_fields {["id" := PInt 21]} None].
Proof.
  assert (Forall (λ pv : dict * list dict,
                    pv.1 !! "variants" = Some (PList (PDict <$> pv.2)))
            [(widget_product_fields, [widget_variant_fields]);
             (second_product_fields, [{["id" := PInt 21]}])]) as Hps
    by (repeat constructor).
  split; [exact Hps|].
  destruct (page_rows_one_row_per_variant repr_unused
              ["https://carex.com/products/widget-a"] _ [] Hps) as [H _].
  exact H.
Defined.

(** ** The harvest loop *)

Lemma page_urls_S (page : Z) (n : nat) :
  page_urls page (S n) = collection_url page :: page_urls (page + 1) n.
Proof.
  unfold page_urls. simpl. rewrite Z.add_0_r. f_equal.
  rewrite <- fmap_S_seq, <- list_fmap_compose.
  apply list_fmap_ext. intros _ i _. simpl. f_equal. lia.
Qed.

Lemma for_each_extends {A B : Type} (body : list B → A → outcome (list B))
    (xs : list A) (acc rows : list B) :
  (∀ acc x acc', body acc x = Return acc' → ∃ new, acc' = acc ++ new) →
  for_each body xs acc = Return rows → ∃ new, rows = acc ++ new.
Proof.
  intros Hbody. revert acc. induction xs as [|x xs IH]; intros acc; simpl.
  - intros [= <-]. exists []. by rewrite app_nil_r.
  - destruct (body acc x) as [acc'| |] eqn:Hb; simpl; try discriminate.
    intros H. destruct (Hbody _ _ _ Hb) as (new1 & ->).
    destruct (IH _ H) as (new2 & ->). exists (new1 ++ new2). by rewrite app_assoc.
Qed.

Lemma page_rows_extends (py_repr : pyval → string) (products : pyval)
    (product_urls : list string) (all_rows rows : list dict) :
  page_rows py_repr products product_urls all_rows = Return rows →
  ∃ new, rows = all_rows ++ new.
Proof.
  unfold page_rows.
  destruct (py_iter products) as [ps| |]; simpl; try discriminate.
  apply for_each_extends. intros acc [i product] acc'. unfold pair_and_flatten.
  rewrite pair_product_url_lookup. simpl. rewrite product_rows_acc.
  destruct (product_rows py_repr product (product_urls !! i) []) as [g| |]; simpl;
    try discriminate.
  intros [= <-]. by exists g.
Qed.

Lemma page_urls_1 (page : Z) : page_urls page 1 = [collection_url page].
Proof. unfold page_urls. simpl. by rewrite Z.add_0_r. Qed.

Ltac one_request :=
  exists 1%nat; rewrite page_urls_1; simpl; repeat split; try done.

(** What a run of the loop does to the world, whatever its outcome: it
    requests consecutive pages from [page] on and touches nothing but the
    requests, the clock and the page. *)
Lemma harvest_trace (py_repr : pyval → string) (json_loads : string → outcome pyval)
    (env : environment) (fuel : nat) (page : Z) (all_rows : list dict) (w : world) :
  ∃ n,
    requested (harvest py_repr json_loads env fuel page all_rows w).2
    = requested w ++ page_urls page n
    ∧ files (harvest py_repr json_loads env fuel page all_rows w).2 = files w
    ∧ started (harvest py_repr json_loads env fuel page all_rows w).2 = started w
    ∧ quitted (harvest py_repr json_loads env fuel page all_rows w).2 = quitted w
    ∧ visited (harvest py_repr json_loads env fuel page all_rows w).2 = visited w
    ∧ ∀ rows,
        (harvest py_repr json_loads env fuel page all_rows w).1 = Return rows →
        ∃ k new,
          n = S k
          ∧ slept (harvest py_repr json_loads env fuel page all_rows w).2 = (slept w + k)%nat
          ∧ rows = all_rows ++ new.
Proof.
  revert page all_rows w. induction fuel as [|fuel IH]; intros page all_rows w.
  - exists 0%nat. simpl. rewrite app_nil_r. repeat split; done.
  - simpl. unfold mbind, M_bind, requests_get, lift, st, time_sleep.
    destruct (serve env (collection_url page)) as [res| |]; simpl.
    2,3: one_request.
    case_bool_decide as Hstatus; simpl.
    { destruct (interrupted env (length (shown w))); simpl.
      - one_request.
      - one_request.
        intros rows [= <-]. exists 0%nat, []. by rewrite Nat.add_0_r, app_nil_r. }
    destruct (extract_variants_from_script json_loads (text res)) as [products| |]; simpl.
    2,3: one_request.
    destruct (truthy products); simpl.
    2: { destruct (interrupted env (length (shown w))); simpl.
         - one_request.
         - one_request.
           intros rows [= <-]. exists 0%nat, []. by rewrite Nat.add_0_r, app_nil_r. }
    destruct (page_rows py_repr products _ all_rows) as [rows1| |] eqn:Hpage; simpl.
    2,3: one_request.
    destruct (interrupted env (length (shown w))); simpl.
    { one_request. }
    match goal with |- context [harvest py_repr json_loads env fuel ?p ?r ?w1] =>
      destruct (IH p r w1) as (n & Hreq & Hfiles & Hst & Hq & Hv & Hret) end.
    simpl in *. exists (S n). rewrite page_urls_S.
    split; [by rewrite Hreq, <- app_assoc|].
    repeat split; try done.
    intros rows Hrows. destruct (Hret rows Hrows) as (k & new & -> & Hslept & ->).
    destruct (page_rows_extends _ _ _ _ _ Hpage) as (new1 & ->).
    exists (S k), (new1 ++ new). split; [done|]. split; [lia|]. by rewrite app_assoc.
Qed.

(** X3: every run of the harvest loop that ends normally has requested
    consecutive pages, each once, from its first page on; it has slept one
    second after each page but the last, so between any two requests; and
    the rows it returns start with the rows it was given: no row of an
    earlier page is dropped or moved.  It has written no file. *)
Theorem harvest_pages_in_order (py_repr : pyval → string)
    (json_loads : string → outcome pyval) (env : environment) (fuel : nat) (page : Z)
    (all_rows rows : list dict) (w w' : world) :
  harvest py_repr json_loads env fuel page all_rows w = (Return rows, w') →
  ∃ k new,
    requested w' = requested w ++ page_urls page (S k)
    ∧ slept w' = (slept w + k)%nat
    ∧ rows = all_rows ++ new
    ∧ files w' = files w.
Proof.
  intros Hrun.
  destruct (harvest_trace py_repr json_loads env fuel page all_rows w)
    as (n & Hreq & Hfiles & _ & _ & _ & Hret).
  rewrite Hrun in *. simpl in *.
  destruct (Hret rows eq_refl) as (k & new & -> & Hslept & ->).
  by exists k, new.
Qed.

Lemma harvest_pages_in_order_witness :
  harvest repr_unused json_decode env_two_pages 5 1 [] world0
  = (Return (rows_of_products repr_unused
               ["https://carex.com/products/widget"; "https://carex.com/products/gadget"] 0
               catalogue_products),
     {| files := ∅;
        requested := ["https://carex.com/collections/all?page=1";
                      "https://carex.com/collections/all?page=2"];
        slept := 1;
        shown := [StProgress (Percent 10); StSuccess NoMoreProducts];
        started := 0; quitted := 0; visited := [] |})
  ∧ ∃ k new,
      ["https://carex.com/collections/all?page=1";
       "https://carex.com/collections/all?page=2"]
      = requested world0 ++ page_urls 1 (S k)
      ∧ 1%nat = (slept world0 + k)%nat
      ∧ rows_of_products repr_unused
          ["https://carex.com/products/widget"; "https://carex.com/products/gadget"] 0
          catalogue_products
        = [] ++ new
      ∧ (∅ : gmap string DataFrame) = files world0.
Proof.
  assert (harvest repr_unused json_decode env_two_pages 5 1 [] world0
          = (Return (rows_of_products repr_unused
                       ["https://carex.com/products/widget";
                        "https://carex.com/products/gadget"] 0 catalogue_products),
             {| files := ∅;
                requested := ["https://carex.com/collections/all?page=1";
                              "https://carex.com/collections/all?page=2"];
                slept := 1;
                shown := [StProgress (Percent 10); StSuccess NoMoreProducts];
                started := 0; quitted := 0; visited := [] |})) as Hrun
    by (vm_compute; reflexivity).
  split; [exact Hrun|].
  exact (harvest_pages_in_order _ _ _ _ _ _ _ _ _ Hrun).
Defined.

(** X4: an exception raised while the products of a page are flattened
    (a product that is not an object, a [variants] that is [null], a variant
    that is not an object) is caught nowhere: it ends [scrape_variants] at
    once, after the fetch of that page, with no file written, so the rows
    of the earlier pages are lost.  A product whose [variants] is [null]
    raises a [TypeError] this way. *)
Theorem page_error_aborts_harvest (py_repr : pyval → string)
    (json_loads : string → outcome pyval)
    (series_truediv : list pyval → Z → outcome (list pyval))
    (env : environment) (fuel : nat) (page : Z) (all_rows : list dict) (w : world)
    (res : response) (products : pyval) e :
  serve env (collection_url page) = Return res →
  status_code res = 200 →
  extract_variants_from_script json_loads (text res) = Return products →
  truthy products = true →
  page_rows py_repr products (extract_product_urls_from_collection_page (text res)) all_rows
  = Raise e →
  scrape_variants_from py_repr json_loads series_truediv env (S fuel) page all_rows w
  = (Raise e, after_fetch page w)
  ∧ ∀ (product : dict) rest urls acc,
      product !! "variants" = Some PNone →
      page_rows py_repr (PList (PDict product :: rest)) urls acc = Raise TypeError.
Proof.
  intros Hserve Hstatus Hextract Htruthy Hpage. split.
  - unfold scrape_variants_from. simpl.
    unfold mbind, M_bind, requests_get, lift. rewrite Hserve.
    rewrite bool_decide_false by (intros H; by apply H).
    rewrite Hextract, Htruthy. simpl. by rewrite Hpage.
  - intros product rest urls acc Hv. unfold page_rows, enumerate. simpl.
    rewrite pair_product_url_lookup. simpl. unfold product_rows. simpl.
    by rewrite Hv.
Qed.

Lemma page_error_aborts_harvest_witness :
  serve env_null_variants (collection_url 2)
  = Return {| status_code := 200; text := null_variants_page |}
  ∧ scrape_variants_from repr_unused json_decode truediv_column env_null_variants 1 2
      [harvested_widget_row] world0
    = (Raise TypeError, after_fetch 2 world0).
Proof.
  split; [reflexivity|].
  apply (page_error_aborts_harvest repr_unused json_decode truediv_column
           env_null_variants 0 2 [harvested_widget_row] world0
           {| status_code := 200; text := null_variants_page |}
           (PList [PDict {["id" := PInt 1; "variants" := PNone]}]));
    [reflexivity | reflexivity | vm_compute; reflexivity | reflexivity
    | vm_compute; reflexivity].
Defined.

(** ** The last step of the harvester *)

Lemma length_DataFrame_of_records (rows : list dict) :
  length (records (DataFrame_of_records rows)) = length rows.
Proof. unfold DataFrame_of_records. simpl. by rewrite length_fmap. Qed.

Lemma select_columns_shape (d df : DataFrame) (labels : list string) :
  select_columns d labels = Return df →
  columns df = labels
  ∧ Forall (λ rec : dict, dom rec = list_to_set labels) (records df)
  ∧ length (records df) = length (records d).
Proof.
  unfold select_columns. destruct (filter _ labels); [|discriminate].
  intros [= <-]. simpl. split; [done|]. split; [|by rewrite length_fmap].
  apply Forall_fmap, Forall_forall. intros row _. simpl.
  rewrite dom_list_to_map_L. f_equal. rewrite <- list_fmap_compose.
  by rewrite list_fmap_id.
Qed.

(** X5: the last step of [scrape_variants] writes at most one file, the
    sheet [carex_variants_raw.xlsx], and leaves every other file as it was.
    The sheet it writes has the four columns [variant_name], [variant_sku],
    [variant_price_usd], [variant_public_title], in this order and no other,
    every record of it has a cell under exactly these four, and it has no
    more records than there are rows. *)
Theorem saved_sheet_has_four_columns
    (series_truediv : list pyval → Z → outcome (list pyval)) (env : environment)
    (all_rows : list dict) (w : world) :
  files (save_variants series_truediv env all_rows w).2 = files w
  ∨ ∃ df,
      files (save_variants series_truediv env all_rows w).2
      = <["carex_variants_raw.xlsx" := df]> (files w)
      ∧ columns df = ["variant_name"; "variant_sku"; "variant_price_usd";
                      "variant_public_title"]
      ∧ Forall (λ rec : dict,
                  dom rec = {["variant_name"; "variant_sku"; "variant_price_usd";
                              "variant_public_title"]}) (records df)
      ∧ (length (records df) ≤ length all_rows)%nat.
Proof.
  unfold save_variants. cbv zeta.
  unfold mbind at 1. unfold M_bind at 1.
  set (df0 := DataFrame_of_records all_rows).
  assert (∀ df1 : DataFrame, (length (records df1) ≤ length all_rows)%nat →
    files ((lift (select_columns df1 keep_columns)
            ≫= λ df, to_excel (Some "carex_variants_raw.xlsx") df
            ≫= λ _, st env (StSuccess (DoneScrapingVariants "carex_variants_raw.xlsx"))
            ≫= λ _, st env (StDataframe (head 10 df))
            ≫= λ _, to_excel None df
            ≫= λ _, st env (StDownloadButton "carex_variants_raw.xlsx")
            ≫= λ _, mret df) w).2 = files w
    ∨ ∃ df,
        files ((lift (select_columns df1 keep_columns)
            ≫= λ df, to_excel (Some "carex_variants_raw.xlsx") df
            ≫= λ _, st env (StSuccess (DoneScrapingVariants "carex_variants_raw.xlsx"))
            ≫= λ _, st env (StDataframe (head 10 df))
            ≫= λ _, to_excel None df
            ≫= λ _, st env (StDownloadButton "carex_variants_raw.xlsx")
            ≫= λ _, mret df) w).2
        = <["carex_variants_raw.xlsx" := df]> (files w)
        ∧ columns df = keep_columns
        ∧ Forall (λ rec : dict, dom rec = list_to_set keep_columns) (records df)
        ∧ (length (records df) ≤ length all_rows)%nat) as Hrest.
  { intros df1 Hlen. unfold mbind, M_bind, lift, to_excel, st.
    destruct (select_columns df1 keep_columns) as [df| |] eqn:Hsel; simpl; [|by left..].
    apply select_columns_shape in Hsel as (Hc & Hd & Hl).
    right. exists df. split; [|split; [done|split; [done|lia]]].
    repeat (destruct (interrupted env _); simpl; try reflexivity). }
  assert (list_to_set keep_columns
          = ({["variant_name"; "variant_sku"; "variant_price_usd";
               "variant_public_title"]} : gset string)) as Hset.
  { unfold keep_columns. simpl. set_solver. }
  rewrite <- Hset. change ["variant_name"; "variant_sku"; "variant_price_usd";
                           "variant_public_title"] with keep_columns.
  pose proof (length_DataFrame_of_records all_rows : length (records df0) = _) as Hlen0.
  clearbody df0.
  case_bool_decide.
  - unfold mbind at 1. unfold M_bind at 1. unfold lift at 1.
    destruct (series_truediv (column df0 "variant_price") 100) as [usd| |]; [|by left..].
    unfold mret at 1. unfold M_ret at 1.
    apply Hrest. unfold set_column. simpl. rewrite length_zip_with. lia.
  - unfold mret at 1. unfold M_ret at 1.
    apply Hrest. lia.
Qed.

Lemma bind_return_inv {A B : Type} (m : M A) (f : A → M B) (w w' : world) (b : B) :
  (m ≫= f) w = (Return b, w') →
  ∃ a w1, m w = (Return a, w1) ∧ f a w1 = (Return b, w').
Proof.
  unfold mbind, M_bind. destruct (m w) as [[a|e|] w1]; try discriminate.
  intros H. by exists a, w1.
Qed.

(** The last step never returns: the call of [to_excel] without a writer
    raises when the download button is built. *)
Lemma save_variants_outcome (series_truediv : list pyval → Z → outcome (list pyval))
    (env : environment) (all_rows : list dict) (w : world) :
  (∀ df, (save_variants series_truediv env all_rows w).1 ≠ Return df)
  ∧ ((∀ k, interrupted env k = false) →
     files (save_variants series_truediv env all_rows w).2 ≠ files w →
     (save_variants series_truediv env all_rows w).1 = Raise TypeError).
Proof.
  unfold save_variants. cbv zeta.
  set (df0 := DataFrame_of_records all_rows). clearbody df0.
  assert (∀ df1 : DataFrame,
    let rest := (lift (select_columns df1 keep_columns)
            ≫= λ df, to_excel (Some "carex_variants_raw.xlsx") df
            ≫= λ _, st env (StSuccess (DoneScrapingVariants "carex_variants_raw.xlsx"))
            ≫= λ _, st env (StDataframe (head 10 df))
            ≫= λ _, to_excel None df
            ≫= λ _, st env (StDownloadButton "carex_variants_raw.xlsx")
            ≫= λ _, mret df) w in
    (∀ df, rest.1 ≠ Return df)
    ∧ ((∀ k, interrupted env k = false) → files rest.2 ≠ files w →
       rest.1 = Raise TypeError)) as Hrest.
  { intros df1. cbv zeta. unfold mbind, M_bind, lift, to_excel, st.
    destruct (select_columns df1 keep_columns) as [df| |]; simpl.
    2,3: split; [done|]; intros _ Hne; by destruct Hne.
    split.
    - intros df'. repeat (destruct (interrupted env _); simpl; try done).
    - intros Hui _. simpl. repeat (rewrite Hui; simpl). done. }
  unfold mbind at 1 3 5. unfold M_bind at 1 3 5.
  case_bool_decide.
  - unfold mbind at 1 3 5. unfold M_bind at 1 3 5. unfold lift at 1 3 5.
    destruct (series_truediv (column df0 "variant_price") 100) as [usd| |]; simpl.
    + apply Hrest.
    + split; [done|]. intros _ Hne. by destruct Hne.
    + split; [done|]. intros _ Hne. by destruct Hne.
  - unfold mret at 1 3 5. unfold M_ret at 1 3 5. apply Hrest.
Qed.

(** X6: [scrape_variants] never returns its frame.  Each of its runs ends
    in an exception (or does not end), because the download button is built
    from [df.to_excel(index=False, engine="openpyxl")], a call without the
    writer it requires; and a run without interruption that has written the
    sheet ends in exactly this [TypeError], after the file was saved and
    the success message shown. *)
Theorem scrape_variants_never_returns (py_repr : pyval → string)
    (json_loads : string → outcome pyval)
    (series_truediv : list pyval → Z → outcome (list pyval))
    (env : environment) (fuel : nat) (w : world) :
  (∀ df, (scrape_variants py_repr json_loads series_truediv env fuel w).1 ≠ Return df)
  ∧ ((∀ k, interrupted env k = false) →
     files (scrape_variants py_repr json_loads series_truediv env fuel w).2 ≠ files w →
     (scrape_variants py_repr json_loads series_truediv env fuel w).1 = Raise TypeError).
Proof.
  split.
  - intros df Hret.
    destruct (scrape_variants py_repr json_loads series_truediv env fuel w)
      as [o w'] eqn:Hrun.
    simpl in Hret. subst o. unfold scrape_variants, scrape_variants_from in Hrun.
    cbv zeta in Hrun.
    apply bind_return_inv in Hrun as (? & w1 & _ & Hrun).
    apply bind_return_inv in Hrun as (? & w2 & _ & Hrun).
    apply bind_return_inv in Hrun as (rows & w3 & _ & Hrun).
    destruct (save_variants_outcome series_truediv env rows w3) as [Hnever _].
    apply (Hnever df). by rewrite Hrun.
  - intros Hui. unfold scrape_variants, scrape_variants_from. cbv zeta.
    rewrite (bind_run _ _ _ _ _ (st_run env _ w (Hui _))).
    rewrite (bind_run _ _ _ _ _ (st_run env _ _ (Hui _))).
    unfold mbind, M_bind.
    match goal with |- context [harvest py_repr json_loads env fuel ?p ?r ?w1] =>
      destruct (harvest_trace py_repr json_loads env fuel p r w1)
        as (n & _ & Hfiles & _);
      destruct (harvest py_repr json_loads env fuel p r w1) as [[rows| |] w3]
    end; simpl in Hfiles.
    + intros Hchanged.
      destruct (save_variants_outcome series_truediv env rows w3) as [_ Hwritten].
      apply Hwritten; [done|]. by rewrite Hfiles.
    + simpl. intros H. by destruct H.
    + simpl. intros H. by destruct H.
Qed.

(** ** The retry loop *)

Lemma attempt_found (env : environment) (url : pyval) (wait_time : nat) (w : world)
    (classes : string) (view_link : option (option string)) :
  browse env (length (visited w)) url = ProductElement (Some classes) view_link →
  attempt env url wait_time w
  = (Return (from_option product_url_of PNone view_link, stock_status_of classes),
     after_visit url w).
Proof.
  intros Hview. unfold attempt, mbind, M_bind, driver_get, lift, after_visit.
  rewrite Hview. by destruct view_link.
Qed.

(** X7: when the first [k] attempts of a row raise and the next one, still
    within the budget, finds the product element, [extract_first_product_info]
    returns what that attempt read: the status of the class attribute, and
    the product URL of the view link, or [None] when the lookup of the link
    fails.  It has navigated [k + 1] times and slept [k] seconds, one after
    each failure, and it makes no later attempt. *)
Theorem retry_until_found (env : environment) (url : pyval) (retries k wait_time : nat)
    (w : world) (classes : string) (view_link : option (option string)) :
  (k < retries)%nat →
  (∀ j, (j < k)%nat → attempt_raises (browse env (length (visited w) + j) url) = true) →
  browse env (length (visited w) + k) url = ProductElement (Some classes) view_link →
  extract_first_product_info env url retries wait_time w
  = (Return (from_option product_url_of PNone view_link, stock_status_of classes),
     {| files := files w; requested := requested w; slept := slept w + k;
        shown := shown w; started := started w; quitted := quitted w;
        visited := visited w ++ replicate (S k) url |}).
Proof.
  revert retries w. induction k as [|k IH]; intros retries w Hk Hfail Hfound.
  - destruct retries as [|retries]; [lia|]. rewrite Nat.add_0_r in Hfound. simpl.
    unfold mbind at 1. unfold M_bind, try_except_Exception, fmap, M_fmap.
    rewrite (attempt_found env url wait_time w classes view_link Hfound). simpl.
    unfold mret, M_ret, after_visit. do 2 f_equal. lia.
  - destruct retries as [|retries]; [lia|].
    rewrite one_retry.
    2: { specialize (Hfail 0%nat). rewrite Nat.add_0_r in Hfail. apply Hfail. lia. }
    rewrite (IH retries (after_retries url 1 w)).
    + simpl. do 2 f_equal; [lia|]. by rewrite <- app_assoc.
    + lia.
    + intros j Hj. simpl. rewrite length_app. simpl.
      replace (length (visited w) + 1 + j)%nat with (length (visited w) + S j)%nat by lia.
      apply Hfail. lia.
    + simpl. rewrite length_app. simpl.
      by replace (length (visited w) + 1 + k)%nat with (length (visited w) + S k)%nat by lia.
Qed.

Lemma retry_until_found_witness :
  (2 < 5)%nat
  ∧ browse env_flaky (length (visited world0) + 2) PNone
    = ProductElement (Some "snize-product snize-product-out-of-stock") None
  ∧ extract_first_product_info env_flaky PNone 5 10 world0
    = (Return (PNone, "Out of Stock"),
       {| files := ∅; requested := []; slept := 2; shown := []; started := 0;
          quitted := 0; visited := [PNone; PNone; PNone] |}).
Proof.
  split; [lia|]. split; [reflexivity|].
  apply (retry_until_found env_flaky PNone 5 2 10 world0
           "snize-product snize-product-out-of-stock" None); [lia| |reflexivity].
  intros j Hj. simpl. unfold flaky_browser.
  destruct j as [|[|j]]; [reflexivity|reflexivity|lia].
Defined.

Lemma stock_status_of_cases (classes : string) :
  stock_status_of classes = "In Stock"
  ∨ stock_status_of classes = "Out of Stock"
  ∨ stock_status_of classes = "Unknown".
Proof.
  unfold stock_status_of.
  destruct (contains "snize-product-in-stock" classes); [by left|].
  destruct (contains "snize-product-out-of-stock" classes); [right; by left|].
  right; by right.
Qed.

(** X8: whatever the browser does and whatever the budget is,
    [extract_first_product_info] returns and never raises; its status is
    one of [In Stock], [Out of Stock], [Unknown] and [Retry Failed]; it
    navigates at most [retries] times, always to the URL it was given, and
    sleeps at most [retries] seconds; the status [Retry Failed] comes with
    no product URL and only after the whole budget was used; with a budget
    of 0 it answers [Retry Failed] without touching the browser.  It changes
    no file, shows nothing and neither starts nor quits a session. *)
Theorem stock_status_is_one_of_four (env : environment) (url : pyval)
    (retries wait_time : nat) (w : world) :
  ∃ product_url status k s,
    extract_first_product_info env url retries wait_time w
    = (Return (product_url, status),
       {| files := files w; requested := requested w; slept := slept w + s;
          shown := shown w; started := started w; quitted := quitted w;
          visited := visited w ++ replicate k url |})
    ∧ (k ≤ retries)%nat ∧ (s ≤ k)%nat
    ∧ status ∈ ["In Stock"; "Out of Stock"; "Unknown"; "Retry Failed"]
    ∧ (status = "Retry Failed" → product_url = PNone ∧ k = retries ∧ s = retries).
Proof.
  revert w. induction retries as [|n IH]; intros w.
  - exists PNone, "Retry Failed", 0%nat, 0%nat. simpl. unfold mret, M_ret.
    split; [|split; [lia|split; [lia|split; [set_solver|done]]]].
    f_equal. destruct w; simpl. f_equal; [lia | by rewrite app_nil_r].
  - destruct (browse env (length (visited w)) url) as [e|e|e|[classes|] link] eqn:Hview.
    4: { exists (from_option product_url_of PNone link), (stock_status_of classes),
           1%nat, 0%nat.
         split.
         { pose proof (retry_until_found env url (S n) 0 wait_time w classes link) as H.
           rewrite Nat.add_0_r in H. rewrite H; [done|lia|intros; lia|done]. }
         split; [lia|]. split; [lia|]. split.
         - destruct (stock_status_of_cases classes) as [-> | [-> | ->]]; set_solver.
         - intros H. by destruct (stock_status_of_cases classes) as [H' | [H' | H']];
             rewrite H' in H. }
    all: rewrite one_retry by (by rewrite Hview);
      destruct (IH (after_retries url 1 w)) as (pu & status & k & s & -> & Hk & Hs & Hin & Hrf);
      exists pu, status, (S k), (S s);
      (split; [simpl; do 2 f_equal; [lia | by rewrite <- app_assoc]|]);
      (split; [lia|]); (split; [lia|]); (split; [done|]);
      intros H; destruct (Hrf H) as [-> [-> ->]]; done.
Qed.

(** ** The search URL and the sheet it is made from *)

Lemma bind_raise {A B : Type} (m : M A) (f : A → M B) (w w' : world) e :
  m w = (Raise e, w') → (m ≫= f) w = (Raise e, w').
Proof. unfold mbind, M_bind. by intros ->. Qed.

Lemma os_path_exists_found (path : string) (w : world) (df : DataFrame) :
  files w !! path = Some df → os_path_exists path w = (Return true, w).
Proof. intros H. unfold os_path_exists. rewrite bool_decide_true by eauto. done. Qed.

Lemma pd_read_excel_found (path : string) (w : world) (df : DataFrame) :
  files w !! path = Some df → pd_read_excel path w = (Return df, w).
Proof. intros H. unfold pd_read_excel. by rewrite H. Qed.

(** X9: a sheet without the column [variant_sku] makes
    [scrape_search_results] raise [KeyError] while the search URLs are made:
    no session is started, nothing is shown and nothing is written.  The
    column [variant_name] is read only for a row whose SKU is missing: a
    row with a SKU gets its search URL also when the sheet has no name
    column, and a row without SKU in such a sheet raises [KeyError]. *)
Theorem missing_sku_column_raises (py_repr : pyval → string)
    (assign_apply_empty : outcome unit) (env : environment) (w : world)
    (df : DataFrame) (row : dict) (rest : list dict) :
  files w !! "carex_variants_raw.xlsx" = Some df →
  records df = row :: rest →
  row !! "variant_sku" = None →
  scrape_search_results py_repr assign_apply_empty env w
  = (Raise (KeyError "variant_sku"), w)
  ∧ (∀ (other : dict) sku,
       other !! "variant_sku" = Some sku → other !! "variant_name" = None →
       make_search_url py_repr other
       = if notna sku
         then Return (PStr (base_search_url +:+ quote (py_str py_repr sku)))
         else Raise (KeyError "variant_name")).
Proof.
  intros Hfile Hrec Hsku. split.
  - unfold scrape_search_results. cbv zeta.
    rewrite (bind_run _ _ _ _ _ (os_path_exists_found _ w df Hfile)). simpl.
    rewrite (bind_run _ _ _ _ _ (pd_read_excel_found _ w df Hfile)).
    apply bind_raise. unfold lift. f_equal.
    unfold add_search_urls. rewrite Hrec. simpl.
    unfold make_search_url, row_get. by rewrite Hsku.
  - intros other sku Hs Hn. unfold make_search_url, row_get. rewrite Hs. simpl.
    destruct (notna sku) eqn:Hsku'; simpl.
    + by rewrite Hsku'.
    + by rewrite Hn.
Qed.

Lemma missing_sku_column_raises_witness :
  files (world_with {["variant_name" := PStr "Widget A"]}) !! "carex_variants_raw.xlsx"
  = Some {| columns := ["variant_name"; "variant_sku"; "variant_price_usd";
                        "variant_public_title"];
            records := [{["variant_name" := PStr "Widget A"]}] |}
  ∧ scrape_search_results repr_unused (Raise ValueError) env_shop
      (world_with {["variant_name" := PStr "Widget A"]})
    = (Raise (KeyError "variant_sku"), world_with {["variant_name" := PStr "Widget A"]}).
Proof.
  split; [reflexivity|].
  apply (missing_sku_column_raises repr_unused (Raise ValueError) env_shop
           (world_with {["variant_name" := PStr "Widget A"]})
           {| columns := ["variant_name"; "variant_sku"; "variant_price_usd";
                          "variant_public_title"];
              records := [{["variant_name" := PStr "Widget A"]}] |}
           {["variant_name" := PStr "Widget A"]} []); reflexivity.
Defined.

Lemma hex_digit_url_char (c : ascii) :
  url_char (hex_digit (nat_of_ascii c / 16)) = true
  ∧ url_char (hex_digit (nat_of_ascii c mod 16)) = true.
Proof. destruct c as [[] [] [] [] [] [] [] []]; by vm_compute. Qed.

Lemma quote_url_chars (s : string) : all_chars url_char (quote s) = true.
Proof.
  induction s as [|c s IH]; [done|]. cbn [quote].
  destruct (always_safe c) eqn:Hc; cbn [all_chars].
  - unfold url_char at 1. by rewrite Hc, IH.
  - destruct (hex_digit_url_char c) as [Hhi Hlo]. by rewrite Hhi, Hlo, IH.
Qed.

(** The value of a digit of an escape. *)
Lemma hex_digits_inj (c1 c2 : ascii) :
  hex_digit (nat_of_ascii c1 / 16) = hex_digit (nat_of_ascii c2 / 16) →
  hex_digit (nat_of_ascii c1 mod 16) = hex_digit (nat_of_ascii c2 mod 16) →
  c1 = c2.
Proof.
  intros Hhi Hlo.
  assert (∀ c : ascii,
    ascii_of_nat
      (16 * (let n := nat_of_ascii (hex_digit (nat_of_ascii c / 16)) in
             if (n <? 65)%nat then n - 48 else n - 55)
       + (let n := nat_of_ascii (hex_digit (nat_of_ascii c mod 16)) in
          if (n <? 65)%nat then n - 48 else n - 55))%nat = c) as Hdecode.
  { intros c. destruct c as [[] [] [] [] [] [] [] []]; by vm_compute. }
  rewrite <- (Hdecode c1), <- (Hdecode c2). by rewrite Hhi, Hlo.
Qed.

Lemma quote_inj (s1 s2 : string) : quote s1 = quote s2 → s1 = s2.
Proof.
  revert s2. induction s1 as [|c1 s1 IH]; intros [|c2 s2]; simpl; try done.
  - by destruct (always_safe c2).
  - by destruct (always_safe c1).
  - destruct (always_safe c1) eqn:H1, (always_safe c2) eqn:H2.
    + intros [= -> Hq]. f_equal. by apply IH.
    + intros [= -> _]. by vm_compute in H1.
    + intros [= <- _]. by vm_compute in H2.
    + intros [= Hhi Hlo Hq]. f_equal; [by apply hex_digits_inj | by apply IH].
Qed.

(** X10: every search URL [make_search_url] makes is the base of the
    search page followed by a query in which every character is a letter, a
    digit, one of [_.-~/], or belongs to an escape [%XX]: no space, quote,
    ampersand, question mark or hash reaches the URL.  The encoding loses
    nothing: two rows whose SKUs are different texts get different URLs. *)
Theorem search_url_is_escaped (py_repr : pyval → string) (row : dict) (url : string) :
  make_search_url py_repr row = Return (PStr url) →
  (∃ query, url = base_search_url +:+ query ∧ all_chars url_char query = true)
  ∧ ∀ (other : dict) s1 s2,
      row !! "variant_sku" = Some (PStr s1) →
      other !! "variant_sku" = Some (PStr s2) →
      make_search_url py_repr other = Return (PStr url) →
      s1 = s2.
Proof.
  intros Hurl. split.
  - revert Hurl. unfold make_search_url.
    destruct (row_get row "variant_sku") as [sku| |]; simpl; try discriminate.
    destruct (if notna sku then Return sku else row_get row "variant_name")
      as [query| |]; simpl; try discriminate.
    destruct (notna query); [|discriminate].
    intros [= <-]. eexists. split; [reflexivity|]. apply quote_url_chars.
  - intros other s1 s2 H1 H2. revert Hurl.
    unfold make_search_url, row_get. rewrite H1, H2. simpl.
    intros [= <-] [= Hq]. symmetry. by apply quote_inj.
Qed.

Lemma search_url_is_escaped_witness :
  make_search_url repr_unused {["variant_sku" := NaN; "variant_name" := PStr "Widget A"]}
  = Return (PStr "https://carex.com/pages/search-results-page?q=Widget%20A")
  ∧ ∃ query,
      "https://carex.com/pages/search-results-page?q=Widget%20A"
      = base_search_url +:+ query
      ∧ all_chars url_char query = true.
Proof.
  split; [reflexivity|].
  apply (search_url_is_escaped repr_unused
           {["variant_sku" := NaN; "variant_name" := PStr "Widget A"]}).
  reflexivity.
Defined.

(** ** The runs of the stock checker *)

(** X11: without the input sheet [scrape_search_results] does nothing but
    report it: it reads no file, starts no session, navigates nowhere,
    writes nothing, and returns [None].  And it returns only this way: a
    run that starts the browser never returns a frame, it ends in the
    [TypeError] of the download button or in an earlier exception. *)
Theorem missing_input_only_reports (py_repr : pyval → string)
    (assign_apply_empty : outcome unit) (env : environment) (w : world) :
  (files w !! "carex_variants_raw.xlsx" = None →
   interrupted env (length (shown w)) = false →
   scrape_search_results py_repr assign_apply_empty env w
   = (Return None, after_shown (StError MustRunScrapeVariantsFirst) w))
  ∧ (∀ result w',
       scrape_search_results py_repr assign_apply_empty env w = (Return result, w') →
       result = None
       ∧ files w !! "carex_variants_raw.xlsx" = None
       ∧ w' = after_shown (StError MustRunScrapeVariantsFirst) w).
Proof.
  split.
  - intros Hfile Hui. unfold scrape_search_results. cbv zeta.
    unfold mbind at 1. unfold M_bind at 1. unfold os_path_exists. rewrite Hfile.
    rewrite bool_decide_false by (by intros [? ?]). simpl.
    by rewrite (bind_run _ _ _ _ _ (st_run env _ w Hui)).
  - intros result w'. unfold scrape_search_results. cbv zeta.
    unfold mbind at 1. unfold M_bind at 1. unfold os_path_exists.
    destruct (files w !! "carex_variants_raw.xlsx") as [df|] eqn:Hfile.
    + rewrite bool_decide_true by eauto. simpl. intros Hrun.
      apply bind_return_inv in Hrun as (? & ? & _ & Hrun).
      apply bind_return_inv in Hrun as (? & ? & _ & Hrun).
      apply bind_return_inv in Hrun as (? & ? & _ & Hrun).
      apply bind_return_inv in Hrun as (? & ? & _ & Hrun).
      apply bind_return_inv in Hrun as (? & ? & _ & Hrun).
      apply bind_return_inv in Hrun as (? & ? & _ & Hrun).
      apply bind_return_inv in Hrun as (? & ? & _ & Hrun).
      apply bind_return_inv in Hrun as (? & ? & _ & Hrun).
      apply bind_return_inv in Hrun as (? & ? & _ & Hrun).
      apply bind_return_inv in Hrun as (? & ? & _ & Hrun).
      apply bind_return_inv in Hrun as (? & ? & Hrun & _).
      discriminate.
    + rewrite bool_decide_false by (by intros [? ?]). simpl. intros Hrun.
      apply bind_return_inv in Hrun as ([] & w1 & Hst & Hrun).
      injection Hrun as <- <-. split; [done|]. split; [done|].
      unfold st in Hst. destruct (interrupted env (length (shown w))); [discriminate|].
      by injection Hst as <-.
Qed.

Lemma DataFrame_of_records_cells (rows : list dict) (i : nat) (row : dict) :
  rows !! i = Some row →
  ∃ rec, records (DataFrame_of_records rows) !! i = Some rec
         ∧ ∀ k v, row !! k = Some v → rec !! k = Some v.
Proof.
  intros Hrow. unfold DataFrame_of_records. simpl.
  rewrite list_lookup_fmap, Hrow. simpl. eexists. split; [reflexivity|].
  intros k v Hk. apply elem_of_list_to_map_1.
  - rewrite <- list_fmap_compose.
    rewrite (list_fmap_ext _ id (elements (⋃ (dom <$> rows)))) by done.
    rewrite list_fmap_id. apply NoDup_elements.
  - apply list_elem_of_fmap. exists k. split.
    + unfold cell. by rewrite Hk.
    + apply elem_of_elements, elem_of_union_list. exists (dom row). split.
      * apply list_elem_of_fmap. exists row. split; [done|].
        by apply list_elem_of_lookup_2 with i.
      * apply elem_of_dom. eauto.
Qed.

(** A loop that collects one value per element returns the values of all
    of them, in order, when none of them raises. *)
Lemma for_each_collect {A B : Type} (f : A → outcome B) (xs : list A) (acc : list B) :
  Forall (λ x, ∃ y, f x = Return y) xs →
  ∃ ys, for_each (λ acc x, y ← f x; Return (acc ++ [y])) xs acc = Return (acc ++ ys)
        ∧ Forall2 (λ x y, f x = Return y) xs ys.
Proof.
  intros Hxs. revert acc. induction Hxs as [|x xs [y Hy] _ IH]; intros acc; simpl.
  - exists []. rewrite app_nil_r. split; [done|constructor].
  - rewrite Hy. simpl. destruct (IH (acc ++ [y])) as (ys & -> & Hys).
    exists (y :: ys). split; [by rewrite <- app_assoc|by constructor].
Qed.

Lemma make_search_url_returns (py_repr : pyval → string) (row : dict) :
  is_Some (row !! "variant_sku") → is_Some (row !! "variant_name") →
  ∃ url, make_search_url py_repr row = Return url.
Proof.
  intros [sku Hsku] [name Hname]. unfold make_search_url, row_get.
  rewrite Hsku. simpl. destruct (notna sku); simpl; [eauto|].
  rewrite Hname. simpl. eauto.
Qed.

Lemma init_driver_run (env : environment) (w : world) :
  launch env = Return () →
  init_driver env w
  = (Return (),
     {| files := files w; requested := requested w; slept := slept w;
        shown := shown w; started := S (started w); quitted := quitted w;
        visited := visited w |}).
Proof. unfold init_driver. by intros ->. Qed.

(** Without a stop or rerun request the loop adds one record per row, in
    order: the row with its product URL and its status. *)
Lemma check_rows_results (env : environment) (n : nat) (rows : list (nat * dict))
    (results : list dict) (w : world) :
  (∀ k, interrupted env k = false) →
  Forall (λ ix : nat * dict, is_Some (ix.2 !! "search_url")) rows →
  ∃ new w',
    check_rows env n rows results w = (Return (results ++ new), w')
    ∧ files w' = files w ∧ started w' = started w ∧ quitted w' = quitted w
    ∧ Forall2 (λ (ix : nat * dict) (out : dict),
                 ∃ product_url status,
                   out = <["stock_status" := PStr status]>
                           (<["product_page_url" := product_url]> ix.2)) rows new.
Proof.
  intros Hui Hrows. revert results w.
  induction Hrows as [|[idx row] rows [url Hurl] _ IH]; intros results w.
  - simpl. unfold mret, M_ret. exists [], w. rewrite app_nil_r.
    by repeat split.
  - simpl in Hurl. simpl. unfold mbind at 1. unfold M_bind at 1.
    unfold check_row, row_get. rewrite Hurl.
    unfold mbind at 1. unfold M_bind at 1. unfold lift.
    unfold mbind at 1. unfold M_bind at 1.
    destruct (extract_first_product_info_returns env url 5 10 w)
      as ([product_url stock_status] & k & s & -> & _).
    unfold mbind at 1. unfold M_bind at 1. unfold st. rewrite Hui.
    unfold mret, M_ret.
    match goal with |- context [check_rows env n rows ?r ?w1] =>
      destruct (IH r w1) as (new & w' & -> & Hf & Hs & Hq & Hnew) end.
    eexists (_ :: new), w'. rewrite <- app_assoc. simpl in *.
    repeat split; try done. constructor; [|done]. simpl. eauto.
Qed.

Lemma Forall2_enumerate {A B : Type} (P : A → B → Prop) (xs : list A) (ys : list B) :
  Forall2 (λ (ix : nat * A) y, P ix.2 y) (enumerate xs) ys → Forall2 P xs ys.
Proof.
  unfold enumerate. generalize 0%nat. revert ys.
  induction xs as [|x xs IH]; intros ys n; simpl.
  - intros H. inversion H. constructor.
  - intros H. inversion H as [|? ? ? ? Hx Hrest]; subst. constructor; [done|].
    by apply (IH _ (S n)).
Qed.

(** X12: on a sheet with at least one row and the columns [variant_sku]
    and [variant_name], with Chrome starting and no stop or rerun request,
    [scrape_search_results] starts one session and quits it, and writes
    [carex_variants_checked.xlsx] with exactly one record per input row, in
    the order of the input: the record keeps every cell of its row and adds
    the search URL made from the row, a product page URL and a stock status.
    The run then ends in the [TypeError] of the download button. *)
Theorem checked_sheet_keeps_rows (py_repr : pyval → string)
    (assign_apply_empty : outcome unit) (env : environment) (w : world)
    (df : DataFrame) (rows : list dict) :
  files w !! "carex_variants_raw.xlsx" = Some df →
  records df = rows →
  rows ≠ [] →
  Forall (λ row : dict, is_Some (row !! "variant_sku")
                        ∧ is_Some (row !! "variant_name")) rows →
  launch env = Return () →
  (∀ k, interrupted env k = false) →
  ∃ df_out w',
    scrape_search_results py_repr assign_apply_empty env w = (Raise TypeError, w')
    ∧ files w' = <["carex_variants_checked.xlsx" := df_out]> (files w)
    ∧ started w' = S (started w)
    ∧ quitted w' = S (quitted w)
    ∧ length (records df_out) = length rows
    ∧ ∀ i row,
        rows !! i = Some row →
        ∃ rec url,
          records df_out !! i = Some rec
          ∧ make_search_url py_repr row = Return url
          ∧ rec !! "search_url" = Some url
          ∧ is_Some (rec !! "product_page_url")
          ∧ (∃ status, rec !! "stock_status" = Some (PStr status))
          ∧ ∀ k v, row !! k = Some v →
                   k ∉ ["search_url"; "product_page_url"; "stock_status"] →
                   rec !! k = Some v.
Proof.
  intros Hfile Hrec Hne Hcols Hlaunch Hui.
  (* the search URLs *)
  destruct (for_each_collect (make_search_url py_repr) rows [])
    as (urls & Hurls & Hmade).
  { eapply Forall_impl; [exact Hcols|]. intros row [? ?].
    by apply make_search_url_returns. }
  simpl in Hurls.
  assert (add_search_urls py_repr assign_apply_empty df
          = Return (set_column df "search_url" urls)) as Hadd.
  { unfold add_search_urls. rewrite Hrec. destruct rows as [|row rows']; [done|].
    by rewrite Hurls. }
  set (df1 := set_column df "search_url" urls) in *.
  assert (Forall2 (λ (row row1 : dict), ∃ url, make_search_url py_repr row = Return url
                                              ∧ row1 = <["search_url" := url]> row)
            rows (records df1)) as Hrows1.
  { unfold df1, set_column. simpl. rewrite Hrec. clear -Hmade.
    induction Hmade as [|row url rows urls Hu _ IH]; simpl; constructor; eauto. }
  (* the loop *)
  set (w2 := after_shown (StProgress (Percent 0))
               (after_shown (StWrite CheckingStockStatus)
                  {| files := files w; requested := requested w; slept := slept w;
                     shown := shown w; started := S (started w);
                     quitted := quitted w; visited := visited w |})).
  destruct (check_rows_results env (length (records df1)) (enumerate (records df1)) [] w2 Hui)
    as (results & w3 & Hloop & Hf & Hs & Hq & Hresults).
  { apply (enumerate_snd (λ row : dict, is_Some (row !! "search_url"))).
    eapply Forall2_Forall_r; [exact Hrows1|]. apply Forall_forall.
    intros row _ row1 (url & _ & ->). rewrite lookup_insert_eq. eauto. }
  simpl in Hloop.
  apply (Forall2_enumerate
           (λ (row : dict) (out : dict),
              ∃ product_url status,
                out = <["stock_status" := PStr status]>
                        (<["product_page_url" := product_url]> row))) in Hresults.
  exists (DataFrame_of_records results),
    (after_shown (StDataframe (head 10 (DataFrame_of_records results)))
       (after_shown (StSuccess (StockStatusChecked "carex_variants_checked.xlsx"))
          {| files := <["carex_variants_checked.xlsx" := DataFrame_of_records results]>
                        (files w3);
             requested := requested w3; slept := slept w3; shown := shown w3;
             started := started w3; quitted := S (quitted w3);
             visited := visited w3 |})).
  split.
  { unfold scrape_search_results. cbv zeta.
    rewrite (bind_run _ _ _ _ _ (os_path_exists_found _ w df Hfile)). simpl.
    rewrite (bind_run _ _ _ _ _ (pd_read_excel_found _ w df Hfile)).
    rewrite (bind_run _ _ w w (set_column df "search_url" urls))
      by (unfold lift; by rewrite Hadd).
    rewrite (bind_run _ _ _ _ _ (init_driver_run env w Hlaunch)).
    rewrite (bind_run _ _ _ _ _ (st_run env _ _ (Hui _))).
    rewrite (bind_run _ _ _ _ _ (st_run env _ _ (Hui _))).
    rewrite (bind_run _ _ _ _ _ Hloop).
    rewrite (bind_run _ _ _ _ tt (eq_refl : driver_quit w3 = (_, _))).
    rewrite (bind_run _ _ _ _ tt (eq_refl : to_excel (Some _) _ _ = (_, _))).
    rewrite (bind_run _ _ _ _ _ (st_run env _ _ (Hui _))).
    rewrite (bind_run _ _ _ _ _ (st_run env _ _ (Hui _))).
    apply bind_raise. reflexivity. }
  unfold w2 in Hf, Hs, Hq. simpl in Hf, Hs, Hq.
  split; [simpl; by rewrite Hf|]. split; [simpl; by rewrite Hs|].
  split; [simpl; by rewrite Hq|].
  split.
  { rewrite length_DataFrame_of_records.
    rewrite <- (Forall2_length _ _ _ Hresults). symmetry.
    apply (Forall2_length _ _ _ Hrows1). }
  intros i row Hi.
  destruct (Forall2_lookup_l _ _ _ _ _ Hrows1 Hi) as (row1 & Hi1 & url & Hurl & ->).
  destruct (Forall2_lookup_l _ _ _ _ _ Hresults Hi1) as (out & Hout & pu & status & ->).
  destruct (DataFrame_of_records_cells results i _ Hout) as (rec & Hrec' & Hcells).
  exists rec, url. split; [done|]. split; [done|].
  split.
  { apply Hcells. do 2 rewrite lookup_insert_ne by done. apply lookup_insert_eq. }
  split.
  { exists pu. apply Hcells. rewrite lookup_insert_ne by done. apply lookup_insert_eq. }
  split; [exists status; apply Hcells; by rewrite lookup_insert_eq|].
  intros k v Hk Hnot. apply Hcells.
  rewrite !lookup_insert_ne; [done|set_solver..].
Qed.

Lemma checked_sheet_keeps_rows_witness :
  files (world_with widget_row) !! "carex_variants_raw.xlsx"
  = Some {| columns := ["variant_name"; "variant_sku"; "variant_price_usd";
                        "variant_public_title"];
            records := [widget_row] |}
  ∧ launch env_shop = Return ()
  ∧ ∃ df_out w',
      scrape_search_results repr_unused (Raise ValueError) env_shop (world_with widget_row)
      = (Raise TypeError, w')
      ∧ files w' = <["carex_variants_checked.xlsx" := df_out]>
                     (files (world_with widget_row))
      ∧ started w' = 1%nat
      ∧ quitted w' = 1%nat
      ∧ length (records df_out) = 1%nat.
Proof.
  split; [reflexivity|]. split; [reflexivity|].
  destruct (checked_sheet_keeps_rows repr_unused (Raise ValueError) env_shop
              (world_with widget_row)
              {| columns := ["variant_name"; "variant_sku"; "variant_price_usd";
                             "variant_public_title"];
                 records := [widget_row] |} [widget_row])
    as (df_out & w' & Hrun & Hfiles & Hs & Hq & Hlen & _);
    [reflexivity | reflexivity | discriminate | | reflexivity | reflexivity |].
  - repeat constructor; by eexists.
  - by exists df_out, w'.
Defined.

(** ** Where the harvest ends *)

(** X13: the harvest loop ends at the first page that is answered with a
    status other than 200 or yields no product: when the [n] pages before it
    are served with products that flatten without error, and no Streamlit
    command is interrupted, the loop returns for every fuel above [n],
    having requested exactly these [n + 1] pages in order and slept [n]
    seconds; it requests no page after the one that stops it. *)
Theorem harvest_ends_at_first_stop (py_repr : pyval → string)
    (json_loads : string → outcome pyval) (env : environment)
    (n fuel : nat) (page : Z) (all_rows : list dict) (w : world) :
  (n < fuel)%nat →
  (∀ k, interrupted env k = false) →
  (∀ i, (i < n)%nat →
        ∃ res products,
          serve env (collection_url (page + Z.of_nat i)) = Return res
          ∧ status_code res = 200
          ∧ extract_variants_from_script json_loads (text res) = Return products
          ∧ truthy products = true
          ∧ ∀ acc, ∃ rows,
              page_rows py_repr products
                (extract_product_urls_from_collection_page (text res)) acc = Return rows) →
  (∃ res,
     serve env (collection_url (page + Z.of_nat n)) = Return res
     ∧ (status_code res ≠ 200
        ∨ ∃ products,
            extract_variants_from_script json_loads (text res) = Return products
            ∧ truthy products = false)) →
  ∃ rows w',
    harvest py_repr json_loads env fuel page all_rows w = (Return rows, w')
    ∧ requested w' = requested w ++ page_urls page (S n)
    ∧ slept w' = (slept w + n)%nat.
Proof.
  revert fuel page all_rows w. induction n as [|n IH]; intros fuel page all_rows w Hfuel Hui.
  - intros _ (res & Hserve & Hstop). destruct fuel as [|fuel]; [lia|].
    rewrite Z.add_0_r in Hserve. rewrite page_urls_1, Nat.add_0_r.
    destruct (decide (status_code res = 200)) as [Hok|Hbad].
    + destruct Hstop as [Hbad|(products & Hextract & Hempty)]; [done|].
      rewrite (harvest_empty_page py_repr json_loads env fuel page all_rows w res products
                 Hserve Hok Hextract Hempty (Hui _)).
      by eexists _, _.
    + rewrite (harvest_fetch_failure py_repr json_loads env fuel page all_rows w res
                 Hserve Hbad (Hui _)).
      by eexists _, _.
  - intros Hgood Hstop. destruct fuel as [|fuel]; [lia|].
    destruct (Hgood 0%nat ltac:(lia)) as (res & products & Hserve & Hok & Hextract & Htruthy
                                            & Hrows).
    rewrite Z.add_0_r in Hserve.
    destruct (Hrows all_rows) as (rows1 & Hpage).
    simpl harvest.
    unfold mbind at 1. unfold M_bind at 1. unfold requests_get at 1. rewrite Hserve.
    rewrite bool_decide_false by (intros H; by apply H).
    unfold mbind at 1. unfold M_bind at 1. unfold lift at 1. rewrite Hextract, Htruthy.
    cbn [negb].
    unfold mbind at 1. unfold M_bind at 1. unfold lift at 1. rewrite Hpage.
    rewrite (bind_run _ _ _ _ _ (st_run env _ _ (Hui _))).
    rewrite (bind_run _ _ _ _ tt (eq_refl : time_sleep 1 _ = (_, _))).
    match goal with |- context [harvest py_repr json_loads env fuel ?p ?r ?w1] =>
      destruct (IH fuel p r w1) as (rows & w' & -> & Hreq & Hslept) end.
    + lia.
    + done.
    + intros i Hi. destruct (Hgood (S i) ltac:(lia)) as (r & ps & H1 & H2).
      exists r, ps. split; [|done].
      by replace (page + 1 + Z.of_nat i) with (page + Z.of_nat (S i)) by lia.
    + destruct Hstop as (r & H1 & H2). exists r. split; [|done].
      by replace (page + 1 + Z.of_nat n) with (page + Z.of_nat (S n)) by lia.
    + exists rows, w'. split; [done|]. simpl in Hreq, Hslept.
      rewrite (page_urls_S page (S n)). split; [by rewrite Hreq, <- app_assoc|lia].
Qed.

Lemma harvest_ends_at_first_stop_witness :
  (1 < 5)%nat
  ∧ (∀ k, interrupted env_two_pages k = false)
  ∧ ∃ rows w',
      harvest repr_unused json_decode env_two_pages 5 1 [] world0 = (Return rows, w')
      ∧ requested w' = requested world0 ++ page_urls 1 2
      ∧ slept w' = (slept world0 + 1)%nat.
Proof.
  split; [lia|]. split; [reflexivity|].
  apply (harvest_ends_at_first_stop repr_unused json_decode env_two_pages 1 5 1 [] world0);
    [lia | reflexivity | |].
  - intros i Hi. assert (i = 0%nat) as -> by lia.
    exists {| status_code := 200; text := catalogue_page |},
      (PList ((λ pv : dict * list dict, PDict pv.1) <$> catalogue_products)).
    split; [reflexivity|]. split; [reflexivity|].
    split; [vm_compute; reflexivity|]. split; [reflexivity|].
    intros acc. eexists.
    apply (page_rows_one_row_per_variant repr_unused _ catalogue_products acc).
    repeat constructor.
  - exists {| status_code := 200; text := empty_page |}.
    split; [reflexivity|]. right. exists (PList []).
    split; [vm_compute; reflexivity | reflexivity].
Defined.

(** ** The script of the payload *)

Lemma string_app_assoc (s1 s2 s3 : string) :
  (s1 +:+ s2) +:+ s3 = s1 +:+ s2 +:+ s3.
Proof.
  induction s1 as [|c s1 IH]; [done|].
  change (String c ((s1 +:+ s2) +:+ s3) = String c (s1 +:+ s2 +:+ s3)).
  by rewrite IH.
Qed.

Lemma prefix_head (a : ascii) (p s : string) :
  String.prefix (String a p) s = true → ∃ t, s = String a t.
Proof.
  destruct s as [|c s]; simpl; [done|].
  destruct (Ascii.ascii_dec a c) as [->|]; [eauto|done].
Qed.

Lemma after_first_split (needle s rest : string) :
  after_first needle s = Some rest → ∃ pre, s = pre +:+ needle +:+ rest.
Proof.
  induction s as [|c s IH].
  - cbn [after_first]. destruct (String.prefix needle EmptyString) eqn:Hp; [|done].
    intros [= <-]. exists EmptyString. exact (prefix_split _ _ Hp).
  - cbn [after_first]. destruct (String.prefix needle (String c s)) eqn:Hp.
    + intros [= <-]. exists EmptyString. exact (prefix_split _ _ Hp).
    + intros H. destruct (IH H) as (pre & ->). by exists (String c pre).
Qed.

Lemma lazy_body_split (s body : string) :
  lazy_body s = Some body →
  ∃ tail, s = body +:+ tail
          ∧ closes_meta tail = true
          ∧ ∀ b1 b2, body = b1 +:+ b2 → b2 ≠ EmptyString →
                     closes_meta (b2 +:+ tail) = false.
Proof.
  revert body. induction s as [|c s IH]; intros body; cbn [lazy_body].
  - destruct (closes_meta EmptyString) eqn:Hc; [|done].
    intros [= <-]. exists EmptyString. split; [done|]. split; [done|].
    intros [|? ?] [|? ?]; done.
  - destruct (closes_meta (String c s)) eqn:Hc.
    + intros [= <-]. exists (String c s). split; [done|]. split; [done|].
      intros [|? ?] [|? ?]; done.
    + destruct (lazy_body s) as [b|] eqn:Hb; [|done]. simpl.
      intros [= <-]. destruct (IH b eq_refl) as (tail & -> & Htail & Hmin).
      exists tail. split; [done|]. split; [done|].
      intros [|c1 b1] b2 Heq Hne.
      * change (String c b = b2) in Heq. subst b2. exact Hc.
      * change (String c b = String c1 (b1 +:+ b2)) in Heq.
        injection Heq as -> ->. by apply (Hmin b1 b2).
Qed.

(** X14: the text [extract_variants_from_script] hands to [json.loads] is
    cut out of the page: it starts at the brace after a
    [var meta = ], ends with a brace, and is followed in the page by a
    semicolon, white space and [for (var attr in meta)].  It is the
    shortest such text: no brace inside it is followed that way.  The
    result of the function is what [json.loads] makes of this text, read at
    the key [products]. *)
Theorem meta_script_is_cut_from_page (json_loads : string → outcome pyval)
    (html meta_json : string) :
  search_meta html = Some meta_json →
  (∃ pre body tail,
     html = pre +:+ "var meta = " +:+ meta_json +:+ tail
     ∧ meta_json = "{" +:+ body +:+ "}"
     ∧ closes_meta ("}" +:+ tail) = true
     ∧ ∀ b1 b2, body = b1 +:+ b2 → b2 ≠ EmptyString →
                closes_meta (b2 +:+ "}" +:+ tail) = false)
  ∧ extract_variants_from_script json_loads html
    = (meta_data ← json_loads meta_json; py_get meta_data "products" (PList [])).
Proof.
  intros Hsearch. split; [|unfold extract_variants_from_script; by rewrite Hsearch].
  revert Hsearch. unfold search_meta.
  destruct (after_first "var meta = {" html) as [rest|] eqn:Hfirst; [|done]. simpl.
  destruct (lazy_body rest) as [body|] eqn:Hbody; [|done]. simpl.
  intros [= <-].
  destruct (after_first_split _ _ _ Hfirst) as (pre & ->).
  destruct (lazy_body_split _ _ Hbody) as (tail & -> & Hclose & Hmin).
  pose proof Hclose as Hclose'. unfold closes_meta in Hclose'.
  apply andb_true_iff in Hclose' as [Hp _].
  exists pre, body, (drop_string 1 tail).
  assert (tail = "}" +:+ drop_string 1 tail) as Htail1.
  { destruct (prefix_head _ _ _ Hp) as (t & ->). reflexivity. }
  split.
  { f_equal.
    change ("var meta = " +:+ ("{" +:+ (body +:+ tail))
            = "var meta = " +:+ (("{" +:+ body +:+ "}") +:+ drop_string 1 tail)).
    f_equal. rewrite Htail1 at 1.
    change ("{" +:+ body +:+ "}") with (String "{" (body +:+ "}")).
    change (String "{" (body +:+ "}") +:+ drop_string 1 tail)
      with (String "{" ((body +:+ "}") +:+ drop_string 1 tail)).
    by rewrite string_app_assoc. }
  split; [done|]. rewrite <- Htail1. split; [done|]. exact Hmin.
Qed.

Lemma meta_script_is_cut_from_page_witness :
  search_meta widget_page = Some widget_payload
  ∧ extract_variants_from_script json_decode widget_page
    = (meta_data ← json_decode widget_payload; py_get meta_data "products" (PList [])).
Proof.
  assert (search_meta widget_page = Some widget_payload) as H by (vm_compute; reflexivity).
  split; [exact H|].
  exact (proj2 (meta_script_is_cut_from_page json_decode _ _ H)).
Defined.

(** ** The two URL fields of a row *)

Lemma prefetch_urls_nonempty (html : string) :
  Forall (λ url, url ≠ EmptyString) (extract_product_urls_from_collection_page html).
Proof.
  unfold extract_product_urls_from_collection_page.
  generalize (S (String.length html)). intros fuel. revert html.
  induction fuel as [|fuel IH]; intros html; simpl; [constructor|].
  destruct (match_prefetch html) as [[href rest]|] eqn:Hm.
  - constructor; [|apply IH].
    destruct (match_prefetch_shape html href rest Hm) as [(a & b & -> & Ha & _) _].
    destruct a; [done|discriminate].
  - destruct html; [constructor|apply IH].
Qed.

(** A loop whose body appends elements with property [P]. *)
Lemma for_each_extends_with {A B : Type} (P : B → Prop)
    (body : list B → A → outcome (list B)) (xs : list A) (acc rows : list B) :
  (∀ acc x acc', x ∈ xs → body acc x = Return acc' →
                 ∃ new, acc' = acc ++ new ∧ Forall P new) →
  for_each body xs acc = Return rows →
  ∃ new, rows = acc ++ new ∧ Forall P new.
Proof.
  revert acc. induction xs as [|x xs IH]; intros acc Hbody; simpl.
  - intros [= <-]. exists []. by rewrite app_nil_r.
  - destruct (body acc x) as [acc'| |] eqn:Hb; simpl; try discriminate.
    intros H. destruct (Hbody _ _ _ ltac:(by left) Hb) as (new1 & -> & H1).
    destruct (IH (acc ++ new1)) with (2 := H) as (new2 & -> & H2).
    { intros a y a' Hy. apply Hbody. by right. }
    exists (new1 ++ new2). split; [by rewrite app_assoc | by apply Forall_app].
Qed.

Lemma product_rows_urls (py_repr : pyval → string) (urls : list string) (product : pyval)
    (product_url : option string) (all_rows rows : list dict) :
  (∀ url, product_url = Some url → url ∈ urls ∧ url ≠ EmptyString) →
  product_rows py_repr product product_url all_rows = Return rows →
  ∃ new_rows, rows = all_rows ++ new_rows ∧ Forall (urls_paired py_repr urls) new_rows.
Proof.
  intros Hurl. unfold product_rows.
  destruct (py_get product "variants" (PList [])) as [variants| |]; simpl; try discriminate.
  destruct (py_iter variants) as [vs| |]; simpl; try discriminate.
  apply for_each_appends. intros acc variant acc'.
  unfold flatten_product_variant.
  destruct (py_items product) as [p| |]; simpl; try discriminate.
  destruct (py_items variant) as [v| |]; simpl; try discriminate.
  intros [= <-]. eexists. split; [reflexivity|].
  destruct (flatten_dicts_lookup py_repr p v product_url) as (_ & HV & HU & HW).
  pose proof (HV "id" ltac:(done)) as Hid.
  change ("variant_" +:+ "id") with "variant_id" in Hid.
  destruct product_url as [url|]; [|by left].
  destruct (Hurl url eq_refl) as [Hin Hne]. right. exists url.
  split; [done|]. split; [done|]. rewrite HW, Hid. simpl.
  destruct (String.eqb url "") eqn:He; [|done].
  by apply String.eqb_eq in He.
Qed.

(** X15: in every row made from a fetched page, the two URL fields go
    together: either both are [None], or [product_url] is one of the
    prefetch links of that page and [variant_url] is this link followed by
    [?variant=] and the text of the [variant_id] of the row.  The test
    [if product_url] is a test of truth, so an empty URL would be kept as
    [product_url] with [variant_url = None]; the pattern of the links needs
    one character at least, so no page gives such a URL. *)
Theorem harvested_urls_are_paired (py_repr : pyval → string) (html : string)
    (products : pyval) (all_rows rows : list dict) :
  page_rows py_repr products (extract_product_urls_from_collection_page html) all_rows
  = Return rows →
  (∃ new_rows,
     rows = all_rows ++ new_rows
     ∧ Forall (urls_paired py_repr (extract_product_urls_from_collection_page html))
              new_rows)
  ∧ ∀ product variant : dict,
      flatten_dicts py_repr product variant (Some EmptyString) !! "product_url"
      = Some (PStr EmptyString)
      ∧ flatten_dicts py_repr product variant (Some EmptyString) !! "variant_url"
        = Some PNone.
Proof.
  intros Hrun. split.
  - revert Hrun. unfold page_rows.
    destruct (py_iter products) as [ps| |]; simpl; try discriminate.
    apply for_each_extends_with. intros acc [i product] acc' _.
    unfold pair_and_flatten. rewrite pair_product_url_lookup. simpl.
    apply product_rows_urls. intros url Hi.
    pose proof (prefetch_urls_nonempty html) as Hne.
    rewrite Forall_forall in Hne.
    assert (url ∈ extract_product_urls_from_collection_page html) as Hin
      by (by apply list_elem_of_lookup_2 with i).
    split; [done | by apply Hne].
  - intros product variant.
    destruct (flatten_dicts_lookup py_repr product variant (Some EmptyString))
      as (_ & _ & HU & HW).
    by rewrite HU, HW.
Qed.

Lemma harvested_urls_are_paired_witness :
  page_rows repr_unused (PList [PDict widget_product_fields])
    (extract_product_urls_from_collection_page widget_page) []
  = Return [harvested_widget_row]
  ∧ ∃ new_rows,
    [harvested_widget_row] = [] ++ new_rows
    ∧ Forall (urls_paired repr_unused
                (extract_product_urls_from_collection_page widget_page)) new_rows.
Proof.
  assert (page_rows repr_unused (PList [PDict widget_product_fields])
            (extract_product_urls_from_collection_page widget_page) []
          = Return [harvested_widget_row]) as Hrun by (vm_compute; reflexivity).
  split; [exact Hrun|].
  exact (proj1 (harvested_urls_are_paired repr_unused widget_page _ _ _ Hrun)).
Defined.

(** ** What the harvest loop shows *)

Lemma progress_steps_S (page : Z) (n : nat) :
  progress_steps page (S n)
  = StProgress (Percent (Z.min (page * 10) 100)) :: progress_steps (page + 1) n.
Proof.
  unfold progress_steps. simpl. rewrite Z.add_0_r. f_equal.
  rewrite <- fmap_S_seq, <- list_fmap_compose.
  apply list_fmap_ext. intros _ i _. simpl. do 3 f_equal. lia.
Qed.

Lemma progress_steps_in_range (page : Z) (n : nat) :
  (1 ≤ page)%Z →
  Forall (λ ev, ∃ p, ev = StProgress (Percent p) ∧ (10 ≤ p ≤ 100)%Z) (progress_steps page n).
Proof.
  intros Hpage. unfold progress_steps. apply Forall_fmap, Forall_forall.
  intros i _. simpl. eexists. split; [reflexivity|]. lia.
Qed.

(** X16: every run of the harvest loop that ends normally has shown one
    step of the progress bar per page it harvested, with the value
    [min(page * 10, 100)] of that page, and then exactly one message: the
    failure to load, which names the page that was answered with a status
    other than 200, or the end of the catalogue.  From page 1 on every
    value of the bar is between 10 and 100, the range [st.progress]
    accepts; the bar is full from page 10 on. *)
Theorem harvest_shows_progress (py_repr : pyval → string)
    (json_loads : string → outcome pyval) (env : environment) (fuel : nat) (page : Z)
    (all_rows rows : list dict) (w w' : world) :
  harvest py_repr json_loads env fuel page all_rows w = (Return rows, w') →
  ∃ k last,
    shown w' = shown w ++ progress_steps page k ++ [last]
    ∧ requested w' = requested w ++ page_urls page (S k)
    ∧ (last = StError (FailedToLoadPage (page + Z.of_nat k))
       ∨ last = StSuccess NoMoreProducts)
    ∧ ((1 ≤ page)%Z →
       Forall (λ ev, ∃ p, ev = StProgress (Percent p) ∧ (10 ≤ p ≤ 100)%Z)
              (progress_steps page k))
    ∧ ((10 ≤ page)%Z → progress_steps page k = replicate k (StProgress (Percent 100))).
Proof.
  revert page all_rows w. induction fuel as [|fuel IH]; intros page all_rows w.
  - simpl. unfold lift. discriminate.
  - simpl. unfold mbind, M_bind, requests_get, lift, st, time_sleep.
    destruct (serve env (collection_url page)) as [res| |]; simpl; try discriminate.
    case_bool_decide as Hstatus; simpl.
    { destruct (interrupted env (length (shown w))); simpl; [discriminate|].
      intros [= <- <-]. exists 0%nat, (StError (FailedToLoadPage page)). simpl.
      rewrite page_urls_1, Z.add_0_r. repeat split; try done; by left. }
    destruct (extract_variants_from_script json_loads (text res)) as [products| |];
      simpl; try discriminate.
    destruct (truthy products); simpl.
    2: { destruct (interrupted env (length (shown w))); simpl; [discriminate|].
         intros [= <- <-]. exists 0%nat, (StSuccess NoMoreProducts). simpl.
         rewrite page_urls_1. repeat split; try done; by right. }
    destruct (page_rows py_repr products _ all_rows) as [rows1| |]; simpl;
      try discriminate.
    destruct (interrupted env (length (shown w))); simpl; [discriminate|].
    intros Hrun. destruct (IH _ _ _ Hrun) as (k & last & Hshown & Hreq & Hlast & _ & Hfull).
    simpl in Hshown, Hreq. exists (S k), last.
    rewrite progress_steps_S, page_urls_S.
    split; [by rewrite Hshown, <- app_assoc|].
    split; [by rewrite Hreq, <- app_assoc|].
    split.
    { replace (page + Z.of_nat (S k)) with (page + 1 + Z.of_nat k) by lia. exact Hlast. }
    split.
    { intros Hpage. rewrite <- progress_steps_S. by apply progress_steps_in_range. }
    intros Hpage. rewrite Hfull by lia. simpl. do 3 f_equal. lia.
Qed.

Lemma harvest_shows_progress_witness :
  harvest repr_unused json_decode env_page2_fails 5 1 [] world0
  = (Return [harvested_widget_row],
     {| files := ∅;
        requested := ["https://carex.com/collections/all?page=1";
                      "https://carex.com/collections/all?page=2"];
        slept := 1;
        shown := [StProgress (Percent 10); StError (FailedToLoadPage 2)];
        started := 0; quitted := 0; visited := [] |})
  ∧ ∃ k last,
      [StProgress (Percent 10); StError (FailedToLoadPage 2)]
      = shown world0 ++ progress_steps 1 k ++ [last]
      ∧ ["https://carex.com/collections/all?page=1";
         "https://carex.com/collections/all?page=2"]
        = requested world0 ++ page_urls 1 (S k)
      ∧ (last = StError (FailedToLoadPage (1 + Z.of_nat k))
         ∨ last = StSuccess NoMoreProducts).
Proof.
  assert (harvest repr_unused json_decode env_page2_fails 5 1 [] world0
          = (Return [harvested_widget_row],
             {| files := ∅;
                requested := ["https://carex.com/collections/all?page=1";
                              "https://carex.com/collections/all?page=2"];
                slept := 1;
                shown := [StProgress (Percent 10); StError (FailedToLoadPage 2)];
                started := 0; quitted := 0; visited := [] |})) as Hrun
    by (vm_compute; reflexivity).
  split; [exact Hrun|].
  destruct (harvest_shows_progress _ _ _ _ _ _ _ _ _ Hrun)
    as (k & last & Hshown & Hreq & Hlast & _).
  exists k, last. split; [exact Hshown|]. split; [exact Hreq | exact Hlast].
Defined.

(** ** The cells of the saved sheet *)

Lemma column_occurs (rows : list dict) (c : string) :
  c ∈ columns (DataFrame_of_records rows) ↔ ∃ row, row ∈ rows ∧ is_Some (row !! c).
Proof.
  unfold DataFrame_of_records. simpl. rewrite elem_of_elements, elem_of_union_list. split.
  - intros (X & HX & Hc). apply list_elem_of_fmap in HX as (row & -> & Hrow).
    exists row. split; [done|]. by apply elem_of_dom.
  - intros (row & Hrow & Hc). exists (dom row).
    split; [apply list_elem_of_fmap; by exists row | by apply elem_of_dom].
Qed.

(** A record made of the cells of [row] under [labels]. *)
Lemma record_cell (labels : list string) (row : dict) (c : string) :
  c ∈ labels →
  (list_to_map ((λ c, (c, cell row c)) <$> labels) : dict) !! c = Some (cell row c).
Proof.
  intros Hc. apply elem_of_list_to_map_1'.
  - intros y Hy. apply list_elem_of_fmap in Hy as (c' & Heq & _).
    by injection Heq as -> ->.
  - apply list_elem_of_fmap. by exists c.
Qed.

(** The cells of the sheet that the last step writes. *)
Lemma save_variants_cells
    (series_truediv : list pyval → Z → outcome (list pyval)) (env : environment)
    (all_rows : list dict) (w : world) (usd : list pyval) :
  Forall (λ c, ∃ row, row ∈ all_rows ∧ is_Some (row !! c))
         ["variant_name"; "variant_sku"; "variant_price"; "variant_public_title"] →
  series_truediv (column (DataFrame_of_records all_rows) "variant_price") 100 = Return usd →
  length usd = length all_rows →
  column (DataFrame_of_records all_rows) "variant_price"
  = (λ row, cell row "variant_price") <$> all_rows
  ∧ ∃ df,
      files (save_variants series_truediv env all_rows w).2
      = <["carex_variants_raw.xlsx" := df]> (files w)
      ∧ length (records df) = length all_rows
      ∧ ∀ i row,
          all_rows !! i = Some row →
          ∃ rec,
            records df !! i = Some rec
            ∧ rec !! "variant_name" = Some (cell row "variant_name")
            ∧ rec !! "variant_sku" = Some (cell row "variant_sku")
            ∧ rec !! "variant_public_title" = Some (cell row "variant_public_title")
            ∧ rec !! "variant_price_usd" = usd !! i.
Proof.
  intros Hcols Hdiv Hlen.
  assert (∀ c, c ∈ ["variant_name"; "variant_sku"; "variant_price"; "variant_public_title"] →
               c ∈ columns (DataFrame_of_records all_rows)) as Hin.
  { intros c Hc. apply column_occurs. rewrite Forall_forall in Hcols. by apply Hcols. }
  assert (∀ c, c ∈ keep_columns →
               c ∈ columns (set_column (DataFrame_of_records all_rows)
                                       "variant_price_usd" usd)) as Hin1.
  { intros c Hc. unfold set_column. cbn [columns].
    unfold keep_columns in Hc. rewrite !elem_of_cons, elem_of_nil in Hc.
    case_bool_decide as Husd.
    - destruct Hc as [Hc | [Hc | [Hc | [Hc | []]]]]; subst c; try done;
        apply Hin; rewrite !elem_of_cons; tauto.
    - apply elem_of_app.
      destruct Hc as [Hc | [Hc | [Hc | [Hc | []]]]]; subst c;
        [left | left | right; by apply elem_of_cons; left | left];
        apply Hin; rewrite !elem_of_cons; tauto. }
  split.
  { unfold column. unfold DataFrame_of_records at 1. cbn [records].
    rewrite <- list_fmap_compose. apply list_fmap_ext. intros _ row _. simpl.
    unfold cell at 1. rewrite record_cell; [done|].
    apply (Hin "variant_price"). set_solver. }
  destruct (select_columns (set_column (DataFrame_of_records all_rows)
                                       "variant_price_usd" usd) keep_columns)
    as [df| |] eqn:Hsel.
  2,3: exfalso; revert Hsel; unfold select_columns;
       destruct (filter _ keep_columns) as [|missing rest] eqn:Hf; [discriminate|];
       intros _; assert (missing ∈ missing :: rest) as Hm by left;
       rewrite <- Hf in Hm; apply list_elem_of_filter in Hm as [Hn Hk];
       by destruct (Hn (Hin1 _ Hk)).
  exists df. split.
  { apply (save_variants_writes _ _ _ _ usd); [apply Hin; set_solver | done | exact Hsel]. }
  revert Hsel. unfold select_columns.
  destruct (filter _ keep_columns); [|discriminate]. intros [= <-]. cbn [records].
  split.
  { unfold set_column. cbn [records].
    rewrite length_fmap, length_zip_with. unfold DataFrame_of_records. cbn [records].
    rewrite ?length_fmap. lia. }
  intros i row Hrow.
  destruct (lookup_lt_is_Some_2 usd i) as [v Hv].
  { rewrite Hlen. by eapply lookup_lt_Some. }
  unfold set_column. cbn [records].
  rewrite list_lookup_fmap, lookup_zip_with.
  rewrite list_lookup_fmap, Hrow, Hv. cbn [fmap option_fmap option_map mbind option_bind].
  eexists. split; [reflexivity|].
  assert (∀ c, c ∈ ["variant_name"; "variant_sku"; "variant_public_title"] →
               cell (<["variant_price_usd" := v]>
                       (list_to_map ((λ c, (c, cell row c))
                                       <$> columns (DataFrame_of_records all_rows)) : dict)) c
               = cell row c) as Hcell.
  { intros c Hc. rewrite !elem_of_cons, elem_of_nil in Hc. unfold cell at 1.
    rewrite lookup_insert_ne by (by destruct Hc as [Hc | [Hc | [Hc | []]]]; subst c).
    rewrite record_cell; [done|]. apply Hin. rewrite !elem_of_cons. tauto. }
  repeat split.
  - rewrite lookup_insert_eq. f_equal. apply Hcell. rewrite !elem_of_cons. tauto.
  - rewrite lookup_insert_ne by done. rewrite lookup_insert_eq. f_equal.
    apply Hcell. rewrite !elem_of_cons. tauto.
  - do 3 rewrite lookup_insert_ne by done. rewrite lookup_insert_eq. f_equal.
    apply Hcell. rewrite !elem_of_cons. tauto.
  - do 2 rewrite lookup_insert_ne by done. rewrite lookup_insert_eq. f_equal.
    unfold cell. by rewrite lookup_insert_eq.
Qed.

(** X17: when each of the keys [variant_name], [variant_sku],
    [variant_price] and [variant_public_title] occurs in one row at least
    and the division of the price column returns one quotient per row, the
    last step of [scrape_variants] writes a sheet with exactly one record per
    row, in the order of the rows: the record holds the name, the SKU and
    the public title of its row, [NaN] where the row has none, and the
    quotient at the index of the row.  The column that is divided is the
    prices of the rows in order, [NaN] for a row without price. *)
Theorem saved_sheet_keeps_cells
    (series_truediv : list pyval → Z → outcome (list pyval)) (env : environment)
    (all_rows : list dict) (w : world) (usd : list pyval) :
  Forall (λ c, ∃ row, row ∈ all_rows ∧ is_Some (row !! c))
         ["variant_name"; "variant_sku"; "variant_price"; "variant_public_title"] →
  series_truediv (column (DataFrame_of_records all_rows) "variant_price") 100 = Return usd →
  length usd = length all_rows →
  column (DataFrame_of_records all_rows) "variant_price"
  = (λ row, cell row "variant_price") <$> all_rows
  ∧ ∃ df,
      files (save_variants series_truediv env all_rows w).2
      = <["carex_variants_raw.xlsx" := df]> (files w)
      ∧ length (records df) = length all_rows
      ∧ ∀ i row,
          all_rows !! i = Some row →
          ∃ rec,
            records df !! i = Some rec
            ∧ rec !! "variant_name" = Some (cell row "variant_name")
            ∧ rec !! "variant_sku" = Some (cell row "variant_sku")
            ∧ rec !! "variant_public_title" = Some (cell row "variant_public_title")
            ∧ rec !! "variant_price_usd" = usd !! i.
Proof. apply save_variants_cells. Qed.

Lemma saved_sheet_keeps_cells_witness :
  ∃ df,
    files (save_variants truediv_column env_page2_fails [harvested_widget_row] world0).2
    = <["carex_variants_raw.xlsx" := df]> (files world0)
    ∧ length (records df) = 1%nat
    ∧ ∃ rec,
        records df !! 0%nat = Some rec
        ∧ rec !! "variant_sku" = Some (PStr "ABC-1")
        ∧ rec !! "variant_price_usd"
          = Some (PFloat (FTrueDiv (FOfInt 1999) (FOfInt 100))).
Proof.
  destruct (saved_sheet_keeps_cells truediv_column env_page2_fails [harvested_widget_row]
              world0 [PFloat (FTrueDiv (FOfInt 1999) (FOfInt 100))])
    as (_ & df & Hfiles & Hlen & Hcells).
  - repeat (constructor;
            [exists harvested_widget_row;
             split; [by left | vm_compute; eexists; reflexivity]|]).
    constructor.
  - vm_compute. reflexivity.
  - reflexivity.
  - exists df. split; [exact Hfiles|]. split; [exact Hlen|].
    destruct (Hcells 0%nat harvested_widget_row eq_refl) as (rec & Hrec & _ & Hsku & _ & Husd).
    exists rec. split; [exact Hrec|]. split; [exact Hsku | exact Husd].
Defined.

(** ** A column that no row has *)

Lemma select_columns_missing (d : DataFrame) (labels : list string) (c : string) :
  c ∈ labels → c ∉ columns d →
  ∃ missing, missing ∈ labels ∧ (missing ∉ columns d)
             ∧ select_columns d labels = Raise (KeyError missing).
Proof.
  intros Hc Hn. unfold select_columns.
  destruct (filter (λ c, c ∉ columns d) labels) as [|missing rest] eqn:Hf.
  - assert (c ∈ filter (λ c, c ∉ columns d) labels) as Hin
      by (by apply list_elem_of_filter).
    rewrite Hf in Hin. by apply elem_of_nil in Hin.
  - assert (missing ∈ filter (λ c, c ∉ columns d) labels) as Hin
      by (rewrite Hf; by left).
    apply list_elem_of_filter in Hin as [Hm Hl]. by exists missing.
Qed.

(** X18: the four columns are selected without a guard.  When one of them
    occurs as a key in no row (for [variant_price_usd]: neither it nor
    [variant_price] does), the last step of [scrape_variants] writes no file
    and shows nothing: it ends in the [KeyError] of [df[keep_columns]], which
    names a column of the four that the frame lacks, unless the division of
    the price column has already failed. *)
Theorem absent_column_raises_KeyError
    (series_truediv : list pyval → Z → outcome (list pyval)) (env : environment)
    (all_rows : list dict) (w : world) (c : string) :
  c ∈ keep_columns →
  (∀ row, row ∈ all_rows → row !! c = None) →
  (c = "variant_price_usd" → ∀ row, row ∈ all_rows → row !! "variant_price" = None) →
  (save_variants series_truediv env all_rows w).2 = w
  ∧ (∀ df, (save_variants series_truediv env all_rows w).1 ≠ Return df)
  ∧ ((∃ missing, missing ∈ keep_columns
                 ∧ (save_variants series_truediv env all_rows w).1
                   = Raise (KeyError missing))
     ∨ ((∃ row, row ∈ all_rows ∧ is_Some (row !! "variant_price"))
        ∧ ∀ usd, series_truediv (column (DataFrame_of_records all_rows) "variant_price") 100
                 ≠ Return usd)).
Proof.
  intros Hc Hnone Hprice.
  assert (c ∉ columns (DataFrame_of_records all_rows)) as Hn0.
  { intros (row & Hrow & Hsome)%column_occurs. rewrite (Hnone row Hrow) in Hsome.
    by destruct Hsome. }
  assert (∃ o, save_variants series_truediv env all_rows w = (o, w)
               ∧ (∀ df, o ≠ Return df)
               ∧ ((∃ missing, missing ∈ keep_columns ∧ o = Raise (KeyError missing))
                  ∨ ((∃ row, row ∈ all_rows ∧ is_Some (row !! "variant_price"))
                     ∧ ∀ usd, series_truediv
                                (column (DataFrame_of_records all_rows) "variant_price") 100
                              ≠ Return usd))) as (o & Hrun & Hret & Hcases).
  { unfold save_variants. cbv zeta. case_bool_decide as Hcol.
    - assert (c ≠ "variant_price_usd") as Hne.
      { intros ->. apply column_occurs in Hcol as (row & Hrow & Hsome).
        rewrite (Hprice eq_refl row Hrow) in Hsome. by destruct Hsome. }
      destruct (series_truediv _ 100) as [usd| e |] eqn:Hdiv.
      + destruct (select_columns_missing
                    (set_column (DataFrame_of_records all_rows) "variant_price_usd" usd)
                    keep_columns c Hc) as (missing & Hm & _ & Hsel).
        { unfold set_column. cbn [columns]. case_bool_decide; [done|].
          rewrite elem_of_app, elem_of_cons, elem_of_nil. tauto. }
        exists (Raise (KeyError missing)). split.
        { rewrite (bind_run _ _ w w
                     (set_column (DataFrame_of_records all_rows) "variant_price_usd" usd))
            by reflexivity.
          apply bind_raise. unfold lift. by rewrite Hsel. }
        split; [done|]. left. by exists missing.
      + exists (Raise e). split; [reflexivity|]. split; [done|]. right.
        split; [by apply column_occurs | done].
      + exists OutOfFuel. split; [reflexivity|]. split; [done|]. right.
        split; [by apply column_occurs | done].
    - destruct (select_columns_missing (DataFrame_of_records all_rows) keep_columns c Hc Hn0)
        as (missing & Hm & _ & Hsel).
      exists (Raise (KeyError missing)). split.
      { rewrite (bind_run _ _ w w (DataFrame_of_records all_rows)) by reflexivity.
        apply bind_raise. unfold lift. by rewrite Hsel. }
      split; [done|]. left. by exists missing. }
  rewrite Hrun. cbn [fst snd]. done.
Qed.

Lemma absent_column_raises_KeyError_witness :
  save_variants truediv_column env_page2_fails [untitled_row] world0
  = (Raise (KeyError "variant_public_title"), world0)
  ∧ (save_variants truediv_column env_page2_fails [untitled_row] world0).2 = world0.
Proof.
  split; [vm_compute; reflexivity|].
  apply (absent_column_raises_KeyError truediv_column env_page2_fails [untitled_row] world0
           "variant_public_title").
  - unfold keep_columns. rewrite !elem_of_cons. tauto.
  - intros row Hrow. apply elem_of_cons in Hrow as [-> | Hrow]; [reflexivity|].
    by apply elem_of_nil in Hrow.
  - discriminate.
Defined.

(** ** The stock markers and the view link *)

Lemma prefix_app (p s : string) : String.prefix p (p +:+ s) = true.
Proof.
  induction p as [|c p IH]; [by destruct s|].
  change (String.prefix (String c p) (String c (p +:+ s)) = true). simpl.
  by destruct (Ascii.ascii_dec c c).
Qed.

(** [sub in s] holds exactly when [sub] is a part of [s]. *)
Lemma contains_iff (sub s : string) :
  contains sub s = true ↔ ∃ a b, s = a +:+ sub +:+ b.
Proof.
  split.
  - induction s as [|c s IH]; cbn [contains].
    + rewrite orb_false_r. intros Hp. exists EmptyString, (drop_string (String.length sub) "").
      exact (prefix_split sub _ Hp).
    + intros [Hp | Hs]%orb_true_iff.
      * exists EmptyString, (drop_string (String.length sub) (String c s)).
        exact (prefix_split sub _ Hp).
      * destruct (IH Hs) as (a & b & ->). by exists (String c a), b.
  - intros (a & b & ->). induction a as [|c a IH].
    + change (contains sub (sub +:+ b) = true).
      destruct (sub +:+ b) eqn:Heq; cbn [contains]; rewrite <- Heq, prefix_app; done.
    + change (contains sub (String c (a +:+ sub +:+ b)) = true). cbn [contains].
      rewrite IH. apply orb_true_r.
Qed.

(** X19: the stock status is read off the class attribute by two tests of
    containment, in this order.  The status is [In Stock] exactly when the
    text [snize-product-in-stock] is a part of the attribute, wherever it
    stands and whatever surrounds it; it is [Out of Stock] exactly when
    that text is no part of it and [snize-product-out-of-stock] is; and
    [Unknown] exactly when neither is.  An attribute with both markers is
    [In Stock]. *)
Theorem stock_status_by_marker (classes : string) :
  (stock_status_of classes = "In Stock"
   ↔ ∃ a b, classes = a +:+ "snize-product-in-stock" +:+ b)
  ∧ (stock_status_of classes = "Out of Stock"
     ↔ (¬ ∃ a b, classes = a +:+ "snize-product-in-stock" +:+ b)
       ∧ ∃ a b, classes = a +:+ "snize-product-out-of-stock" +:+ b)
  ∧ (stock_status_of classes = "Unknown"
     ↔ (¬ ∃ a b, classes = a +:+ "snize-product-in-stock" +:+ b)
       ∧ ¬ ∃ a b, classes = a +:+ "snize-product-out-of-stock" +:+ b).
Proof.
  rewrite <- !contains_iff. unfold stock_status_of.
  destruct (contains "snize-product-in-stock" classes);
    destruct (contains "snize-product-out-of-stock" classes);
    repeat split; try done; try (by intros [? ?]); try (intros [H ?]; by destruct H).
Qed.

(** X20: the product URL read off a view link is never a relative product
    path.  A link that starts with [/products/] is put behind
    [https://carex.com], every other link is kept as it is, and the result
    does not start with [/products/]: making it absolute a second time
    changes nothing. *)
Theorem product_url_is_absolute (href : string) :
  ∃ url,
    product_url_of (Some href) = PStr url
    ∧ url = (if String.prefix "/products/" href then "https://carex.com" +:+ href
             else href)
    ∧ String.prefix "/products/" url = false
    ∧ product_url_of (Some url) = PStr url.
Proof.
  unfold product_url_of. cbv zeta.
  destruct (String.prefix "/products/" href) eqn:Hp.
  - assert (truthy (PStr href) = true) as ->.
    { destruct href; [discriminate Hp | reflexivity]. }
    exists ("https://carex.com" +:+ href). split; [done|]. split; [done|].
    assert (String.prefix "/products/" ("https://carex.com" +:+ href) = false) as Hn
      by reflexivity.
    split; [exact Hn|]. rewrite Hn. by rewrite andb_false_r.
  - exists href. rewrite andb_false_r. split; [done|]. split; [done|]. split; [done|].
    by rewrite Hp, andb_false_r.
Qed.

(** * The price in dollars *)

(** ** The binary64 quotient of an integer by 100 *)

Local Open Scope Z_scope.

Lemma digits2_pos_bounds (m : positive) :
  2 ^ (Zpos (digits2_pos m) - 1) ≤ Zpos m < 2 ^ Zpos (digits2_pos m).
Proof.
  induction m as [m IH|m IH|]; cbn [digits2_pos].
  - rewrite Pos2Z.inj_succ.
    replace (Z.succ (Zpos (digits2_pos m)) - 1) with (Z.succ (Zpos (digits2_pos m) - 1)) by lia.
    rewrite !Z.pow_succ_r by lia. lia.
  - rewrite Pos2Z.inj_succ.
    replace (Z.succ (Zpos (digits2_pos m)) - 1) with (Z.succ (Zpos (digits2_pos m) - 1)) by lia.
    rewrite !Z.pow_succ_r by lia. lia.
  - simpl. lia.
Qed.

Lemma digits2_pos_unique (m : positive) (d : Z) :
  2 ^ (d - 1) ≤ Zpos m < 2 ^ d → Zpos (digits2_pos m) = d.
Proof.
  intros [Hlo Hhi]. pose proof (digits2_pos_bounds m) as [Hlo' Hhi'].
  assert (0 < d).
  { destruct (Z.lt_trichotomy d 0) as [Hd|[->|Hd]]; [|simpl in Hhi; lia|done].
    rewrite Z.pow_neg_r in Hhi by lia. lia. }
  assert (d - 1 < Zpos (digits2_pos m)).
  { apply (Z.pow_lt_mono_r_iff 2); lia. }
  assert (Zpos (digits2_pos m) - 1 < d).
  { apply (Z.pow_lt_mono_r_iff 2); lia. }
  lia.
Qed.

Lemma iter_xO (m k : positive) : Zpos (Pos.iter xO m k) = Zpos m * 2 ^ Zpos k.
Proof.
  induction k as [|k IH] using Pos.peano_ind.
  - simpl. lia.
  - rewrite Pos.iter_succ, Pos2Z.inj_succ, Z.pow_succ_r by lia.
    rewrite Pos2Z.inj_xO, IH. lia.
Qed.

(** A mantissa of 53 digits with an exponent in range is kept as it is. *)
Lemma binary_round_aux_exact (s : bool) (m : positive) (e : Z) :
  Zpos (digits2_pos m) = 53 → -1074 ≤ e ≤ 971 →
  binary_round_aux 53 1024 s (Zpos m) e loc_Exact = S754_finite s m e.
Proof.
  intros Hd He. unfold binary_round_aux, shr_fexp. cbn [Zdigits2 shr_record_of_loc].
  rewrite Hd.
  replace (fexp 53 1024 (53 + e) - e) with 0 by (unfold fexp, emin; lia).
  cbn [shr shr_m loc_of_shr_record round_nearest_even Zdigits2 shr_record_of_loc].
  rewrite Hd.
  replace (fexp 53 1024 (53 + e) - e) with 0 by (unfold fexp, emin; lia).
  cbn [shr shr_m].
  replace (e <=? 1024 - 53) with true by (symmetry; apply Z.leb_le; lia). done.
Qed.

Lemma binary64_of_Z_normal (p : Z) :
  0 < p < 2 ^ 53 →
  ∃ m e, binary64_of_Z p = S754_finite false m e
         ∧ 2 ^ 52 ≤ Zpos m < 2 ^ 53
         ∧ -52 ≤ e ≤ 0
         ∧ Zpos m = p * 2 ^ (- e).
Proof.
  intros [Hlo Hhi]. destruct p as [|p|p]; try lia.
  unfold binary64_of_Z, binary_normalize, binary_round, shl_align.
  pose proof (digits2_pos_bounds p) as [Hdlo Hdhi].
  set (d := Zpos (digits2_pos p)) in *.
  assert (1 ≤ d) by (unfold d; lia).
  assert (d ≤ 53).
  { destruct (Z.le_gt_cases d 53) as [|Hgt]; [done|].
    assert (2 ^ 53 ≤ 2 ^ (d - 1)) by (apply Z.pow_le_mono_r; lia). lia. }
  replace (fexp 53 1024 (d + 0)) with (d - 53) by (unfold fexp, emin; lia).
  destruct (d - 53 - 0) as [|k|k] eqn:Hk; try lia.
  - assert (d = 53) as Hd by lia.
    rewrite binary_round_aux_exact by (fold d; lia).
    assert (2 ^ 52 ≤ Zpos p) by (replace 52 with (d - 1) by lia; done).
    exists p, 0. split; [done|]. split; [lia|]. split; [lia|]. simpl. lia.
  - assert (Zpos k = 53 - d) as Hkd by lia.
    assert (Zpos (Pos.iter xO p k) = Zpos p * 2 ^ (53 - d)) as Hm
      by (rewrite iter_xO, Hkd; done).
    assert (2 ^ 52 ≤ Zpos (Pos.iter xO p k) < 2 ^ 53) as Hrange.
    { rewrite Hm.
      assert (2 ^ 52 = 2 ^ (d - 1) * 2 ^ (53 - d)) as ->
        by (rewrite <- Z.pow_add_r by lia; f_equal; lia).
      assert (2 ^ 53 = 2 ^ d * 2 ^ (53 - d)) as ->
        by (rewrite <- Z.pow_add_r by lia; f_equal; lia).
      assert (0 < 2 ^ (53 - d)) by (apply Z.pow_pos_nonneg; lia).
      split; [apply Z.mul_le_mono_nonneg_r; lia | apply Z.mul_lt_mono_pos_r; lia]. }
    rewrite binary_round_aux_exact; [|by apply digits2_pos_unique|lia].
    exists (Pos.iter xO p k), (d - 53). split; [done|]. split; [done|]. split; [lia|].
    rewrite Hm. f_equal. f_equal. lia.
Qed.

Lemma shr_1_nonneg (q : Z) (r s : bool) :
  0 ≤ q →
  shr_1 {| shr_m := q; shr_r := r; shr_s := s |}
  = {| shr_m := q / 2; shr_r := Z.odd q; shr_s := r || s |}.
Proof.
  intros Hq. rewrite <- Z.div2_div. destruct q as [|[p|p|]|]; try done; lia.
Qed.

Lemma loc_of_shr_record_of_loc (m : Z) (l : location) :
  loc_of_shr_record (shr_record_of_loc m l) = l.
Proof. by destruct l as [|[]]. Qed.

Lemma shr_m_record_of_loc (m : Z) (l : location) : shr_m (shr_record_of_loc m l) = m.
Proof. by destruct l as [|[]]. Qed.

Lemma Zdigits2_unique (q d : Z) :
  2 ^ (d - 1) ≤ q < 2 ^ d → 0 < q → Zdigits2 q = d.
Proof.
  intros Hq Hpos. destruct q as [|q|q]; try lia. simpl. by apply digits2_pos_unique.
Qed.

Lemma shr_fexp_53 (q e : Z) (l : location) :
  2 ^ 52 ≤ q < 2 ^ 53 → -1074 ≤ e →
  shr_fexp 53 1024 q e l = (shr_record_of_loc q l, e).
Proof.
  intros Hq He. unfold shr_fexp. rewrite (Zdigits2_unique q 53) by lia.
  replace (fexp 53 1024 (53 + e) - e) with 0 by (unfold fexp, emin; lia). done.
Qed.

Lemma shr_fexp_54 (q e : Z) (l : location) :
  2 ^ 53 ≤ q < 2 ^ 54 → -1075 ≤ e →
  shr_fexp 53 1024 q e l = (shr_1 (shr_record_of_loc q l), e + 1).
Proof.
  intros Hq He. unfold shr_fexp. rewrite (Zdigits2_unique q 54) by lia.
  replace (fexp 53 1024 (54 + e) - e) with 1 by (unfold fexp, emin; lia). done.
Qed.

(** Rounding a quotient of 53 digits. *)
Lemma binary_round_aux_53 (q e : Z) (l : location) :
  2 ^ 52 ≤ q < 2 ^ 53 → -1074 ≤ e ≤ 970 →
  ∃ m e', binary_round_aux 53 1024 false q e l = S754_finite false m e'
          ∧ 2 ^ 52 ≤ Zpos m < 2 ^ 53
          ∧ ((e' = e ∧ Zpos m = round_nearest_even q l)
             ∨ (e' = e + 1 ∧ 2 * Zpos m = round_nearest_even q l)).
Proof.
  intros Hq He. unfold binary_round_aux. rewrite shr_fexp_53 by lia.
  rewrite shr_m_record_of_loc, loc_of_shr_record_of_loc.
  assert (round_nearest_even q l = q ∨ round_nearest_even q l = q + 1) as Hr.
  { destruct l as [|[]]; simpl; auto. destruct (Z.even q); auto. }
  destruct (Z.lt_ge_cases (round_nearest_even q l) (2 ^ 53)) as [Hlt | Hge].
  - rewrite shr_fexp_53 by lia. cbn [shr_m shr_record_of_loc].
    destruct (round_nearest_even q l) as [|m|m] eqn:Hm; try lia.
    replace (e <=? 1024 - 53) with true by (symmetry; apply Z.leb_le; lia).
    exists m, e. split; [done|]. split; [lia|]. by left.
  - assert (round_nearest_even q l = 2 ^ 53) as -> by lia.
    rewrite shr_fexp_54 by lia.
    replace (e + 1 <=? 1024 - 53) with true by (symmetry; apply Z.leb_le; lia).
    exists (Z.to_pos (2 ^ 52)), (e + 1). split; [done|]. split; [done|]. by right.
Qed.

(** Rounding a quotient of 54 digits that is not among the last ones. *)
Lemma binary_round_aux_54 (q e : Z) (l : location) :
  2 ^ 53 ≤ q < 2 ^ 54 - 2 → -1075 ≤ e ≤ 969 →
  ∃ m, binary_round_aux 53 1024 false q e l = S754_finite false m (e + 1)
       ∧ 2 ^ 52 ≤ Zpos m < 2 ^ 53
       ∧ Zpos m
         = round_nearest_even (q / 2)
             (loc_of_shr_record (shr_1 (shr_record_of_loc q l))).
Proof.
  intros Hq He. unfold binary_round_aux. rewrite shr_fexp_54 by lia.
  assert (shr_m (shr_1 (shr_record_of_loc q l)) = q / 2) as Hm.
  { destruct l as [|[]]; cbn [shr_record_of_loc]; by rewrite shr_1_nonneg by lia. }
  rewrite Hm.
  set (l' := loc_of_shr_record (shr_1 (shr_record_of_loc q l))).
  assert (2 ^ 52 ≤ q / 2 < 2 ^ 53 - 1) as Hq2.
  { split; [apply Z.div_le_lower_bound; lia | apply Z.div_lt_upper_bound; lia]. }
  assert (round_nearest_even (q / 2) l' = q / 2 ∨ round_nearest_even (q / 2) l' = q / 2 + 1)
    as Hr.
  { destruct l' as [|[]]; simpl; auto. destruct (Z.even (q / 2)); auto. }
  rewrite shr_fexp_53 by lia. cbn [shr_m shr_record_of_loc].
  destruct (round_nearest_even (q / 2) l') as [|m|m] eqn:Hm1; try lia.
  replace (e + 1 <=? 1024 - 53) with true by (symmetry; apply Z.leb_le; lia).
  exists m. split; [done|]. split; [lia|done].
Qed.

Lemma SFdiv_core_100 (mx : positive) (e1 : Z) :
  2 ^ 52 ≤ Zpos mx < 2 ^ 53 → -52 ≤ e1 ≤ 0 →
  SFdiv_core_binary 53 1024 (Zpos mx) e1 7036874417766400 (-46)
  = (Zpos mx * 2 ^ 53 / 7036874417766400, e1 - 7,
     new_location 7036874417766400 (Zpos mx * 2 ^ 53 mod 7036874417766400)).
Proof.
  intros Hm He. unfold SFdiv_core_binary.
  rewrite (Zdigits2_unique (Zpos mx) 53) by lia.
  change (Zdigits2 7036874417766400) with 53.
  replace (Z.min (fexp 53 1024 (53 + e1 - (53 + -46))) (e1 - -46)) with (e1 - 7)
    by (unfold fexp, emin; lia).
  replace (e1 - -46 - (e1 - 7)) with 53 by lia.
  rewrite Z.shiftl_mul_pow2 by lia.
  unfold Z.div, Z.modulo.
  by destruct (Z.div_eucl (Zpos mx * 2 ^ 53) 7036874417766400).
Qed.

(** Where the remainder [r] of a division by [100 * 2 ^ 46] stands. *)
Lemma new_location_100 (r : Z) :
  0 ≤ r < 7036874417766400 →
  (r = 0 ∧ new_location 7036874417766400 r = loc_Exact)
  ∨ (0 < 2 * r < 7036874417766400
     ∧ new_location 7036874417766400 r = loc_Inexact Lt)
  ∨ (2 * r = 7036874417766400 ∧ new_location 7036874417766400 r = loc_Inexact Eq)
  ∨ (7036874417766400 < 2 * r ∧ new_location 7036874417766400 r = loc_Inexact Gt).
Proof.
  intros Hr. unfold new_location. change (Z.even 7036874417766400) with true. cbv iota.
  unfold new_location_even. destruct (Z.eqb_spec r 0) as [->|Hne]; [by left|].
  right. destruct (Z.compare_spec (2 * r) 7036874417766400); [right; left|left|right; right];
    split; (lia || done).
Qed.

Lemma divide_25_pow2 (x k : Z) : 0 ≤ k → (25 | x * 2 ^ k) → (25 | x).
Proof.
  intros Hk. pattern k. apply natlike_ind; [| |done].
  - by rewrite Z.mul_1_r.
  - intros k' Hk' IH Hd. apply IH. apply (Z.gauss 25 2); [|done].
    rewrite Z.pow_succ_r in Hd by done.
    by replace (2 * (x * 2 ^ k')) with (x * (2 * 2 ^ k')) by lia.
Qed.

Lemma binary64_div_100 (mx : positive) (e1 : Z) :
  2 ^ 52 ≤ Zpos mx < 2 ^ 53 → -52 ≤ e1 ≤ 0 →
  ∃ m k,
    SFdiv 53 1024 (S754_finite false mx e1) (binary64_of_Z 100)
    = S754_finite false m (e1 - k)
    ∧ (k = 6 ∨ k = 7)
    ∧ 2 ^ 52 ≤ Zpos m < 2 ^ 53
    ∧ Z.abs (100 * Zpos m - Zpos mx * 2 ^ k) ≤ 50
    ∧ (100 * Zpos m = Zpos mx * 2 ^ k ↔ (25 | Zpos mx)).
Proof.
  intros Hm He.
  change (binary64_of_Z 100) with (S754_finite false 7036874417766400 (-46)).
  unfold SFdiv. rewrite SFdiv_core_100 by done. cbn [xorb].
  pose proof (Z.div_mod (Zpos mx * 2 ^ 53) 7036874417766400 ltac:(lia)) as Hdiv.
  pose proof (Z.mod_pos_bound (Zpos mx * 2 ^ 53) 7036874417766400 ltac:(lia)) as Hrem.
  set (q := Zpos mx * 2 ^ 53 / 7036874417766400) in *.
  set (r := Zpos mx * 2 ^ 53 mod 7036874417766400) in *.
  assert (exact : (25 | Zpos mx) → r = 0 ∧ 25 * q = 32 * Zpos mx).
  { intros [t Ht]. lia. }
  assert (inexact : r = 0 → (25 | Zpos mx)).
  { intros Hr. apply (divide_25_pow2 _ 5); [lia|]. exists q. lia. }
  destruct (Z.lt_ge_cases q (2 ^ 53)) as [Hq | Hq].
  - destruct (binary_round_aux_53 q (e1 - 7) (new_location 7036874417766400 r))
      as (m & e' & -> & Hrange & Hcases); [lia | lia |].
    destruct (new_location_100 r Hrem) as [[Hr Hl] | [[Hr Hl] | [[Hr Hl] | [Hr Hl]]]];
      rewrite Hl in Hcases; cbn [round_nearest_even] in Hcases.
    all: try destruct (Z.even q).
    all: destruct Hcases as [[-> Hmq] | [-> Hmq]].
    all: first [ exists m, 7; split; [done|] | exists m, 6; split; [f_equal; lia|] ].
    all: split; [lia|]; split; [done|]; split; [lia|].
    all: split; [intros Heq; apply inexact; lia | intros Hx; destruct (exact Hx); lia].
  - destruct (binary_round_aux_54 q (e1 - 7) (new_location 7036874417766400 r))
      as (m & -> & Hrange & Hmq); [lia | lia |].
    pose proof (Z.div_mod q 2 ltac:(lia)) as Hq2.
    pose proof (Z.mod_pos_bound q 2 ltac:(lia)) as Hq2b.
    destruct (new_location_100 r Hrem) as [[Hr Hl] | [[Hr Hl] | [[Hr Hl] | [Hr Hl]]]];
      rewrite Hl in Hmq; cbn [shr_record_of_loc] in Hmq;
      rewrite shr_1_nonneg in Hmq by lia; rewrite Zodd_mod in Hmq;
      destruct (Z.eqb_spec (q mod 2) 1) as [Hodd | Hodd];
      cbn [loc_of_shr_record orb round_nearest_even] in Hmq.
    all: try destruct (Z.even (q / 2)).
    all: exists m, 6; split; [f_equal; lia|].
    all: split; [lia|]; split; [done|]; split; [lia|].
    all: split; [intros Heq; apply inexact; lia | intros Hx; destruct (exact Hx); lia].
Qed.

(** The quotient of a price by 100: a double of 53 digits whose distance
    to [p / 100] is half a unit of its last digit at most. *)
Lemma binary64_quotient (p : Z) :
  0 < p < 2 ^ 53 →
  ∃ m e,
    SFdiv 53 1024 (binary64_of_Z p) (binary64_of_Z 100) = S754_finite false m e
    ∧ 2 ^ 52 ≤ Zpos m < 2 ^ 53
    ∧ e ≤ -6
    ∧ Z.abs (100 * Zpos m - p * 2 ^ (- e)) ≤ 50
    ∧ (100 * Zpos m = p * 2 ^ (- e) ↔ (25 | p))
    ∧ (Zpos m = p / 100 * 2 ^ (- e) ↔ (100 | p)).
Proof.
  intros Hp.
  destruct (binary64_of_Z_normal p Hp) as (mx & e1 & -> & Hmx & He1 & Hnorm).
  destruct (binary64_div_100 mx e1 Hmx He1) as (m & k & -> & Hk & Hm & Hbound & Hexact).
  exists m, (e1 - k).
  assert (p * 2 ^ (- (e1 - k)) = Zpos mx * 2 ^ k) as Hscale.
  { replace (- (e1 - k)) with (- e1 + k) by lia.
    rewrite Z.pow_add_r by lia. rewrite Hnorm. lia. }
  assert (64 ≤ 2 ^ (- (e1 - k))) as Hbig.
  { change 64 with (2 ^ 6). apply Z.pow_le_mono_r; lia. }
  assert ((25 | Zpos mx) ↔ (25 | p)) as Hdiv.
  { rewrite Hnorm. split.
    - apply divide_25_pow2. lia.
    - intros Hd. by apply Z.divide_mul_l. }
  split; [done|]. split; [done|]. split; [lia|].
  rewrite Hscale. split; [done|]. split; [by rewrite Hexact|].
  split.
  - intros Hfloor. rewrite <- Hscale, Hfloor in Hbound.
    pose proof (Z.div_mod p 100 ltac:(lia)) as Hdm.
    pose proof (Z.mod_pos_bound p 100 ltac:(lia)) as Hmod.
    exists (p / 100). nia.
  - intros [t ->]. rewrite Z.div_mul by lia.
    assert (25 | t * 100) as Hd by (exists (t * 4); lia).
    apply Hdiv, Hexact in Hd. rewrite <- Hscale in Hd. lia.
Qed.

(** ** The price column of the sheet *)

Lemma price_column_cells (all_rows : list dict) :
  (∃ row, row ∈ all_rows ∧ is_Some (row !! "variant_price")) →
  column (DataFrame_of_records all_rows) "variant_price"
  = (λ row, cell row "variant_price") <$> all_rows.
Proof.
  intros Hcol. apply column_occurs in Hcol.
  unfold column. unfold DataFrame_of_records at 1. cbn [records].
  rewrite <- list_fmap_compose. apply list_fmap_ext. intros _ row _. simpl.
  unfold cell at 1. by rewrite record_cell.
Qed.

(** A loop that collects one value per element, none of which raises. *)
Lemma for_each_map {A B : Type} (f : A → outcome B) (g : A → B) (xs : list A) (acc : list B) :
  Forall (λ x, f x = Return (g x)) xs →
  for_each (λ acc x, y ← f x; Return (acc ++ [y])) xs acc = Return (acc ++ (g <$> xs)).
Proof.
  intros Hxs. revert acc. induction Hxs as [|x xs Hx _ IH]; intros acc; simpl.
  - by rewrite app_nil_r.
  - rewrite Hx. simpl. rewrite IH. by rewrite <- app_assoc.
Qed.

(** The division of a column of integer prices, some of them missing. *)
Lemma truediv_prices (values : list pyval) (i : nat) (p : Z) :
  Forall (λ v, v = NaN ∨ v = PNone ∨ ∃ q, v = PInt q) values →
  values !! i = Some (PInt p) →
  ∃ usd, truediv_column values 100 = Return usd
         ∧ length usd = length values
         ∧ usd !! i = Some (PFloat (FTrueDiv (FOfInt p) (FOfInt 100))).
Proof.
  intros Hvalues Hi.
  set (g := λ v, match v with
                 | PInt q => PFloat (FTrueDiv (FOfInt q) (FOfInt 100))
                 | _ => NaN
                 end).
  exists (g <$> values). split; [|split].
  - unfold truediv_column.
    assert (numeric_column values = true) as ->.
    { unfold numeric_column. apply andb_true_iff. split.
      - clear Hi. induction Hvalues as [|v vs Hv _ IH]; [done|].
        cbn [forallb]. rewrite IH. by destruct Hv as [-> | [-> | [q ->]]].
      - clear Hvalues. revert i Hi.
        induction values as [|v vs IH]; intros [|i]; cbn [existsb]; try done.
        + by intros [= ->].
        + intros Hi. rewrite (IH i Hi). apply orb_true_r. }
    rewrite (for_each_map _ g); [done|].
    eapply Forall_impl; [exact Hvalues|]. intros v [-> | [-> | [q ->]]]; done.
  - by rewrite length_fmap.
  - by rewrite list_lookup_fmap, Hi.
Qed.

(** C8, as amended: for every row with an integer price [p] from 0 up to
    [2 ^ 53], in a sheet where every price is an integer or missing, the
    cell [variant_price_usd] that is written is the binary64 quotient of
    [p] by 100.  For [p = 0] it is zero.  Otherwise it is the double
    [m * 2 ^ e] with a mantissa [m] of 53 digits that is nearest to
    [p / 100]: [100 * m] differs from [p * 2 ^ (- e)] by 50 at most, that
    is, the cell differs from [p / 100] by half a unit of its last digit at
    most.  It is the rational [p / 100] exactly when [p] is a multiple of
    25, and it is the truncated quotient of [p] by 100 exactly when [p] is
    a multiple of 100: the division is a true division, rounded to the
    nearest double, never a floor. *)
Theorem price_usd_is_nearest_double (env : environment) (all_rows : list dict) (w : world)
    (i : nat) (row : dict) (p : Z) :
  Forall (λ c, ∃ row, row ∈ all_rows ∧ is_Some (row !! c))
         ["variant_name"; "variant_sku"; "variant_public_title"] →
  Forall (λ row : dict, row !! "variant_price" = None
                        ∨ row !! "variant_price" = Some PNone
                        ∨ ∃ q, row !! "variant_price" = Some (PInt q)) all_rows →
  all_rows !! i = Some row →
  row !! "variant_price" = Some (PInt p) →
  0 ≤ p < 2 ^ 53 →
  ∃ df rec,
    files (save_variants truediv_column env all_rows w).2
    = <["carex_variants_raw.xlsx" := df]> (files w)
    ∧ records df !! i = Some rec
    ∧ rec !! "variant_price_usd" = Some (PFloat (FTrueDiv (FOfInt p) (FOfInt 100)))
    ∧ ((p = 0 ∧ binary64 (FTrueDiv (FOfInt p) (FOfInt 100)) = Some (S754_zero false))
       ∨ ∃ m e,
           binary64 (FTrueDiv (FOfInt p) (FOfInt 100)) = Some (S754_finite false m e)
           ∧ 2 ^ 52 ≤ Zpos m < 2 ^ 53
           ∧ e ≤ -6
           ∧ Z.abs (100 * Zpos m - p * 2 ^ (- e)) ≤ 50
           ∧ (100 * Zpos m = p * 2 ^ (- e) ↔ (25 | p))
           ∧ (Zpos m = p / 100 * 2 ^ (- e) ↔ (100 | p))).
Proof.
  intros Hcols Hprices Hrow Hprice Hp.
  assert (row ∈ all_rows) as Hin by (by apply list_elem_of_lookup_2 with i).
  assert (∃ row, row ∈ all_rows ∧ is_Some (row !! "variant_price")) as Hcol
    by (exists row; by rewrite Hprice).
  destruct (truediv_prices ((λ row, cell row "variant_price") <$> all_rows) i p)
    as (usd & Hdiv & Hlen & Husd).
  { apply Forall_fmap. eapply Forall_impl; [exact Hprices|].
    intros r [Hr | [Hr | [q Hr]]]; unfold cell; simpl; rewrite Hr; simpl; eauto. }
  { rewrite list_lookup_fmap, Hrow. unfold cell. simpl. by rewrite Hprice. }
  rewrite length_fmap in Hlen. rewrite <- price_column_cells in Hdiv by done.
  destruct (save_variants_cells truediv_column env all_rows w usd)
    as (_ & df & Hfiles & _ & Hcells); [|done|done|].
  { apply Forall_forall. intros c Hc. rewrite Forall_forall in Hcols.
    rewrite !elem_of_cons, elem_of_nil in Hc.
    destruct Hc as [-> | [-> | [-> | [-> | []]]]]; try done;
      apply Hcols; rewrite !elem_of_cons; tauto. }
  destruct (Hcells i row Hrow) as (rec & Hrec & _ & _ & _ & Hcell).
  exists df, rec. split; [done|]. split; [done|]. split; [by rewrite Hcell|].
  cbn [binary64].
  destruct (Z.eq_dec p 0) as [-> | Hne]; [by left|]. right.
  destruct (binary64_quotient p ltac:(lia)) as (m & e & Heq & Hrest).
  exists m, e. by rewrite Heq.
Qed.

Lemma price_usd_is_nearest_double_witness :
  ∃ df rec,
    files (save_variants truediv_column env_page2_fails [harvested_widget_row] world0).2
    = <["carex_variants_raw.xlsx" := df]> (files world0)
    ∧ records df !! 0%nat = Some rec
    ∧ rec !! "variant_price_usd" = Some (PFloat (FTrueDiv (FOfInt 1999) (FOfInt 100))).
Proof.
  destruct (price_usd_is_nearest_double env_page2_fails [harvested_widget_row] world0
              0%nat harvested_widget_row 1999)
    as (df & rec & Hfiles & Hrec & Hcell & _).
  - repeat (constructor;
            [exists harvested_widget_row;
             split; [by left | vm_compute; eexists; reflexivity]|]).
    constructor.
  - constructor; [|constructor]. right. right. by exists 1999.
  - reflexivity.
  - reflexivity.
  - lia.
  - exists df, rec. split; [exact Hfiles|]. split; [exact Hrec | exact Hcell].
Defined.

(** The price 1999 is not saved as the rational 19.99: the cell is the
    double [5626684784446013 * 2 ^ -48], which is less than 19.99 by
    [44 / (100 * 2 ^ 48)]; it is not the floor 19 either. *)
Lemma price_1999_is_not_exact :
  files (save_variants truediv_column env_page2_fails [harvested_widget_row] world0).2
    !! "carex_variants_raw.xlsx"
  = Some {| columns := keep_columns;
            records := [ {["variant_name" := PStr "Widget A";
                           "variant_sku" := PStr "ABC-1";
                           "variant_price_usd"
                             := PFloat (FTrueDiv (FOfInt 1999) (FOfInt 100));
                           "variant_public_title" := PStr "A"]} ] |}
  ∧ binary64 (FTrueDiv (FOfInt 1999) (FOfInt 100))
    = Some (S754_finite false 5626684784446013 (-48))
  ∧ 100 * 5626684784446013 = 1999 * 2 ^ 48 - 44
  ∧ 100 * 5626684784446013 ≠ 1999 * 2 ^ 48
  ∧ 5626684784446013 ≠ 1999 / 100 * 2 ^ 48.
Proof. vm_compute. repeat split; congruence. Qed.
